(** * prepare_misp_object.py: MISP object generators for a file and its PE structure

    A shallow embedding of [src/prepare_misp_object.py].  Python dictionaries
    are association lists in insertion order, the dynamic attributes of the
    generator instances are optional record fields, exceptions are an error
    monad, and the inner dictionaries that [_fill_object] updates in place
    live in an explicit store so that aliasing between them is visible. *)

From Stdlib Require Import ZArith List String Ascii Bool Lia PeanoNat.
From Stdlib Require Import DecimalString PrimFloat Uint63.
From Stdlib Require DecimalNat.
Import ListNotations.

Local Open Scope string_scope.
Local Open Scope list_scope.

(** ** Python values *)

(** The values that flow through the generators: JSON-like data from the
    object definitions and from [pefile]'s [dump_dict], digests, sizes, the
    entropy (a binary64 float) and raw buffers. *)
#[local] Unset Elimination Schemes.
Inductive pyval : Type :=
| PNone
| PBool (b : bool)
| PInt (z : Z)
| PFloat (f : float)
| PStr (s : string)
| PBytes (b : list Byte.byte)
| PList (l : list pyval)
| PDict (d : list (string * pyval)).
#[local] Set Elimination Schemes.

(** A [dict] with string keys, in insertion order. *)
Definition pydict : Type := list (string * pyval).

(** The exceptions the module can see.  [InvalidMISPObject] is the class the
    module declares itself; [PEFormatError] belongs to [pefile];
    [NewAttributeError] stands for what [pymisp] raises while it builds an
    attribute; the others are Python's built-in ones. *)
Inductive exn : Type :=
| InvalidMISPObject (msg : string)
| PEFormatError (msg : string)
| NewAttributeError (msg : string)
| KeyError (key : pyval)
| IndexError
| TypeError
| AttributeError (name : string)
| OSError (msg : string).

Inductive result (A : Type) : Type :=
| Ok (a : A)
| Raise (e : exn).
Arguments Ok {A} a.
Arguments Raise {A} e.

Definition rbind {A B} (r : result A) (k : A -> result B) : result B :=
  match r with
  | Ok a => k a
  | Raise e => Raise e
  end.

Definition rmap {A B} (f : A -> B) (r : result A) : result B :=
  rbind r (fun a => Ok (f a)).

Declare Scope result_scope.
Delimit Scope result_scope with result.
Notation "x <- c ;; k" := (rbind c (fun x => k))
  (at level 61, c at next level, right associativity) : result_scope.
Notation "' p <- c ;; k" := (rbind c (fun x => match x with p => k end))
  (at level 61, p pattern, c at next level, right associativity) : result_scope.

Fixpoint rmapM {A B} (f : A -> result B) (l : list A) : result (list B) :=
  match l with
  | [] => Ok []
  | a :: l' => (b <- f a ;; bs <- rmapM f l' ;; Ok (b :: bs))%result
  end.

(** *** Dictionaries *)

(** [d.get(k)] on the association list; [None] when the key is absent. *)
Fixpoint dict_find (d : pydict) (k : string) : option pyval :=
  match d with
  | [] => None
  | (k', v) :: d' => if String.eqb k k' then Some v else dict_find d' k
  end.

(** [d.get(k)]: the value, or Python's [None]. *)
Definition dict_get (d : pydict) (k : string) : pyval :=
  match dict_find d k with
  | Some v => v
  | None => PNone
  end.

(** [d[k] = v]: an existing key keeps its place, a new one goes last. *)
Fixpoint dict_set (d : pydict) (k : string) (v : pyval) : pydict :=
  match d with
  | [] => [(k, v)]
  | (k', v') :: d' =>
      if String.eqb k k' then (k', v) :: d' else (k', v') :: dict_set d' k v
  end.

Definition is_None (v : pyval) : bool :=
  match v with
  | PNone => true
  | _ => false
  end.

(** Truth value of an object, as [if x:] and [and] read it. *)
Definition truthy (v : pyval) : bool :=
  match v with
  | PNone => false
  | PBool b => b
  | PInt z => negb (z =? 0)%Z
  | PFloat f => negb (PrimFloat.eqb f 0%float)
  | PStr s => negb (String.eqb s "")
  | PBytes b => match b with [] => false | _ => true end
  | PList l => match l with [] => false | _ => true end
  | PDict d => match d with [] => false | _ => true end
  end.

(** [v.get(k)]: only dictionaries have the method. *)
Definition py_get (v : pyval) (k : string) : result pyval :=
  match v with
  | PDict d => Ok (dict_get d k)
  | _ => Raise (AttributeError "get")
  end.

(** [v[k]] with a string key. *)
Definition py_getitem (v : pyval) (k : string) : result pyval :=
  match v with
  | PDict d =>
      match dict_find d k with
      | Some x => Ok x
      | None => Raise (KeyError (PStr k))
      end
  | _ => Raise TypeError
  end.

(** [v[i]] with a non-negative integer index. *)
Definition py_getindex (v : pyval) (i : nat) : result pyval :=
  match v with
  | PList l =>
      match nth_error l i with
      | Some x => Ok x
      | None => Raise IndexError
      end
  | PStr s =>
      match String.get i s with
      | Some c => Ok (PStr (String c EmptyString))
      | None => Raise IndexError
      end
  | PBytes b =>
      match nth_error b i with
      | Some x => Ok (PInt (Z.of_N (Byte.to_N x)))
      | None => Raise IndexError
      end
  | PDict _ => Raise (KeyError (PInt (Z.of_nat i)))
  | _ => Raise TypeError
  end.

(** [a and b]: [b] is only evaluated when [a] is true. *)
Definition py_and (a b : result pyval) : result pyval :=
  (x <- a ;; if truthy x then b else Ok x)%result.

Fixpoint chars (s : string) : list pyval :=
  match s with
  | EmptyString => []
  | String c s' => PStr (String c EmptyString) :: chars s'
  end.

(** The elements a [for] loop sees. *)
Definition py_iter (v : pyval) : result (list pyval) :=
  match v with
  | PList l => Ok l
  | PDict d => Ok (map (fun kv => PStr (fst kv)) d)
  | PStr s => Ok (chars s)
  | PBytes b => Ok (map (fun x => PInt (Z.of_N (Byte.to_N x))) b)
  | _ => Raise TypeError
  end.

(** Integers as the arithmetic of the section test reads them ([bool] is a
    subclass of [int]).  [pefile] stores header fields as integers; for any
    other operand the model raises [TypeError], although Python would also
    order two floats or two strings. *)
Definition py_int (v : pyval) : result Z :=
  match v with
  | PInt z => Ok z
  | PBool b => Ok (if b then 1%Z else 0%Z)
  | _ => Raise TypeError
  end.

Definition py_ge (a b : pyval) : result bool :=
  (x <- py_int a ;; y <- py_int b ;; Ok (y <=? x)%Z)%result.

Definition py_lt (a b : pyval) : result bool :=
  (x <- py_int a ;; y <- py_int b ;; Ok (x <? y)%Z)%result.

Definition py_add (a b : pyval) : result pyval :=
  (x <- py_int a ;; y <- py_int b ;; Ok (PInt (x + y)))%result.

(** ['{}'.format(n)] for a non-negative integer. *)
Definition str_of_nat (n : nat) : string :=
  NilZero.string_of_uint (Nat.to_uint n).

(** [sep.join(l)] for a list of strings. *)
Definition join (sep : string) (l : list string) : string :=
  String.concat sep l.

(** ** The store of inner dictionaries *)

(** The [values] mapping handed to [_fill_object] maps attribute keys to
    dictionaries that the function updates in place.  Each such dictionary
    is an object with an address; two keys may share one. *)
Definition loc : Type := nat.
Definition heap : Type := loc -> pydict.

Definition upd (h : heap) (l : loc) (d : pydict) : heap :=
  fun l' => if Nat.eqb l' l then d else h l'.

(** [values]: attribute key to the address of its dictionary, in insertion
    order. *)
Definition values_map : Type := list (string * loc).

(** ** State and exceptions *)

(** Code that both updates a state and may raise: the store of inner
    dictionaries inside [_fill_object], the supply of fresh uuids in the
    constructors. *)
Definition ST (S A : Type) : Type := S -> S * result A.

Definition ret {S A} (a : A) : ST S A := fun s => (s, Ok a).

Definition raise {S A} (e : exn) : ST S A := fun s => (s, Raise e).

Definition lift {S A} (r : result A) : ST S A := fun s => (s, r).

Definition bind {S A B} (m : ST S A) (k : A -> ST S B) : ST S B :=
  fun s =>
    match m s with
    | (s', Ok a) => k a s'
    | (s', Raise e) => (s', Raise e)
    end.

Declare Scope st_scope.
Delimit Scope st_scope with st.
Notation "x <- c ;; k" := (bind c (fun x => k))
  (at level 61, c at next level, right associativity) : st_scope.
Notation "c ;;; k" := (bind c (fun _ => k))
  (at level 61, right associativity) : st_scope.

Fixpoint mapM {S A B} (f : A -> ST S B) (l : list A) : ST S (list B) :=
  match l with
  | [] => ret []
  | a :: l' => (b <- f a ;; bs <- mapM f l' ;; ret (b :: bs))%st
  end.

(** ** Object definitions and records *)

(** An object definition as [json.load] returns it from the misp-objects
    store.  The five descriptive keys and ['attributes'] are read with
    [definition[...]]; ['required'] and ['requiredOneOf'] are optional lists
    of attribute keys, read with [definition.get(...)]. *)
Record object_definition : Type := {
  def_name : pyval;
  def_meta_category : pyval;
  def_description : pyval;
  def_version : pyval;
  def_attributes : pyval;
  def_required : option (list string);
  def_requiredOneOf : option (list string)
}.

(** One entry of ['ObjectAttribute']. *)
Record object_attribute : Type := {
  oa_type : string;
  oa_Attribute : pyval
}.

(** One entry of ['ObjectReference']. *)
Record object_reference : Type := {
  referenced_object_uuid : string;
  comment : option string
}.

(** The dictionary [_fill_object] returns.  ['ObjectReference'] is a key the
    code only adds in some cases, hence the option. *)
Module MISPObject.
Record t : Type := {
  name : pyval;
  meta_category : pyval;
  uuid : string;
  description : pyval;
  version : pyval;
  ObjectAttribute : list object_attribute;
  ObjectReference : option (list object_reference)
}.

Definition set_ObjectReference (o : t) (r : list object_reference) : t :=
  {| name := name o; meta_category := meta_category o; uuid := uuid o;
     description := description o; version := version o;
     ObjectAttribute := ObjectAttribute o; ObjectReference := Some r |}.

Definition set_ObjectAttribute (o : t) (a : list object_attribute) : t :=
  {| name := name o; meta_category := meta_category o; uuid := uuid o;
     description := description o; version := version o;
     ObjectAttribute := a; ObjectReference := ObjectReference o |}.

(** The references of a record: the entries of ['ObjectReference'], none
    when the key is missing. *)
Definition references (o : t) : list object_reference :=
  match ObjectReference o with
  | Some r => r
  | None => []
  end.
End MISPObject.

(** ** The libraries around the module *)

(** What [pefile.PE(data)] gives access to: the three type tests, the
    import hash, the nested dictionary of [dump_dict()] and, per section in
    image order, the bytes of [get_data()]. *)
Module pefile.
Record PE : Type := {
  is_dll : bool;
  is_driver : bool;
  is_exe : bool;
  get_imphash : pyval;
  dump_dict : pyval;
  sections : list (list Byte.byte)
}.
End pefile.

(** The calls that leave the module.  [uuid_uuid4 n] is the string of the
    [n]-th uuid drawn in a run; [MISPAttribute_json value] is
    [attribute.set_all_values( **value)] followed by [attribute._json()],
    with [inl msg] when pymisp rejects the values. *)
Class Environment : Type := {
  uuid_uuid4 : nat -> string;
  json_load_definition : string -> result object_definition;
  MISPAttribute_json : pydict -> string + pyval;
  read_file : string -> result (list Byte.byte);
  os_path_basename : string -> string;
  os_path_getsize : string -> result Z;
  magic_from_buffer : list Byte.byte -> string;
  hashlib_md5 : list Byte.byte -> string;
  hashlib_sha1 : list Byte.byte -> string;
  hashlib_sha256 : list Byte.byte -> string;
  hashlib_sha512 : list Byte.byte -> string;
  pydeep_hash_buf : list Byte.byte -> string;
  math_log : float -> float -> float;
  pefile_PE : list Byte.byte -> result pefile.PE;
  str_format : pyval -> string
}.

(** ** class MISPObjectGenerator *)

Module MISPObjectGenerator.

(** The instance: [self.definition], [self.uuid] and [self.links], the list
    of [(uuid, comment)] pairs in the order of the [add_link] calls.
    ([self.misp_event] only feeds pymisp and is part of the environment.) *)
Record t : Type := {
  definition : object_definition;
  uuid : string;
  links : list (string * option string)
}.

Section Methods.
Context {env : Environment}.

(** [__init__]: load the definition, then draw the instance's uuid. *)
Definition __init__ (object_definition : string) : ST nat t :=
  (d <- lift (json_load_definition object_definition) ;;
   fun n => (S n, Ok {| definition := d; uuid := uuid_uuid4 n; links := [] |}))%st.

(** [add_link]: [self.links.append((uuid, comment))]. *)
Definition add_link (self : t) (uuid' : string) (comment' : option string) : t :=
  {| definition := definition self; uuid := uuid self;
     links := links self ++ [(uuid', comment')] |}.

(** [__new_empty_object]: the six keys of the empty shell; there is no
    ['ObjectReference'] key yet. *)
Definition __new_empty_object (self : t) (object_definiton : object_definition)
  : MISPObject.t :=
  {| MISPObject.name := def_name object_definiton;
     MISPObject.meta_category := def_meta_category object_definiton;
     MISPObject.uuid := uuid self;
     MISPObject.description := def_description object_definiton;
     MISPObject.version := def_version object_definiton;
     MISPObject.ObjectAttribute := [];
     MISPObject.ObjectReference := None |}.

Definition mem (k : string) (names : list string) : bool :=
  existsb (String.eqb k) names.

(** [for r in required: if r not in all_attribute_names: raise ...] *)
Fixpoint check_required (required : list string) (all_attribute_names : list string)
  : result unit :=
  match required with
  | [] => Ok tt
  | r :: rest =>
      if mem r all_attribute_names then check_required rest all_attribute_names
      else Raise (InvalidMISPObject (r ++ " is required is required"))
  end.

(** [set(requiredOneOf) & all_attribute_names], as a truth value. *)
Definition intersects (requiredOneOf all_attribute_names : list string) : bool :=
  existsb (fun r => mem r all_attribute_names) requiredOneOf.

(** The first check of [_validate]: a [requiredOneOf] list that is missing
    or empty is false for [if self.definition.get('requiredOneOf')]. *)
Definition requiredOneOf_check (self : t) (all_attribute_names : list string)
  : result unit :=
  match def_requiredOneOf (definition self) with
  | Some (r :: rs) =>
      if intersects (r :: rs) all_attribute_names then Ok tt
      else Raise (InvalidMISPObject
             ("At least one of the following attributes is required: "
              ++ join ", " (r :: rs)))
  | _ => Ok tt
  end.

(** The second check, skipped in the same way. *)
Definition required_check (self : t) (all_attribute_names : list string)
  : result unit :=
  match def_required (definition self) with
  | Some (r :: rs) => check_required (r :: rs) all_attribute_names
  | _ => Ok tt
  end.

(** [_validate].  Only the keys of [dump] are looked at.  (The [print] of
    the key set is not modelled.) *)
Definition _validate (self : t) (dump : values_map) : result bool :=
  let all_attribute_names := map fst dump in
  (_ <- requiredOneOf_check self all_attribute_names ;;
   _ <- required_check self all_attribute_names ;;
   Ok true)%result.

(** Reading and writing one key of the dictionary at an address. *)
Definition value_get (l : loc) (k : string) : ST heap pyval :=
  fun h => (h, Ok (dict_get (h l) k)).

Definition value_setitem (l : loc) (k : string) (v : pyval) : ST heap unit :=
  fun h => (upd h l (dict_set (h l) k v), Ok tt).

Definition value_read (l : loc) : ST heap pydict :=
  fun h => (h, Ok (h l)).

(** [self.definition['attributes'][object_type]] *)
Definition attribute_definition (self : t) (object_type : string) : result pyval :=
  py_getitem (def_attributes (definition self)) object_type.

Definition set_all_values_json (value : pydict) : result pyval :=
  match MISPAttribute_json value with
  | inl msg => Raise (NewAttributeError msg)
  | inr j => Ok j
  end.

(** The body of the loop over [values.items()] for one item: [None] for
    [continue], otherwise the entry to append. *)
Definition fill_attribute (self : t) (item : string * loc)
  : ST heap (option object_attribute) :=
  let (object_type, value) := item in
  (v <- value_get value "value" ;;
   if is_None v then ret None
   else
     ty <- lift (a <- attribute_definition self object_type ;;
                 py_getitem a "misp-attribute")%result ;;
     value_setitem value "type" ty ;;;
     dc <- value_get value "disable_correlation" ;;
     (if is_None dc then
        d <- lift (a <- attribute_definition self object_type ;;
                   py_get a "disable_correlation")%result ;;
        value_setitem value "disable_correlation" d
      else ret tt) ;;;
     ti <- value_get value "to_ids" ;;
     (if is_None ti then
        d <- lift (a <- attribute_definition self object_type ;;
                   py_get a "to_ids")%result ;;
        value_setitem value "to_ids" d
      else ret tt) ;;;
     kwargs <- value_read value ;;
     j <- lift (set_all_values_json kwargs) ;;
     ret (Some {| oa_type := object_type; oa_Attribute := j |}))%st.

(** The loop itself; [acc] is [empty_object['ObjectAttribute']]. *)
Fixpoint fill_attributes (self : t) (items : values_map)
  (acc : list object_attribute) : ST heap (list object_attribute) :=
  match items with
  | [] => ret acc
  | item :: rest =>
      (o <- fill_attribute self item ;;
       fill_attributes self rest
         match o with
         | Some a => acc ++ [a]
         | None => acc
         end)%st
  end.

(** [{'referenced_object_uuid': uuid, 'comment': comment}] *)
Definition reference_of_link (link : string * option string) : object_reference :=
  let (uuid', comment') := link in
  {| referenced_object_uuid := uuid'; comment := comment' |}.

(** [if self.links: empty_object["ObjectReference"] = [...]] *)
Definition set_links (self : t) (empty_object : MISPObject.t) : MISPObject.t :=
  match links self with
  | [] => empty_object
  | _ :: _ =>
      MISPObject.set_ObjectReference empty_object
        (map reference_of_link (links self))
  end.

(** [_fill_object]. *)
Definition _fill_object (self : t) (values : values_map) (strict : bool)
  : ST heap MISPObject.t :=
  ((if strict then (_ <- lift (_validate self values) ;; ret tt) else ret tt) ;;;
   let empty_object := __new_empty_object self (definition self) in
   let empty_object := set_links self empty_object in
   attrs <- fill_attributes self values (MISPObject.ObjectAttribute empty_object) ;;
   ret (MISPObject.set_ObjectAttribute empty_object attrs))%st.

(** Several [add_link] calls in a row. *)
Definition add_links (self : t) (calls : list (string * option string)) : t :=
  fold_left (fun g c => add_link g (fst c) (snd c)) calls self.

(** What a caller can do with an instance once it is built: add a link, or
    have a record assembled (every [dump] ends in [_fill_object]). *)
Inductive call : Type :=
| AddLink (uuid' : string) (comment' : option string)
| FillObject (values : values_map) (strict : bool).

(** A sequence of calls on one instance: the instance and the store
    afterwards, and what each [_fill_object] returned or raised. *)
Fixpoint run (self : t) (h : heap) (calls : list call)
  : t * heap * list (result MISPObject.t) :=
  match calls with
  | [] => (self, h, [])
  | AddLink u c :: rest => run (add_link self u c) h rest
  | FillObject values strict :: rest =>
      let (h', r) := _fill_object self values strict h in
      let '(self', h'', rs) := run self h' rest in
      (self', h'', r :: rs)
  end.

(** A [dump] method builds its [values] from fresh dictionaries, one per
    key, that nothing else refers to: they are laid out at the addresses
    [0, 1, ...] of a store of their own, which is dropped afterwards. *)
Fixpoint alloc_values (entries : list (string * pydict)) (next : loc)
  : heap * values_map :=
  match entries with
  | [] => (fun _ => [], [])
  | (k, d) :: rest =>
      let (h, vs) := alloc_values rest (S next) in
      (upd h next d, (k, next) :: vs)
  end.

Definition fill_fresh (self : t) (entries : list (string * pydict))
  : result MISPObject.t :=
  let (h, values) := alloc_values entries 0 in
  snd (_fill_object self values true h).

End Methods.
End MISPObjectGenerator.

(** Reading an instance attribute that may never have been assigned. *)
Definition getattr {A} (name : string) (field : option A) : result A :=
  match field with
  | Some a => Ok a
  | None => Raise (AttributeError name)
  end.

(** [x > 0] *)
Definition py_gt0 (v : pyval) : result bool :=
  (x <- py_int v ;; Ok (0 <? x)%Z)%result.

(** [{'value': v}] *)
Definition value_only (v : pyval) : pydict := [("value", v)].

(** ** class FileObject *)

Module FileObject.

(** [filetype] to [ssdeep] are only assigned for a file that is not empty. *)
Record t : Type := {
  base : MISPObjectGenerator.t;
  filepath : string;
  pseudo_file : list Byte.byte;
  data : list Byte.byte;
  filename : string;
  size : Z;
  filetype : option string;
  entropy : option float;
  md5 : option string;
  sha1 : option string;
  sha256 : option string;
  sha512 : option string;
  ssdeep : option string
}.

Section Methods.
Context {env : Environment}.

(** [Counter(bytearray(data))]: one count per byte value, in the order the
    values first occur. *)
Fixpoint counter_incr (c : list (Byte.byte * nat)) (b : Byte.byte)
  : list (Byte.byte * nat) :=
  match c with
  | [] => [(b, 1)]
  | (b', n) :: c' =>
      if Byte.eqb b b' then (b', S n) :: c' else (b', n) :: counter_incr c' b
  end.

Definition Counter (data : list Byte.byte) : list (Byte.byte * nat) :=
  fold_left counter_incr data [].

(** [float(n)], correctly rounded; exact below 2^53. *)
Definition float_of_nat (n : nat) : float :=
  PrimFloat.of_uint63 (Uint63.of_Z (Z.of_nat n)).

(** [__entropy_H]: binary64 arithmetic, with the logarithm of the C
    library behind [math.log]. *)
Definition __entropy_H (data : list Byte.byte) : float :=
  match data with
  | [] => 0%float
  | _ :: _ =>
      let occurences := Counter data in
      fold_left
        (fun entropy x =>
           let p_x := (float_of_nat x / float_of_nat (List.length data))%float in
           (entropy - p_x * math_log p_x 2)%float)
        (map snd occurences) 0%float
  end.

(** [generate_attributes], on the instance [__init__] has prepared. *)
Definition generate_attributes (base' : MISPObjectGenerator.t)
  (filepath' : string) (data' : list Byte.byte) : result t :=
  (size' <- os_path_getsize filepath' ;;
   let filename' := os_path_basename filepath' in
   if (0 <? size')%Z then
     Ok {| base := base'; filepath := filepath'; pseudo_file := data';
           data := data'; filename := filename'; size := size';
           filetype := Some (magic_from_buffer data');
           entropy := Some (__entropy_H data');
           md5 := Some (hashlib_md5 data');
           sha1 := Some (hashlib_sha1 data');
           sha256 := Some (hashlib_sha256 data');
           sha512 := Some (hashlib_sha512 data');
           ssdeep := Some (pydeep_hash_buf data') |}
   else
     Ok {| base := base'; filepath := filepath'; pseudo_file := data';
           data := data'; filename := filename'; size := size';
           filetype := None; entropy := None; md5 := None; sha1 := None;
           sha256 := None; sha512 := None; ssdeep := None |})%result.

Definition __init__ (filepath' : string) : ST nat t :=
  (base' <- MISPObjectGenerator.__init__ "file/definition.json" ;;
   data' <- lift (read_file filepath') ;;
   lift (generate_attributes base' filepath' data'))%st.

Definition add_link (self : t) (uuid' : string) (comment' : option string) : t :=
  {| base := MISPObjectGenerator.add_link (base self) uuid' comment';
     filepath := filepath self; pseudo_file := pseudo_file self;
     data := data self; filename := filename self; size := size self;
     filetype := filetype self; entropy := entropy self; md5 := md5 self;
     sha1 := sha1 self; sha256 := sha256 self; sha512 := sha512 self;
     ssdeep := ssdeep self |}.

(** The [values] dictionary of [dump], key by key. *)
Definition dump_values (self : t) : result (list (string * pydict)) :=
  let file_object :=
    [("filename", value_only (PStr (filename self)));
     ("size-in-bytes", value_only (PInt (size self)))] in
  if (0 <? size self)%Z then
    (entropy' <- getattr "entropy" (entropy self) ;;
     ssdeep' <- getattr "ssdeep" (ssdeep self) ;;
     sha512' <- getattr "sha512" (sha512 self) ;;
     md5' <- getattr "md5" (md5 self) ;;
     sha1' <- getattr "sha1" (sha1 self) ;;
     sha256' <- getattr "sha256" (sha256 self) ;;
     Ok (file_object ++
         [("entropy", value_only (PFloat entropy'));
          ("ssdeep", value_only (PStr ssdeep'));
          ("sha512", value_only (PStr sha512'));
          ("md5", value_only (PStr md5'));
          ("sha1", value_only (PStr sha1'));
          ("sha256", value_only (PStr sha256'));
          ("malware-sample",
           [("value", PStr (filename self ++ "|" ++ md5'));
            ("data", PBytes (pseudo_file self))])]))%result
  else Ok file_object.

Definition dump (self : t) : result MISPObject.t :=
  (file_object <- dump_values self ;;
   MISPObjectGenerator.fill_fresh (base self) file_object)%result.

End Methods.
End FileObject.

(** ** class PESectionObject *)

Module PESectionObject.

Record t : Type := {
  base : MISPObjectGenerator.t;
  section_info : pyval;
  data : list Byte.byte;
  name : pyval;
  size : pyval;
  entropy : option pyval;
  md5 : option pyval;
  sha1 : option pyval;
  sha256 : option pyval;
  sha512 : option pyval;
  ssdeep : option string
}.

Section Methods.
Context {env : Environment}.

Definition generate_attributes (base' : MISPObjectGenerator.t)
  (section_info' : pyval) (data' : list Byte.byte) : result t :=
  (name' <- (n <- py_getitem section_info' "Name" ;; py_getitem n "Value") ;;
   size' <- (n <- py_getitem section_info' "SizeOfRawData" ;; py_getitem n "Value") ;;
   positive <- py_gt0 size' ;;
   if positive : bool then
     entropy' <- py_getitem section_info' "Entropy" ;;
     md5' <- py_getitem section_info' "MD5" ;;
     sha1' <- py_getitem section_info' "SHA1" ;;
     sha256' <- py_getitem section_info' "SHA256" ;;
     sha512' <- py_getitem section_info' "SHA512" ;;
     Ok {| base := base'; section_info := section_info'; data := data';
           name := name'; size := size';
           entropy := Some entropy'; md5 := Some md5'; sha1 := Some sha1';
           sha256 := Some sha256'; sha512 := Some sha512';
           ssdeep := Some (pydeep_hash_buf data') |}
   else
     Ok {| base := base'; section_info := section_info'; data := data';
           name := name'; size := size';
           entropy := None; md5 := None; sha1 := None; sha256 := None;
           sha512 := None; ssdeep := None |})%result.

Definition __init__ (section_info' : pyval) (data' : list Byte.byte) : ST nat t :=
  (base' <- MISPObjectGenerator.__init__ "pe-section/definition.json" ;;
   lift (generate_attributes base' section_info' data'))%st.

Definition dump_values (self : t) : result (list (string * pydict)) :=
  let section :=
    [("name", value_only (name self));
     ("size-in-bytes", value_only (size self))] in
  (positive <- py_gt0 (size self) ;;
   if positive : bool then
     entropy' <- getattr "entropy" (entropy self) ;;
     md5' <- getattr "md5" (md5 self) ;;
     sha1' <- getattr "sha1" (sha1 self) ;;
     sha256' <- getattr "sha256" (sha256 self) ;;
     sha512' <- getattr "sha512" (sha512 self) ;;
     ssdeep' <- getattr "ssdeep" (ssdeep self) ;;
     Ok (section ++
         [("entropy", value_only entropy');
          ("md5", value_only md5');
          ("sha1", value_only sha1');
          ("sha256", value_only sha256');
          ("sha512", value_only sha512');
          ("ssdeep", value_only (PStr ssdeep'))])
   else Ok section)%result.

Definition dump (self : t) : result MISPObject.t :=
  (section <- dump_values self ;;
   MISPObjectGenerator.fill_fresh (base self) section)%result.

End Methods.
End PESectionObject.

(** ** class PEObject *)

Module PEObject.

(** [pe_type], [imphash], [sections] and [nb_sections] are assigned on every
    path through [generate_attributes]; the other attributes only exist
    when the parsed image has the data, and [dump] asks [hasattr] for them. *)
Record t : Type := {
  base : MISPObjectGenerator.t;
  data : list Byte.byte;
  pe : pefile.PE;
  pe_type : string;
  imphash : pyval;
  compilation_timestamp : option pyval;
  entrypoint_address : option pyval;
  original_filename : option pyval;
  internal_filename : option pyval;
  file_description : option pyval;
  file_version : option pyval;
  lang_id : option pyval;
  product_name : option pyval;
  product_version : option pyval;
  company_name : option pyval;
  legal_copyright : option pyval;
  sections : list PESectionObject.t;
  entrypoint_section : option (pyval * nat);
  nb_sections : nat
}.

(** What the loop over ['PE Sections'] updates: [self.links] (inside the
    base instance), [self.sections] and [self.entrypoint_section]. *)
Record loop_state : Type := {
  ls_base : MISPObjectGenerator.t;
  ls_sections : list PESectionObject.t;
  ls_entrypoint_section : option (pyval * nat)
}.

Section Methods.
Context {env : Environment}.

(** [all_data['Debug information'][0]] *)
Definition debug_information_0 (all_data : pyval) : result pyval :=
  (d <- py_getitem all_data "Debug information" ;; py_getindex d 0)%result.

(** [self.compilation_timestamp], when the three-part test holds. *)
Definition read_compilation_timestamp (all_data : pyval) : result (option pyval) :=
  (c <- py_and (py_get all_data "Debug information")
         (py_and (d <- debug_information_0 all_data ;; py_get d "TimeDateStamp")
                 (d <- debug_information_0 all_data ;;
                  ts <- py_getitem d "TimeDateStamp" ;;
                  py_get ts "ISO Time")) ;;
   if truthy c then
     d <- debug_information_0 all_data ;;
     ts <- py_getitem d "TimeDateStamp" ;;
     iso <- py_getitem ts "ISO Time" ;;
     Ok (Some iso)
   else Ok None)%result.

(** [self.entrypoint_address], when the two-part test holds. *)
Definition read_entrypoint_address (all_data : pyval) : result (option pyval) :=
  (c <- py_and (py_get all_data "OPTIONAL_HEADER")
         (o <- py_getitem all_data "OPTIONAL_HEADER" ;;
          py_get o "AddressOfEntryPoint") ;;
   if truthy c then
     o <- py_getitem all_data "OPTIONAL_HEADER" ;;
     a <- py_getitem o "AddressOfEntryPoint" ;;
     v <- py_getitem a "Value" ;;
     Ok (Some v)
   else Ok None)%result.

(** [all_data['File Info'][1].get(key)] *)
Definition file_info_1_get (all_data : pyval) (key : string) : result pyval :=
  (f <- py_getitem all_data "File Info" ;;
   f1 <- py_getindex f 1 ;;
   py_get f1 key)%result.

(** The test that places the entry point in section [s]; the address is
    read from the instance before anything else. *)
Definition entrypoint_in_section (entrypoint_address' : option pyval) (s : pyval)
  : result bool :=
  (ea <- getattr "entrypoint_address" entrypoint_address' ;;
   va <- (x <- py_getitem s "VirtualAddress" ;; py_getitem x "Value") ;;
   c1 <- py_ge ea va ;;
   if c1 : bool then
     ea <- getattr "entrypoint_address" entrypoint_address' ;;
     va <- (x <- py_getitem s "VirtualAddress" ;; py_getitem x "Value") ;;
     vs <- (x <- py_getitem s "Misc_VirtualSize" ;; py_getitem x "Value") ;;
     end_ <- py_add va vs ;;
     py_lt ea end_
   else Ok false)%result.

(** One round of [for s in all_data['PE Sections']], at position [pos]. *)
Definition section_step (pe' : pefile.PE) (entrypoint_address' : option pyval)
  (st : loop_state) (pos : nat) (s : pyval) : ST nat loop_state :=
  (s_obj <- lift (match nth_error (pefile.sections pe') pos with
                  | Some b => Ok b
                  | None => Raise IndexError
                  end) ;;
   section <- PESectionObject.__init__ s s_obj ;;
   let base' :=
     MISPObjectGenerator.add_link (ls_base st)
       (MISPObjectGenerator.uuid (PESectionObject.base section))
       (Some ("Section " ++ str_of_nat pos ++ " of PE")%string) in
   inside <- lift (entrypoint_in_section entrypoint_address' s) ;;
   let entrypoint_section' :=
     if inside : bool then
       match (n <- py_getitem s "Name" ;; py_getitem n "Value")%result with
       | Ok nm => Ok (Some (nm, pos))
       | Raise e => Raise e
       end
     else Ok (ls_entrypoint_section st) in
   es <- lift entrypoint_section' ;;
   ret {| ls_base := base';
          ls_sections := ls_sections st ++ [section];
          ls_entrypoint_section := es |})%st.

Fixpoint section_loop (pe' : pefile.PE) (entrypoint_address' : option pyval)
  (st : loop_state) (pos : nat) (ss : list pyval) : ST nat loop_state :=
  match ss with
  | [] => ret st
  | s :: rest =>
      (st' <- section_step pe' entrypoint_address' st pos s ;;
       section_loop pe' entrypoint_address' st' (S pos) rest)%st
  end.

(** The nine fields of the version resource, in the order of the
    assignments, when [all_data.get('File Info')] is true. *)
Definition version_fields : Type :=
  (pyval * pyval * pyval * pyval * pyval * pyval * pyval * pyval * pyval)%type.

Definition read_file_info (all_data : pyval) : result (option version_fields) :=
  (file_info <- py_get all_data "File Info" ;;
   if truthy file_info then
     a <- file_info_1_get all_data "OriginalFilename" ;;
     b <- file_info_1_get all_data "InternalName" ;;
     c <- file_info_1_get all_data "FileDescription" ;;
     d <- file_info_1_get all_data "FileVersion" ;;
     e <- file_info_1_get all_data "LangID" ;;
     f <- file_info_1_get all_data "ProductName" ;;
     g <- file_info_1_get all_data "ProductVersion" ;;
     h <- file_info_1_get all_data "CompanyName" ;;
     i <- file_info_1_get all_data "LegalCopyright" ;;
     Ok (Some (a, b, c, d, e, f, g, h, i))
   else Ok None)%result.

(** The part of [generate_attributes] from [self.sections = []] to the end
    of the loop. *)
Definition read_sections (base' : MISPObjectGenerator.t) (pe' : pefile.PE)
  (entrypoint_address' : option pyval) : ST nat loop_state :=
  let st0 := {| ls_base := base'; ls_sections := [];
                ls_entrypoint_section := None |} in
  (pe_sections <- lift (py_get (pefile.dump_dict pe') "PE Sections") ;;
   if truthy pe_sections then
     ss <- lift (s <- py_getitem (pefile.dump_dict pe') "PE Sections" ;;
                 py_iter s)%result ;;
     section_loop pe' entrypoint_address' st0 0 ss
   else ret st0)%st.

Definition generate_attributes (base' : MISPObjectGenerator.t)
  (data' : list Byte.byte) (pe' : pefile.PE) : ST nat t :=
  let pe_type' :=
    if pefile.is_dll pe' then "dll"
    else if pefile.is_driver pe' then "driver"
    else if pefile.is_exe pe' then "exe"
    else "unknown" in
  let imphash' := pefile.get_imphash pe' in
  let all_data := pefile.dump_dict pe' in
  (compilation_timestamp' <- lift (read_compilation_timestamp all_data) ;;
   entrypoint_address' <- lift (read_entrypoint_address all_data) ;;
   file_info <- lift (read_file_info all_data) ;;
   let field (p : version_fields -> pyval) : option pyval :=
     option_map p file_info in
   st <- read_sections base' pe' entrypoint_address' ;;
   ret {| base := ls_base st; data := data'; pe := pe';
          pe_type := pe_type'; imphash := imphash';
          compilation_timestamp := compilation_timestamp';
          entrypoint_address := entrypoint_address';
          original_filename :=
            field (fun '(a, _, _, _, _, _, _, _, _) => a);
          internal_filename :=
            field (fun '(_, b, _, _, _, _, _, _, _) => b);
          file_description :=
            field (fun '(_, _, c, _, _, _, _, _, _) => c);
          file_version :=
            field (fun '(_, _, _, d, _, _, _, _, _) => d);
          lang_id :=
            field (fun '(_, _, _, _, e, _, _, _, _) => e);
          product_name :=
            field (fun '(_, _, _, _, _, f, _, _, _) => f);
          product_version :=
            field (fun '(_, _, _, _, _, _, g, _, _) => g);
          company_name :=
            field (fun '(_, _, _, _, _, _, _, h, _) => h);
          legal_copyright :=
            field (fun '(_, _, _, _, _, _, _, _, i) => i);
          sections := ls_sections st;
          entrypoint_section := ls_entrypoint_section st;
          nb_sections := List.length (ls_sections st) |})%st.

Definition __init__ (data' : list Byte.byte) : ST nat t :=
  (base' <- MISPObjectGenerator.__init__ "pe/definition.json" ;;
   pe' <- lift (pefile_PE data') ;;
   generate_attributes base' data' pe')%st.

(** [if hasattr(self, attr): pe_object[key] = {'value': self.attr}] *)
Definition when_set (key : string) (field : option pyval) : list (string * pydict) :=
  match field with
  | Some v => [(key, value_only v)]
  | None => []
  end.

Definition dump_values (self : t) : list (string * pydict) :=
  [("type", value_only (PStr (pe_type self)))]
  ++ [("imphash", value_only (imphash self))]
  ++ when_set "original-filename" (original_filename self)
  ++ when_set "internal-filename" (internal_filename self)
  ++ when_set "compilation-timestamp" (compilation_timestamp self)
  ++ when_set "entrypoint-section|position"
       (option_map (fun '(nm, pos) => PStr (str_format nm ++ "|" ++ str_of_nat pos))
          (entrypoint_section self))
  ++ when_set "entrypoint-address" (entrypoint_address self)
  ++ when_set "file-description" (file_description self)
  ++ when_set "file-version" (file_version self)
  ++ when_set "lang-id" (lang_id self)
  ++ when_set "product-name" (product_name self)
  ++ when_set "product-version" (product_version self)
  ++ when_set "company-name" (company_name self)
  ++ [("number-sections", value_only (PInt (Z.of_nat (nb_sections self))))].

Definition dump (self : t) : result MISPObject.t :=
  MISPObjectGenerator.fill_fresh (base self) (dump_values self).

End Methods.
End PEObject.

(** ** make_objects *)

Section Pipeline.
Context {env : Environment}.

Definition objects : Type :=
  (MISPObject.t * option MISPObject.t * option (list MISPObject.t))%type.

(** The three dumps of the [try] body, in the order of the source. *)
Definition dump_all (misp_file : FileObject.t) (misp_pe : PEObject.t)
  : result objects :=
  (file_object <- FileObject.dump misp_file ;;
   pe_object <- PEObject.dump misp_pe ;;
   pe_sections <- rmapM PESectionObject.dump (PEObject.sections misp_pe) ;;
   Ok (file_object, Some pe_object, Some pe_sections))%result.

(** The body of the [try]: the outcome, together with [misp_file] as the
    body leaves it (the link it adds stays on the instance whatever happens
    afterwards). *)
Definition try_body (misp_file : FileObject.t)
  : ST nat (FileObject.t * result objects) :=
  fun n =>
    match PEObject.__init__ (FileObject.data misp_file) n with
    | (n', Raise e) => (n', Ok (misp_file, Raise e))
    | (n', Ok misp_pe) =>
        let misp_file :=
          FileObject.add_link misp_file
            (MISPObjectGenerator.uuid (PEObject.base misp_pe))
            (Some "PE indicators") in
        (n', Ok (misp_file, dump_all misp_file misp_pe))
    end.

Definition make_objects (filepath : string) : ST nat objects :=
  (misp_file <- FileObject.__init__ filepath ;;
   tried <- try_body misp_file ;;
   let (misp_file, outcome) := tried : FileObject.t * result objects in
   match outcome with
   | Ok r => ret r
   | Raise (PEFormatError _) =>
       file_object <- lift (FileObject.dump misp_file) ;;
       ret (file_object, None, None)
   | Raise e => raise e
   end)%st.

End Pipeline.

(** ** Vocabulary of the statements *)

Section Vocabulary.
Context {env : Environment}.
Import MISPObjectGenerator.

(** Exceptions that the loop over the values cannot raise. *)
Definition loop_exn (e : exn) : Prop :=
  match e with
  | InvalidMISPObject _ | PEFormatError _ => False
  | _ => True
  end.

Definition written_key (key : string) : Prop :=
  key = "type" \/ key = "disable_correlation" \/ key = "to_ids".

(** The keys whose dictionary holds a value that is not [None]. *)
Definition has_value (h : heap) (item : string * loc) : bool :=
  negb (is_None (dict_get (h (snd item)) "value")).

(** Where an emitted attribute comes from: a key of [values] whose value is
    not [None] in the store [h], rendered by pymisp from keyword arguments
    that carry this very value. *)
Definition emitted_from (h : heap) (values : values_map) (a : object_attribute)
  : Prop :=
  exists l kwargs,
    In (oa_type a, l) values /\
    is_None (dict_get (h l) "value") = false /\
    dict_get kwargs "value" = dict_get (h l) "value" /\
    set_all_values_json kwargs = Ok (oa_Attribute a).

(** What the loop does to the dictionary [d] of key [k] when it holds a
    value: [d'] has the attribute type of the definition under ['type']; under
    ['disable_correlation'] and ['to_ids'] it keeps an entry of [d] that is
    not [None] and otherwise has what the definition's attribute gives with
    [.get] (so [None] when the definition has no default); every other key
    reads as in [d]. *)
Definition filled_in (self : t) (k : string) (d d' : pydict) : Prop :=
  (forall key, ~ written_key key -> dict_find d' key = dict_find d key) /\
  exists ad ty,
    attribute_definition self k = Ok (PDict ad) /\
    dict_find ad "misp-attribute" = Some ty /\
    dict_find d' "type" = Some ty /\
    dict_get d' "disable_correlation" =
      (if is_None (dict_get d "disable_correlation")
       then dict_get ad "disable_correlation"
       else dict_get d "disable_correlation") /\
    dict_get d' "to_ids" =
      (if is_None (dict_get d "to_ids")
       then dict_get ad "to_ids"
       else dict_get d "to_ids").

(** The first constraint as the code checks it: the definition has no
    [requiredOneOf] list, or an empty one, or one of its keys is a key of
    [dump], whatever that key's value. *)
Definition requiredOneOf_holds (self : t) (names : list string) : Prop :=
  match def_requiredOneOf (definition self) with
  | Some l => l = [] \/ exists k, In k l /\ In k names
  | None => True
  end.

(** The second constraint: every key of the [required] list, if there is
    one, is a key of [dump]. *)
Definition required_holds (self : t) (names : list string) : Prop :=
  match def_required (definition self) with
  | Some l => forall r, In r l -> In r names
  | None => True
  end.

(** The links a [PEObject] holds after the loop over the sections [secs],
    the first of which is at position [pos]. *)
Fixpoint section_links (pos : nat) (secs : list PESectionObject.t)
  : list (string * option string) :=
  match secs with
  | [] => []
  | sec :: rest =>
      (MISPObjectGenerator.uuid (PESectionObject.base sec),
       Some ("Section " ++ str_of_nat pos ++ " of PE")%string)
      :: section_links (S pos) rest
  end.

Definition is_PEFormatError (e : exn) : Prop :=
  match e with
  | PEFormatError _ => True
  | _ => False
  end.

(** The first constraint in the words of the claim: one of the keys is in
    [dump] with a value that is not [None]. *)
Definition present_with_value (h : heap) (dump : values_map) (l : list string) : bool :=
  existsb (fun k => existsb (fun item => String.eqb k (fst item) && has_value h item) dump) l.

End Vocabulary.

(** ** Vocabulary of the further statements *)

(** [value.get('value') is not None], for an entry of a dump. *)
Definition entry_has_value (entry : string * pydict) : bool :=
  negb (is_None (dict_get (snd entry) "value")).

(** All the records a call returned: the file, the executable if any, the
    sections if any. *)
Definition records_of (o : objects) : list MISPObject.t :=
  let '(file_object, pe_object, pe_sections) := o in
  file_object
  :: match pe_object with Some p => [p] | None => [] end
  ++ match pe_sections with Some l => l | None => [] end.

(** The keys under which [PEObject.dump] puts the version resource.
    ([legal_copyright] is read by the constructor and not dumped.) *)
Definition version_keys : list string :=
  ["original-filename"; "internal-filename"; "file-description";
   "file-version"; "lang-id"; "product-name"; "product-version";
   "company-name"]%string.

(** The count of a byte value in a table of counts, 0 when it has none. *)
Fixpoint count_in (c : list (Byte.byte * nat)) (b : Byte.byte) : nat :=
  match c with
  | [] => 0
  | (b', n) :: c' => if Byte.eqb b b' then n else count_in c' b
  end.

Section SectionVocabulary.
Import PEObject.

(** [s['VirtualAddress']['Value']] and [s['Misc_VirtualSize']['Value']] *)
Definition virtual_address (s : pyval) : result pyval :=
  (x <- py_getitem s "VirtualAddress" ;; py_getitem x "Value")%result.

Definition virtual_size (s : pyval) : result pyval :=
  (x <- py_getitem s "Misc_VirtualSize" ;; py_getitem x "Value")%result.

(** [s['Name']['Value']] *)
Definition section_name (s : pyval) : result pyval :=
  (x <- py_getitem s "Name" ;; py_getitem x "Value")%result.

(** The entries of ['PE Sections'] that the loop visits: none when the
    key is missing or false. *)
Definition pe_sections_entries (all_data : pyval) : result (list pyval) :=
  (v <- py_get all_data "PE Sections" ;;
   if truthy v then (x <- py_getitem all_data "PE Sections" ;; py_iter x)
   else Ok [])%result.

(** The nine attributes of the version resource, as a tuple. *)
Definition version_attributes (self : t) : option version_fields :=
  match original_filename self, internal_filename self, file_description self,
        file_version self, lang_id self, product_name self,
        product_version self, company_name self, legal_copyright self with
  | Some a, Some b, Some c, Some d, Some e, Some f, Some g, Some h, Some i =>
      Some (a, b, c, d, e, f, g, h, i)
  | _, _, _, _, _, _, _, _, _ => None
  end.

Definition no_version_attribute (self : t) : Prop :=
  original_filename self = None /\ internal_filename self = None /\
  file_description self = None /\ file_version self = None /\
  lang_id self = None /\ product_name self = None /\
  product_version self = None /\ company_name self = None /\
  legal_copyright self = None.

End SectionVocabulary.

Section RoundVocabulary.
Context {env : Environment}.
Import MISPObjectGenerator.

(** [if value.get(key) is None: value[key] = attribute.get(key)] *)
Definition with_default (ad d : pydict) (key : string) : pydict :=
  if is_None (dict_get d key) then dict_set d key (dict_get ad key) else d.

(** The dictionary of a key after its round, [ad] being the definition of
    the attribute and [ty] its type. *)
Definition filled (ad : pydict) (ty : pyval) (d : pydict) : pydict :=
  with_default ad
    (with_default ad (dict_set d "type" ty) "disable_correlation") "to_ids".

(** The attribute definition and the type that a round looks up for a key. *)
Definition lookup_attribute (self : t) (k : string) : result (pydict * pyval) :=
  match attribute_definition self k with
  | Ok (PDict ad) =>
      match dict_find ad "misp-attribute" with
      | Some ty => Ok (ad, ty)
      | None => Raise (KeyError (PStr "misp-attribute"))
      end
  | Ok _ => Raise TypeError
  | Raise e => Raise e
  end.

(** What a round does to the dictionary [d] of key [k], and what it
    returns. *)
Definition round_dict (self : t) (k : string) (d : pydict) : pydict :=
  if is_None (dict_get d "value") then d
  else match lookup_attribute self k with
       | Ok (ad, ty) => filled ad ty d
       | Raise _ => d
       end.

Definition round_result (self : t) (k : string) (d : pydict)
  : result (option object_attribute) :=
  if is_None (dict_get d "value") then Ok None
  else match lookup_attribute self k with
       | Ok (ad, ty) =>
           rmap (fun j => Some {| oa_type := k; oa_Attribute := j |})
             (set_all_values_json (filled ad ty d))
       | Raise e => Raise e
       end.

(** A key that [with_default] leaves alone: it holds a value that is not
    [None], or it holds what the definition gives. *)
Definition settled (ad d : pydict) (key : string) : Prop :=
  is_None (dict_get d key) = false \/ dict_find d key = Some (dict_get ad key).

End RoundVocabulary.

(** ** Sample data *)

(** A small environment on which the definitions can be run: three object
    definitions, three files, and stand-ins for the digests. *)
Module Sample.

Definition attribute (misp_attribute : string) (more : pydict) : pyval :=
  PDict (("misp-attribute", PStr misp_attribute) :: more).

Definition file_definition : object_definition :=
  {| def_name := PStr "file";
     def_meta_category := PStr "file";
     def_description := PStr "File object describing a file with meta-information";
     def_version := PInt 1;
     def_attributes :=
       PDict [("filename", attribute "filename" [("disable_correlation", PBool true)]);
              ("size-in-bytes", attribute "size-in-bytes" [("disable_correlation", PBool true)]);
              ("entropy", attribute "float" [("disable_correlation", PBool true)]);
              ("ssdeep", attribute "ssdeep" []);
              ("sha512", attribute "sha512" []);
              ("md5", attribute "md5" [("to_ids", PBool true)]);
              ("sha1", attribute "sha1" []);
              ("sha256", attribute "sha256" []);
              ("malware-sample", attribute "malware-sample" [])];
     def_required := None;
     def_requiredOneOf := Some ["filename"; "size-in-bytes"; "md5"; "sha1"; "sha256"] |}.

Definition pe_definition : object_definition :=
  {| def_name := PStr "pe";
     def_meta_category := PStr "file";
     def_description := PStr "Object describing a Portable Executable";
     def_version := PInt 1;
     def_attributes :=
       PDict [("type", attribute "text" []);
              ("imphash", attribute "imphash" []);
              ("original-filename", attribute "filename" []);
              ("internal-filename", attribute "filename" []);
              ("compilation-timestamp", attribute "datetime" []);
              ("entrypoint-section|position", attribute "text" []);
              ("entrypoint-address", attribute "text" []);
              ("file-description", attribute "text" []);
              ("file-version", attribute "text" []);
              ("lang-id", attribute "text" []);
              ("product-name", attribute "text" []);
              ("product-version", attribute "text" []);
              ("company-name", attribute "text" []);
              ("number-sections", attribute "counter" [("disable_correlation", PBool true)])];
     def_required := Some ["type"];
     def_requiredOneOf := None |}.

Definition pe_section_definition : object_definition :=
  {| def_name := PStr "pe-section";
     def_meta_category := PStr "file";
     def_description := PStr "Object describing a section of a Portable Executable";
     def_version := PInt 1;
     def_attributes :=
       PDict [("name", attribute "text" []);
              ("size-in-bytes", attribute "size-in-bytes" [("disable_correlation", PBool true)]);
              ("entropy", attribute "float" []);
              ("md5", attribute "md5" []);
              ("sha1", attribute "sha1" []);
              ("sha256", attribute "sha256" []);
              ("sha512", attribute "sha512" []);
              ("ssdeep", attribute "ssdeep" [])];
     def_required := None;
     def_requiredOneOf := Some ["md5"; "sha1"; "sha256"; "name"] |}.

(** The bytes of three files: an executable with two sections, an
    executable whose dump has sections but no optional header, and a text. *)
Definition exe_bytes : list Byte.byte := [Byte.x4d; Byte.x5a; Byte.x90; Byte.x00].
Definition odd_bytes : list Byte.byte := [Byte.x4d; Byte.x5a; Byte.x00].
Definition txt_bytes : list Byte.byte := [Byte.x68; Byte.x69].

Definition bytes_eqb (a b : list Byte.byte) : bool :=
  if list_eq_dec Byte.byte_eq_dec a b then true else false.

Definition field (v : pyval) : pyval := PDict [("Value", v)].

Definition section_info (nm : string) (va vs raw : Z) : pyval :=
  PDict [("Name", field (PStr nm));
         ("Misc_VirtualSize", field (PInt vs));
         ("VirtualAddress", field (PInt va));
         ("SizeOfRawData", field (PInt raw));
         ("Entropy", PFloat 1%float);
         ("MD5", PStr "md5-of-section");
         ("SHA1", PStr "sha1-of-section");
         ("SHA256", PStr "sha256-of-section");
         ("SHA512", PStr "sha512-of-section")].

Definition exe : pefile.PE :=
  {| pefile.is_dll := false;
     pefile.is_driver := false;
     pefile.is_exe := true;
     pefile.get_imphash := PStr "imphash-of-exe";
     pefile.dump_dict :=
       PDict [("OPTIONAL_HEADER",
               PDict [("AddressOfEntryPoint", field (PInt 4200))]);
              ("PE Sections",
               PList [section_info ".text" 4096 512 512;
                      section_info ".data" 8192 256 0])];
     pefile.sections := [[Byte.x90; Byte.xc3]; []] |}.

Definition odd : pefile.PE :=
  {| pefile.is_dll := false;
     pefile.is_driver := false;
     pefile.is_exe := true;
     pefile.get_imphash := PStr "imphash-of-odd";
     pefile.dump_dict :=
       PDict [("PE Sections", PList [section_info ".text" 4096 512 512])];
     pefile.sections := [[Byte.x90]] |}.

Definition env : Environment :=
  {| uuid_uuid4 := fun n => ("uuid-" ++ str_of_nat n)%string;
     json_load_definition := fun path =>
       if String.eqb path "file/definition.json" then Ok file_definition
       else if String.eqb path "pe/definition.json" then Ok pe_definition
       else if String.eqb path "pe-section/definition.json" then Ok pe_section_definition
       else Raise (OSError path);
     MISPAttribute_json := fun value =>
       if is_None (dict_get value "value")
       then inl "The value of the attribute is required."
       else inr (PDict value);
     read_file := fun path =>
       if String.eqb path "sample.exe" then Ok exe_bytes
       else if String.eqb path "odd.exe" then Ok odd_bytes
       else if String.eqb path "notes.txt" then Ok txt_bytes
       else Raise (OSError path);
     os_path_basename := fun path => path;
     os_path_getsize := fun path =>
       if String.eqb path "sample.exe" then Ok 4%Z
       else if String.eqb path "odd.exe" then Ok 3%Z
       else if String.eqb path "notes.txt" then Ok 2%Z
       else Raise (OSError path);
     magic_from_buffer := fun _ => "data";
     hashlib_md5 := fun _ => "md5-of-file";
     hashlib_sha1 := fun _ => "sha1-of-file";
     hashlib_sha256 := fun _ => "sha256-of-file";
     hashlib_sha512 := fun _ => "sha512-of-file";
     pydeep_hash_buf := fun _ => "ssdeep-of-buffer";
     math_log := fun _ _ => (-1)%float; (* a stand-in, not a logarithm *)
     pefile_PE := fun data =>
       if bytes_eqb data exe_bytes then Ok exe
       else if bytes_eqb data odd_bytes then Ok odd
       else Raise (PEFormatError "DOS Header magic not found.");
     str_format := fun v =>
       match v with
       | PStr s => s
       | _ => ""
       end |}.

(** An instance of the file generator's base class, without links. *)
Definition generator : MISPObjectGenerator.t :=
  {| MISPObjectGenerator.definition := file_definition;
     MISPObjectGenerator.uuid := "uuid-0";
     MISPObjectGenerator.links := [] |}.

(** [{'md5': {'value': None}, 'filename': {'value': 'a.txt'}}], the two
    dictionaries at addresses 0 and 1. *)
Definition store : heap :=
  upd (upd (fun _ => []) 0 (value_only PNone)) 1 (value_only (PStr "a.txt")).

Definition values : values_map := [("md5", 0); ("filename", 1)].

End Sample.

(** *** Runs on the sample data *)

Section SampleRuns.
Import MISPObjectGenerator.

(** The record assembled from the sample values, and the store afterwards. *)
Definition sample_record : MISPObject.t :=
  {| MISPObject.name := PStr "file";
     MISPObject.meta_category := PStr "file";
     MISPObject.uuid := "uuid-0";
     MISPObject.description :=
       PStr "File object describing a file with meta-information";
     MISPObject.version := PInt 1;
     MISPObject.ObjectAttribute :=
       [{| oa_type := "filename";
           oa_Attribute :=
             PDict [("value", PStr "a.txt"); ("type", PStr "filename");
                    ("disable_correlation", PBool true); ("to_ids", PNone)] |}];
     MISPObject.ObjectReference := None |}.

Definition sample_store' : heap :=
  fst (_fill_object (env := Sample.env) Sample.generator Sample.values true Sample.store).

(** After one [add_link] the record lists that link. *)
Definition linked_record : MISPObject.t :=
  MISPObject.set_ObjectReference sample_record
    [{| referenced_object_uuid := "uuid-1";
        comment := Some "PE indicators"%string |}].

(** ['md5'] is a key of the values, but its value is [None]. *)
Definition null_store : heap := upd (fun _ => []) 0 (value_only PNone).
Definition null_values : values_map := [("md5", 0)].

(** The base instance of the sample [PEObject], built second in a run. *)
Definition pe_generator : MISPObjectGenerator.t :=
  {| definition := Sample.pe_definition; uuid := "uuid-1"; links := [] |}.

(** The three records of sample.exe. *)
Definition sample_objects : nat * result objects :=
  Eval vm_compute in make_objects (env := Sample.env) "sample.exe" 0.

Definition sample_file_object : MISPObject.t :=
  Eval vm_compute in
    match snd sample_objects with
    | Ok (file_object, _, _) => file_object
    | Raise _ => sample_record
    end.

Definition sample_pe_object : MISPObject.t :=
  Eval vm_compute in
    match snd sample_objects with
    | Ok (_, Some pe_object, _) => pe_object
    | _ => sample_record
    end.

Definition sample_pe_sections : list MISPObject.t :=
  Eval vm_compute in
    match snd sample_objects with
    | Ok (_, _, Some pe_sections) => pe_sections
    | _ => []
    end.

(** A third dictionary, at address 2, for a key no definition declares. *)
Definition unknown_store : heap := upd Sample.store 2 (value_only (PStr "x")).

Definition unknown_store' : heap :=
  fst (_fill_object (env := Sample.env) Sample.generator [("filename", 1)] false
         unknown_store).

(** A definition that requires ['md5'], and values that have the key with
    no value. *)
Definition md5_generator : MISPObjectGenerator.t :=
  {| definition :=
       {| def_name := PStr "file"; def_meta_category := PStr "file";
          def_description := def_description Sample.file_definition;
          def_version := PInt 1;
          def_attributes := def_attributes Sample.file_definition;
          def_required := Some ["md5"]; def_requiredOneOf := None |};
     uuid := "uuid-0"; links := [] |}.

End SampleRuns.

(** An empty file next to the sample files. *)
Definition env_with_empty : Environment :=
  {| uuid_uuid4 := uuid_uuid4 (Environment := Sample.env);
     json_load_definition := json_load_definition (Environment := Sample.env);
     MISPAttribute_json := MISPAttribute_json (Environment := Sample.env);
     read_file := fun path =>
       if String.eqb path "empty.bin" then Ok []
       else read_file (Environment := Sample.env) path;
     os_path_basename := os_path_basename (Environment := Sample.env);
     os_path_getsize := fun path =>
       if String.eqb path "empty.bin" then Ok 0%Z
       else os_path_getsize (Environment := Sample.env) path;
     magic_from_buffer := magic_from_buffer (Environment := Sample.env);
     hashlib_md5 := hashlib_md5 (Environment := Sample.env);
     hashlib_sha1 := hashlib_sha1 (Environment := Sample.env);
     hashlib_sha256 := hashlib_sha256 (Environment := Sample.env);
     hashlib_sha512 := hashlib_sha512 (Environment := Sample.env);
     pydeep_hash_buf := pydeep_hash_buf (Environment := Sample.env);
     math_log := math_log (Environment := Sample.env);
     pefile_PE := pefile_PE (Environment := Sample.env);
     str_format := str_format (Environment := Sample.env) |}.

(** * Properties *)

(** ** Dictionaries and the store *)

Lemma dict_find_set_eq (d : pydict) (k : string) (v : pyval) :
  dict_find (dict_set d k v) k = Some v.
Proof.
  induction d as [|[k' v'] d IH]; simpl.
  - now rewrite String.eqb_refl.
  - destruct (String.eqb k k') eqn:E; simpl; rewrite E; auto.
Qed.

Lemma dict_find_set_ne (d : pydict) (k k' : string) (v : pyval) :
  k <> k' -> dict_find (dict_set d k v) k' = dict_find d k'.
Proof.
  intros Hne. induction d as [|[k0 v0] d IH]; simpl.
  - destruct (String.eqb k' k) eqn:E; auto.
    apply String.eqb_eq in E. congruence.
  - destruct (String.eqb k k0) eqn:E; simpl.
    + apply String.eqb_eq in E. subst k0.
      destruct (String.eqb k' k) eqn:E'; auto.
      apply String.eqb_eq in E'. congruence.
    + now rewrite IH.
Qed.

Lemma dict_get_set_eq (d : pydict) (k : string) (v : pyval) :
  dict_get (dict_set d k v) k = v.
Proof. unfold dict_get. now rewrite dict_find_set_eq. Qed.

Lemma dict_get_set_ne (d : pydict) (k k' : string) (v : pyval) :
  k <> k' -> dict_get (dict_set d k v) k' = dict_get d k'.
Proof. intros. unfold dict_get. now rewrite dict_find_set_ne. Qed.

Lemma upd_eq (h : heap) (l : loc) (d : pydict) : upd h l d l = d.
Proof. unfold upd. now rewrite Nat.eqb_refl. Qed.

Lemma upd_ne (h : heap) (l l' : loc) (d : pydict) :
  l' <> l -> upd h l d l' = h l'.
Proof.
  intros Hne. unfold upd.
  destruct (Nat.eqb l' l) eqn:E; auto.
  apply Nat.eqb_eq in E. congruence.
Qed.

(** ** FileObject.__entropy_H *)

(** [len(data) == 0] returns the float zero, whatever the logarithm. *)
Lemma entropy_H_empty {env : Environment} : FileObject.__entropy_H [] = 0%float.
Proof. reflexivity. Qed.

(** ** _validate *)

Section Validate.
Context {env : Environment}.
Import MISPObjectGenerator.

Lemma mem_In (k : string) (names : list string) :
  mem k names = true <-> In k names.
Proof.
  unfold mem. rewrite existsb_exists. split.
  - intros (x & Hin & E). apply String.eqb_eq in E. now subst.
  - intros Hin. exists k. split; auto. apply String.eqb_refl.
Qed.

Lemma intersects_spec (l names : list string) :
  intersects l names = true <-> exists k, In k l /\ In k names.
Proof.
  unfold intersects. rewrite existsb_exists. split.
  - intros (k & Hk & Hm). exists k. split; auto. now apply mem_In.
  - intros (k & Hk & Hm). exists k. split; auto. now apply mem_In.
Qed.

Lemma check_required_ok (required names : list string) :
  check_required required names = Ok tt <->
  forall r, In r required -> In r names.
Proof.
  induction required as [|r rs IH]; simpl.
  - split; auto. intros _ r [].
  - destruct (mem r names) eqn:E.
    + rewrite IH. apply mem_In in E. split.
      * intros Hall r' [<-|Hin]; auto.
      * intros Hall r' Hin. apply Hall. now right.
    + split; [discriminate|].
      intros Hall. assert (In r names) as Hin by (apply Hall; now left).
      apply mem_In in Hin. congruence.
Qed.

Lemma check_required_first_missing (pre post names : list string) (r : string) :
  (forall p, In p pre -> In p names) ->
  ~ In r names ->
  check_required (pre ++ r :: post) names =
  Raise (InvalidMISPObject (r ++ " is required is required")).
Proof.
  intros Hpre Hr. induction pre as [|p pre IH]; simpl.
  - destruct (mem r names) eqn:E; auto.
    apply mem_In in E. contradiction.
  - assert (mem p names = true) as -> by (apply mem_In, Hpre; now left).
    apply IH. intros q Hq. apply Hpre. now right.
Qed.

Lemma check_required_raises (required names : list string) (e : exn) :
  check_required required names = Raise e ->
  exists msg, e = InvalidMISPObject msg.
Proof.
  induction required as [|r rs IH]; simpl; [discriminate|].
  destruct (mem r names); auto.
  intros [= <-]. eauto.
Qed.

Lemma _validate_unfold (self : t) (dump : values_map) :
  _validate self dump =
  match requiredOneOf_check self (map fst dump) with
  | Raise e => Raise e
  | Ok _ =>
      match required_check self (map fst dump) with
      | Raise e => Raise e
      | Ok _ => Ok true
      end
  end.
Proof. reflexivity. Qed.

(** [_validate] raises nothing but [InvalidMISPObject], and returns
    nothing but [True]. *)
Lemma _validate_raises (self : t) (dump : values_map) (e : exn) :
  _validate self dump = Raise e -> exists msg, e = InvalidMISPObject msg.
Proof.
  rewrite _validate_unfold.
  destruct (requiredOneOf_check self (map fst dump)) as [[]|e1] eqn:E1.
  - destruct (required_check self (map fst dump)) as [[]|e2] eqn:E2;
      [discriminate|].
    intros [= <-]. unfold required_check in E2.
    destruct (def_required (definition self)) as [[|q qs]|];
      try discriminate.
    eapply check_required_raises; eauto.
  - intros [= <-]. unfold requiredOneOf_check in E1.
    destruct (def_requiredOneOf (definition self)) as [[|q qs]|];
      try discriminate.
    destruct (intersects (q :: qs) (map fst dump)); [discriminate|].
    injection E1 as <-. eauto.
Qed.

Lemma _validate_returns (self : t) (dump : values_map) (b : bool) :
  _validate self dump = Ok b -> b = true.
Proof.
  rewrite _validate_unfold.
  destruct (requiredOneOf_check self (map fst dump)); [|discriminate].
  destruct (required_check self (map fst dump)); [|discriminate].
  now intros [= <-].
Qed.

Lemma requiredOneOf_check_ok (self : t) (names : list string) :
  requiredOneOf_check self names = Ok tt <-> requiredOneOf_holds self names.
Proof.
  unfold requiredOneOf_check, requiredOneOf_holds.
  destruct (def_requiredOneOf (definition self)) as [[|r rs]|];
    try (split; auto; fail).
  destruct (intersects (r :: rs) names) eqn:E.
  - apply intersects_spec in E. split; auto.
  - split; [discriminate|].
    intros [Hnil|Hex]; [discriminate|].
    apply intersects_spec in Hex. congruence.
Qed.

Lemma required_check_ok (self : t) (names : list string) :
  required_check self names = Ok tt <-> required_holds self names.
Proof.
  unfold required_check, required_holds.
  destruct (def_required (definition self)) as [[|r rs]|];
    try (split; auto; fail).
  - split; auto. intros _ r [].
  - apply check_required_ok.
Qed.

(** C2, as the code has it.  [_validate] looks at the keys of [dump] only.
    (1) With a non-empty [requiredOneOf] list of which no key is a key of
    [dump], it raises [InvalidMISPObject] with the message that joins the
    whole list.  (2) Otherwise, with a [required] list whose first key
    missing from [dump] is [r], it raises [InvalidMISPObject] with the
    message that starts with [r].  (3) It returns [True] exactly when both
    constraints hold. *)
Theorem validate_two_constraints (self : t) (dump : values_map) :
  (forall l,
     def_requiredOneOf (definition self) = Some l ->
     l <> [] ->
     (forall k, In k l -> ~ In k (map fst dump)) ->
     _validate self dump =
     Raise (InvalidMISPObject
              ("At least one of the following attributes is required: "
               ++ join ", " l))) /\
  (forall pre r post,
     requiredOneOf_holds self (map fst dump) ->
     def_required (definition self) = Some (pre ++ r :: post) ->
     (forall p, In p pre -> In p (map fst dump)) ->
     ~ In r (map fst dump) ->
     _validate self dump =
     Raise (InvalidMISPObject (r ++ " is required is required"))) /\
  (_validate self dump = Ok true <->
   requiredOneOf_holds self (map fst dump) /\ required_holds self (map fst dump)).
Proof.
  rewrite _validate_unfold. split; [|split].
  - intros l Hl Hne Hnone. unfold requiredOneOf_check. rewrite Hl.
    destruct l as [|r rs]; [congruence|].
    destruct (intersects (r :: rs) (map fst dump)) eqn:E; [|reflexivity].
    apply intersects_spec in E as (k & Hk & Hin).
    now destruct (Hnone k Hk).
  - intros pre r post Hone Hreq Hpre Hr.
    apply requiredOneOf_check_ok in Hone. rewrite Hone.
    assert (required_check self (map fst dump)
            = check_required (pre ++ r :: post) (map fst dump)) as ->.
    { unfold required_check. rewrite Hreq.
      destruct (pre ++ r :: post); reflexivity. }
    now rewrite check_required_first_missing by assumption.
  - rewrite <- requiredOneOf_check_ok, <- required_check_ok.
    destruct (requiredOneOf_check self (map fst dump)) as [[]|e1].
    + destruct (required_check self (map fst dump)) as [[]|e2].
      * split; auto.
      * split; [discriminate|]. intros [_ ?]. discriminate.
    + split; [discriminate|]. intros [? _]. discriminate.
Qed.

End Validate.

(** ** _fill_object *)

Section FillObject.
Context {env : Environment}.
Import MISPObjectGenerator.

Lemma py_getitem_loop_exn (v : pyval) (k : string) (e : exn) :
  py_getitem v k = Raise e -> loop_exn e.
Proof.
  destruct v; simpl; try (intros [= <-]; exact I).
  destruct (dict_find d k); [discriminate|]. intros [= <-]. exact I.
Qed.

Lemma py_getitem_dict (v : pyval) (k : string) (x : pyval) :
  py_getitem v k = Ok x -> exists d, v = PDict d /\ dict_find d k = Some x.
Proof.
  destruct v; simpl; try discriminate.
  destruct (dict_find d k) eqn:E; [|discriminate].
  intros [= <-]. eauto.
Qed.

Lemma fill_attribute_skip (self : t) (k : string) (l : loc) (h : heap) :
  is_None (dict_get (h l) "value") = true ->
  fill_attribute self (k, l) h = (h, Ok None).
Proof.
  intros E. unfold fill_attribute, bind, value_get. now rewrite E.
Qed.

Lemma fill_attribute_emit (self : t) (k : string) (l : loc) (h h1 : heap)
  (r : result (option object_attribute)) :
  is_None (dict_get (h l) "value") = false ->
  fill_attribute self (k, l) h = (h1, r) ->
  (forall l', l' <> l -> h1 l' = h l') /\
  (forall key, ~ written_key key -> dict_find (h1 l) key = dict_find (h l) key) /\
  match r with
  | Raise e => loop_exn e
  | Ok None => False
  | Ok (Some a) =>
      oa_type a = k /\
      set_all_values_json (h1 l) = Ok (oa_Attribute a) /\
      exists ad ty,
        attribute_definition self k = Ok (PDict ad) /\
        dict_find ad "misp-attribute" = Some ty /\
        dict_find (h1 l) "type" = Some ty /\
        dict_get (h1 l) "disable_correlation" =
          (if is_None (dict_get (h l) "disable_correlation")
           then dict_get ad "disable_correlation"
           else dict_get (h l) "disable_correlation") /\
        dict_get (h1 l) "to_ids" =
          (if is_None (dict_get (h l) "to_ids")
           then dict_get ad "to_ids"
           else dict_get (h l) "to_ids")
  end.
Proof.
  intros E. unfold fill_attribute, bind, value_get. rewrite E.
  unfold lift at 1. cbn beta iota.
  destruct (attribute_definition self k) as [a|e] eqn:Ea; simpl.
  2:{ intros [= <- <-]. repeat split; auto.
      eapply py_getitem_loop_exn; eauto. }
  destruct (py_getitem a "misp-attribute") as [ty|e] eqn:Ety; simpl.
  2:{ intros [= <- <-]. repeat split; auto.
      eapply py_getitem_loop_exn; eauto. }
  apply py_getitem_dict in Ety as (ad & -> & Ety).
  unfold value_setitem, ret, value_read, lift. cbn beta iota.
  rewrite !upd_eq.
  rewrite (dict_get_set_ne _ "type" "disable_correlation") by discriminate.
  unfold py_get.
  assert (Hframe : forall key, ~ written_key key ->
            "type" <> key /\ "disable_correlation" <> key /\ "to_ids" <> key).
  { unfold written_key. intros key Hk.
    repeat split; intros <-; apply Hk; auto. }
  assert (Hexn : forall d e, set_all_values_json d = Raise e -> loop_exn e).
  { intros d e. unfold set_all_values_json.
    destruct (MISPAttribute_json d); [|discriminate].
    intros [= <-]. exact I. }
  destruct (is_None (dict_get (h l) "disable_correlation")) eqn:Edc;
    cbn beta iota; rewrite ?upd_eq;
    rewrite ?(dict_get_set_ne _ "disable_correlation" "to_ids") by discriminate;
    rewrite (dict_get_set_ne _ "type" "to_ids") by discriminate;
    (destruct (is_None (dict_get (h l) "to_ids")) eqn:Eti;
     cbn beta iota; rewrite ?upd_eq;
     match goal with
     | |- context [set_all_values_json ?d] =>
         destruct (set_all_values_json d) as [j|e] eqn:Ej
     end;
     intros [= <- <-]; rewrite ?upd_eq;
     (split; [intros l' Hl'; now rewrite ?upd_ne by assumption|]);
     (split; [intros key Hk; destruct (Hframe key Hk) as (? & ? & ?);
              now rewrite ?dict_find_set_ne by assumption|]);
     try (eapply Hexn; eassumption);
     (split; [reflexivity|]); (split; [assumption|]);
     exists ad, ty; (split; [reflexivity|]); (split; [assumption|]);
     rewrite ?(dict_find_set_ne _ "to_ids" "type") by discriminate;
     rewrite ?(dict_find_set_ne _ "disable_correlation" "type") by discriminate;
     rewrite dict_find_set_eq; (split; [reflexivity|]);
     rewrite ?(dict_get_set_ne _ "to_ids" "disable_correlation") by discriminate;
     rewrite ?dict_get_set_eq;
     rewrite ?(dict_get_set_ne _ "disable_correlation" "to_ids") by discriminate;
     rewrite ?(dict_get_set_ne _ "type" "disable_correlation") by discriminate;
     rewrite ?(dict_get_set_ne _ "type" "to_ids") by discriminate;
     rewrite ?dict_get_set_eq;
     split; reflexivity).
Qed.

Lemma written_key_value : ~ written_key "value".
Proof. unfold written_key. intros [E|[E|E]]; discriminate. Qed.

(** One round of the loop leaves every ['value'] entry of the store as it
    was, whatever the outcome. *)
Lemma fill_attribute_value (self : t) (item : string * loc) (h h1 : heap)
  (r : result (option object_attribute)) :
  fill_attribute self item h = (h1, r) ->
  forall l, dict_get (h1 l) "value" = dict_get (h l) "value".
Proof.
  destruct item as [k l0]. intros Hrun l.
  destruct (is_None (dict_get (h l0) "value")) eqn:E.
  - rewrite fill_attribute_skip in Hrun by assumption.
    now injection Hrun as <- _.
  - destruct (fill_attribute_emit _ _ _ _ _ _ E Hrun) as (Hother & Hkeys & _).
    destruct (Nat.eq_dec l l0) as [->|Hne].
    + unfold dict_get. now rewrite Hkeys by apply written_key_value.
    + now rewrite Hother.
Qed.

Lemma has_value_ext (h h1 : heap) (values : values_map) :
  (forall l, dict_get (h1 l) "value" = dict_get (h l) "value") ->
  filter (has_value h1) values = filter (has_value h) values.
Proof.
  intros Heq. apply filter_ext. intros item. unfold has_value.
  now rewrite Heq.
Qed.

Lemma emitted_from_ext (h h1 : heap) (values : values_map) (a : object_attribute) :
  (forall l, dict_get (h1 l) "value" = dict_get (h l) "value") ->
  emitted_from h1 values a -> emitted_from h values a.
Proof.
  intros Heq (l & kw & Hin & Hv & Hkw & Hj).
  exists l, kw. rewrite <- Heq. auto.
Qed.

Lemma emitted_from_cons (h : heap) (item : string * loc) (values : values_map)
  (a : object_attribute) :
  emitted_from h values a -> emitted_from h (item :: values) a.
Proof.
  intros (l & kw & Hin & Hrest). exists l, kw. split; [now right|assumption].
Qed.

(** The whole loop: it raises nothing that [_validate] or [pefile] raise,
    it leaves the ['value'] entries and the dictionaries outside [values]
    alone, and on success it has appended one attribute for each key with a
    value, in the order of [values]. *)
Lemma fill_attributes_spec (self : t) (values : values_map) :
  forall (acc : list object_attribute) (h h' : heap)
         (r : result (list object_attribute)),
  fill_attributes self values acc h = (h', r) ->
  (forall l, dict_get (h' l) "value" = dict_get (h l) "value") /\
  (forall l, ~ In l (map snd values) -> h' l = h l) /\
  match r with
  | Raise e => loop_exn e
  | Ok attrs =>
      exists emitted,
        attrs = acc ++ emitted /\
        map oa_type emitted = map fst (filter (has_value h) values) /\
        Forall (emitted_from h values) emitted
  end.
Proof.
  induction values as [|[k l0] rest IH]; intros acc h h' r;
    cbn [fill_attributes map filter].
  - unfold ret. intros [= <- <-]. repeat split; auto.
    exists []. rewrite app_nil_r. auto.
  - unfold bind at 1.
    destruct (fill_attribute self (k, l0) h) as [h1 r1] eqn:Hstep.
    pose proof (fill_attribute_value _ _ _ _ _ Hstep) as Hval.
    unfold has_value at 1. simpl snd.
    destruct (is_None (dict_get (h l0) "value")) eqn:E; simpl negb.
    + rewrite fill_attribute_skip in Hstep by assumption.
      injection Hstep as <- <-. intros Hrun.
      destruct (IH _ _ _ _ Hrun) as (Hv & Hfr & Hr).
      split; [assumption|].
      split; [intros l Hl; apply Hfr; intros Hin; apply Hl; now right|].
      destruct r as [attrs|e]; [|assumption].
      destruct Hr as (em & -> & Hkeys & Hall).
      exists em. repeat split; auto.
      eapply Forall_impl; [|exact Hall]. intros a. apply emitted_from_cons.
    + destruct (fill_attribute_emit _ _ _ _ _ _ E Hstep) as (Hother & Hkeys & Hr1).
      destruct r1 as [[a|]|e]; [| contradiction |].
      * intros Hrun.
        destruct (IH _ _ _ _ Hrun) as (Hv & Hfr & Hr).
        split; [intros l; now rewrite Hv, Hval|].
        split; [intros l Hl; rewrite Hfr by (intros Hin; apply Hl; now right);
                apply Hother; intros ->; apply Hl; now left|].
        destruct r as [attrs|e]; [|assumption].
        destruct Hr as (em & -> & Hks & Hall).
        destruct Hr1 as (Hty & Hj & _).
        exists (a :: em). rewrite <- app_assoc. split; [reflexivity|].
        simpl. rewrite Hty, Hks, (has_value_ext h h1) by assumption.
        split; [reflexivity|].
        constructor.
        -- exists l0, (h1 l0). rewrite Hty. repeat split; auto.
           now left.
        -- eapply Forall_impl; [|exact Hall]. intros b Hb.
           apply emitted_from_cons. eapply emitted_from_ext; eauto.
      * intros [= <- <-].
        split; [assumption|].
        split; [intros l Hl; apply Hother; intros ->; apply Hl; now left|].
        assumption.
Qed.

Lemma _fill_object_lenient (self : t) (values : values_map) (h : heap) :
  _fill_object self values false h =
  match fill_attributes self values [] h with
  | (h', Ok attrs) =>
      (h', Ok (MISPObject.set_ObjectAttribute
                 (set_links self (__new_empty_object self (definition self))) attrs))
  | (h', Raise e) => (h', Raise e)
  end.
Proof.
  unfold _fill_object, bind, ret.
  replace (MISPObject.ObjectAttribute
             (set_links self (__new_empty_object self (definition self))))
    with (@nil object_attribute)
    by (unfold set_links; destruct (links self); reflexivity).
  destruct (fill_attributes self values [] h) as [h' [attrs|e]]; reflexivity.
Qed.

Lemma _fill_object_strict (self : t) (values : values_map) (h : heap) :
  _fill_object self values true h =
  match _validate self values with
  | Ok _ => _fill_object self values false h
  | Raise e => (h, Raise e)
  end.
Proof.
  unfold _fill_object, bind, ret, lift.
  destruct (_validate self values); reflexivity.
Qed.

(** Without the validation, [_fill_object] raises neither
    [InvalidMISPObject] nor [PEFormatError]. *)
Lemma _fill_object_lenient_raises (self : t) (values : values_map) (h h' : heap)
  (e : exn) :
  _fill_object self values false h = (h', Raise e) -> loop_exn e.
Proof.
  rewrite _fill_object_lenient.
  destruct (fill_attributes self values [] h) as [h1 [attrs|e1]] eqn:Hrun;
    [discriminate|].
  intros [= <- <-].
  now destruct (fill_attributes_spec _ _ _ _ _ _ Hrun) as (_ & _ & He).
Qed.

(** A successful call, in either mode, is a successful run of the loop on
    the shell. *)
Lemma _fill_object_ok (self : t) (values : values_map) (strict : bool)
  (h h' : heap) (r : MISPObject.t) :
  _fill_object self values strict h = (h', Ok r) ->
  exists attrs,
    fill_attributes self values [] h = (h', Ok attrs) /\
    r = MISPObject.set_ObjectAttribute
          (set_links self (__new_empty_object self (definition self))) attrs.
Proof.
  intros Hrun.
  assert (_fill_object self values false h = (h', Ok r)) as Hl.
  { destruct strict; [|assumption].
    rewrite _fill_object_strict in Hrun.
    destruct (_validate self values); [assumption|discriminate]. }
  rewrite _fill_object_lenient in Hl.
  destruct (fill_attributes self values [] h) as [h1 [attrs|e1]];
    [|discriminate].
  injection Hl as <- <-. eauto.
Qed.

(** C1.  In strict mode [_fill_object] raises [InvalidMISPObject] exactly
    when [_validate] fails on the same values; it then raises what
    [_validate] raised and leaves the store alone.  When [_validate]
    passes, the strict call is the non-strict call: same record or same
    exception, same store. *)
Theorem fill_object_strict_iff_validate (self : t) (values : values_map) (h : heap) :
  ((exists msg, snd (_fill_object self values true h) = Raise (InvalidMISPObject msg))
   <-> (exists e, _validate self values = Raise e)) /\
  (forall e, _validate self values = Raise e ->
     _fill_object self values true h = (h, Raise e)) /\
  (forall b, _validate self values = Ok b ->
     _fill_object self values true h = _fill_object self values false h).
Proof.
  rewrite _fill_object_strict.
  destruct (_validate self values) as [b|e] eqn:Hv.
  - split; [|split].
    + split.
      * intros (msg & Hmsg).
        destruct (_fill_object self values false h) as [h' [r|e]] eqn:Hrun;
          simpl in Hmsg; [discriminate|].
        injection Hmsg as ->.
        apply _fill_object_lenient_raises in Hrun. contradiction.
      * intros (e & He). discriminate.
    + intros e He. discriminate.
    + reflexivity.
  - split; [|split].
    + split.
      * intros _. eauto.
      * intros _. destruct (_validate_raises _ _ _ Hv) as (msg & ->).
        exists msg. reflexivity.
    + intros e' [= <-]. reflexivity.
    + intros b Hb. discriminate.
Qed.

(** C3.  The attributes of the record are, in order, those of the keys of
    [values] whose dictionary holds a value that is not [None] (a missing
    ['value'] entry reads as [None]); each of them was rendered from
    keyword arguments that carry this value. *)
Theorem fill_object_omits_null_values (self : t) (values : values_map)
  (strict : bool) (h h' : heap) (r : MISPObject.t) :
  _fill_object self values strict h = (h', Ok r) ->
  map oa_type (MISPObject.ObjectAttribute r) = map fst (filter (has_value h) values) /\
  Forall (emitted_from h values) (MISPObject.ObjectAttribute r).
Proof.
  intros Hrun. apply _fill_object_ok in Hrun as (attrs & Hloop & ->).
  destruct (fill_attributes_spec _ _ _ _ _ _ Hloop) as (_ & _ & em & -> & Hk & Hall).
  simpl. auto.
Qed.

Lemma add_links_links (self : t) (calls : list (string * option string)) :
  links (add_links self calls) = links self ++ calls.
Proof.
  unfold add_links. revert self.
  induction calls as [|[u c] calls IH]; intros self; simpl.
  - now rewrite app_nil_r.
  - rewrite IH. simpl. now rewrite <- app_assoc.
Qed.

Lemma add_links_fields (self : t) (calls : list (string * option string)) :
  definition (add_links self calls) = definition self /\
  uuid (add_links self calls) = uuid self.
Proof.
  unfold add_links. revert self.
  induction calls as [|[u c] calls IH]; intros self; simpl; auto.
  destruct (IH (add_link self u c)) as (-> & ->). auto.
Qed.

(** C8, as the code has it.  For an instance that was built without links
    and then received the [add_link] calls [calls], the record carries the
    definition's name, meta-category, description and version and the
    instance's uuid; its attribute list is what the loop appended to an
    empty list; and ['ObjectReference'] is missing when there was no call,
    and otherwise lists one reference per call, in call order. *)
Theorem fill_object_shell (self : t) (calls : list (string * option string))
  (values : values_map) (strict : bool) (h h' : heap) (r : MISPObject.t) :
  links self = [] ->
  _fill_object (add_links self calls) values strict h = (h', Ok r) ->
  MISPObject.name r = def_name (definition self) /\
  MISPObject.meta_category r = def_meta_category (definition self) /\
  MISPObject.uuid r = uuid self /\
  MISPObject.description r = def_description (definition self) /\
  MISPObject.version r = def_version (definition self) /\
  fill_attributes (add_links self calls) values [] h
    = (h', Ok (MISPObject.ObjectAttribute r)) /\
  MISPObject.ObjectReference r =
    match calls with
    | [] => None
    | _ :: _ => Some (map reference_of_link calls)
    end.
Proof.
  intros Hfresh Hrun. apply _fill_object_ok in Hrun as (attrs & Hloop & ->).
  destruct (add_links_fields self calls) as (Hd & Hu).
  pose proof (add_links_links self calls) as Hl.
  rewrite Hfresh in Hl. simpl in Hl.
  unfold set_links. rewrite Hl, Hd.
  destruct calls as [|c calls]; simpl; rewrite ?Hu; repeat split; auto.
Qed.

(** A ['type'] entry, once written, stays. *)
Lemma fill_attribute_keeps_type (self : t) (item : string * loc) (h h1 : heap)
  (o : option object_attribute) :
  fill_attribute self item h = (h1, Ok o) ->
  forall l, dict_find (h l) "type" <> None -> dict_find (h1 l) "type" <> None.
Proof.
  destruct item as [k l0]. intros Hstep l Hl.
  destruct (is_None (dict_get (h l0) "value")) eqn:E.
  - rewrite fill_attribute_skip in Hstep by assumption.
    now injection Hstep as <- _.
  - destruct (fill_attribute_emit _ _ _ _ _ _ E Hstep) as (Hother & _ & Hr).
    destruct o as [a|]; [|contradiction].
    destruct Hr as (_ & _ & ad & ty & _ & _ & Hty & _).
    destruct (Nat.eq_dec l l0) as [->|Hne].
    + rewrite Hty. discriminate.
    + now rewrite Hother.
Qed.

Lemma fill_attributes_keeps_type (self : t) (values : values_map) :
  forall acc h h' attrs,
  fill_attributes self values acc h = (h', Ok attrs) ->
  forall l, dict_find (h l) "type" <> None -> dict_find (h' l) "type" <> None.
Proof.
  induction values as [|item rest IH]; intros acc h h' attrs;
    cbn [fill_attributes].
  - unfold ret. now intros [= <- _].
  - unfold bind at 1.
    destruct (fill_attribute self item h) as [h1 [o|e]] eqn:Hstep;
      [|discriminate].
    intros Hrun l Hl. eapply IH; eauto.
    eapply fill_attribute_keeps_type; eauto.
Qed.

Lemma fill_attributes_writes_type (self : t) (values : values_map) :
  forall acc h h' attrs,
  fill_attributes self values acc h = (h', Ok attrs) ->
  forall k l, In (k, l) values ->
  is_None (dict_get (h l) "value") = false ->
  dict_find (h' l) "type" <> None.
Proof.
  induction values as [|[k0 l0] rest IH]; intros acc h h' attrs;
    cbn [fill_attributes]; [intros _ k l []|].
  unfold bind at 1.
  destruct (fill_attribute self (k0, l0) h) as [h1 [o|e]] eqn:Hstep;
    [|discriminate].
  intros Hrun k l [[= -> ->]|Hin] Hv.
  - destruct (fill_attribute_emit _ _ _ _ _ _ Hv Hstep) as (_ & _ & Hr).
    destruct o as [a|]; [|contradiction].
    destruct Hr as (_ & _ & ad & ty & _ & _ & Hty & _).
    eapply fill_attributes_keeps_type; eauto.
    rewrite Hty. discriminate.
  - eapply IH; eauto.
    now rewrite (fill_attribute_value _ _ _ _ _ Hstep).
Qed.

(** With one dictionary per key, what each dictionary looks like after a
    successful run of the loop. *)
Lemma fill_attributes_store (self : t) (values : values_map) :
  forall acc h h' attrs,
  NoDup (map snd values) ->
  fill_attributes self values acc h = (h', Ok attrs) ->
  forall k l, In (k, l) values ->
  if is_None (dict_get (h l) "value") then h' l = h l
  else filled_in self k (h l) (h' l).
Proof.
  induction values as [|[k0 l0] rest IH]; intros acc h h' attrs Hnd;
    cbn [fill_attributes]; [intros _ k l []|].
  cbn [map snd] in Hnd. apply NoDup_cons_iff in Hnd as (Hl0 & Hnd).
  unfold bind at 1.
  destruct (fill_attribute self (k0, l0) h) as [h1 [o|e]] eqn:Hstep;
    [|discriminate].
  intros Hrun k l Hin.
  destruct (fill_attributes_spec _ _ _ _ _ _ Hrun) as (_ & Hframe & _).
  destruct Hin as [[= -> ->]|Hin].
  - rewrite (Hframe l) by assumption.
    destruct (is_None (dict_get (h l) "value")) eqn:E.
    + rewrite fill_attribute_skip in Hstep by assumption.
      now injection Hstep as <- _.
    + destruct (fill_attribute_emit _ _ _ _ _ _ E Hstep) as (_ & Hkeys & Hr).
      destruct o as [a|]; [|contradiction].
      destruct Hr as (_ & _ & ad & ty & Hr).
      split; [assumption|]. exists ad, ty. exact Hr.
  - assert (l <> l0) as Hne.
    { intros ->. apply Hl0. apply in_map_iff. exists (k, l0). auto. }
    assert (h1 l = h l) as Hsame.
    { destruct (is_None (dict_get (h l0) "value")) eqn:E.
      - rewrite fill_attribute_skip in Hstep by assumption.
        now injection Hstep as <- _.
      - destruct (fill_attribute_emit _ _ _ _ _ _ E Hstep) as (Hother & _).
        now apply Hother. }
    specialize (IH _ _ _ _ Hnd Hrun k l Hin).
    now rewrite Hsame in IH.
Qed.

(** C10.  A successful [_fill_object] has updated the caller's
    dictionaries in place.  Dictionaries that [values] does not refer to are
    untouched.  Every dictionary with a value has a ['type'] entry
    afterwards, so it has changed if it had none.  When the keys do not
    share dictionaries, a dictionary without a value is unchanged and one
    with a value is filled in from the definition as [filled_in] says. *)
Theorem fill_object_mutates_values (self : t) (values : values_map)
  (strict : bool) (h h' : heap) (r : MISPObject.t) :
  _fill_object self values strict h = (h', Ok r) ->
  (forall l, ~ In l (map snd values) -> h' l = h l) /\
  (forall k l, In (k, l) values ->
     is_None (dict_get (h l) "value") = false ->
     dict_find (h' l) "type" <> None /\
     (dict_find (h l) "type" = None -> h' l <> h l)) /\
  (NoDup (map snd values) ->
   forall k l, In (k, l) values ->
     if is_None (dict_get (h l) "value") then h' l = h l
     else filled_in self k (h l) (h' l)).
Proof.
  intros Hrun. apply _fill_object_ok in Hrun as (attrs & Hloop & _).
  split; [|split].
  - now destruct (fill_attributes_spec _ _ _ _ _ _ Hloop) as (_ & Hframe & _).
  - intros k l Hin Hv.
    pose proof (fill_attributes_writes_type _ _ _ _ _ _ Hloop k l Hin Hv) as Hty.
    split; [assumption|].
    intros Hnone Heq. rewrite Heq in Hty. contradiction.
  - intros Hnd. eapply fill_attributes_store; eauto.
Qed.

End FillObject.

(** ** PEObject.generate_attributes *)

Section Sections.
Context {env : Environment}.
Import PEObject.

Lemma entrypoint_in_section_unset (s : pyval) :
  entrypoint_in_section None s = Raise (AttributeError "entrypoint_address").
Proof. reflexivity. Qed.

(** Without an entry-point address a round of the loop cannot succeed. *)
Lemma section_step_unset (pe' : pefile.PE) (st : loop_state) (pos : nat)
  (s : pyval) (n n' : nat) (r : result loop_state) :
  section_step pe' None st pos s n = (n', r) -> exists e, r = Raise e.
Proof.
  unfold section_step, bind, lift.
  destruct (nth_error (pefile.sections pe') pos) as [b|].
  - destruct (PESectionObject.__init__ s b n) as [n1 [sec|e]].
    + rewrite entrypoint_in_section_unset. intros [= _ <-]. eauto.
    + intros [= _ <-]. eauto.
  - intros [= _ <-]. eauto.
Qed.

Lemma section_step_unset_raises (pe' : pefile.PE) (st : loop_state) (pos : nat)
  (s : pyval) (n n1 : nat) (b : list Byte.byte) (sec : PESectionObject.t) :
  nth_error (pefile.sections pe') pos = Some b ->
  PESectionObject.__init__ s b n = (n1, Ok sec) ->
  section_step pe' None st pos s n = (n1, Raise (AttributeError "entrypoint_address")).
Proof.
  intros Hb Hsec. unfold section_step, bind, lift.
  now rewrite Hb, Hsec, entrypoint_in_section_unset.
Qed.

Lemma chars_nonempty (s : string) : String.eqb s "" = false -> chars s <> [].
Proof. destruct s; simpl; [discriminate|]. intros _. discriminate. Qed.

(** A true object that can be iterated has a first element. *)
Lemma truthy_iter (v : pyval) (l : list pyval) :
  truthy v = true -> py_iter v = Ok l -> exists s rest, l = s :: rest.
Proof.
  destruct v as [ | b | z | f | s | b | l0 | d]; simpl; try discriminate.
  - destruct s; simpl; [discriminate|]. intros _ [= <-]. eauto.
  - destruct b; [discriminate|]. intros _ [= <-]. simpl. eauto.
  - destruct l0; [discriminate|]. intros _ [= <-]. eauto.
  - destruct d; [discriminate|]. intros _ [= <-]. simpl. eauto.
Qed.

(** C9.  Take a parsed image whose dump has a true ['PE Sections'] entry.
    [generate_attributes] can only succeed on it if the entry-point address
    was extracted from the optional header.  If the header fields were read
    without error and gave no entry-point address, and the first section's
    generator could be built, then the loop raises [AttributeError] for
    [entrypoint_address]. *)
Theorem generate_attributes_reads_entrypoint_address
  (base' : MISPObjectGenerator.t) (data' : list Byte.byte) (pe' : pefile.PE)
  (v : pyval) :
  py_get (pefile.dump_dict pe') "PE Sections" = Ok v ->
  truthy v = true ->
  (forall n n' r,
     generate_attributes base' data' pe' n = (n', Ok r) ->
     exists ea,
       read_entrypoint_address (pefile.dump_dict pe') = Ok (Some ea) /\
       entrypoint_address r = Some ea) /\
  (forall n n1 ct fi s rest b sec,
     read_compilation_timestamp (pefile.dump_dict pe') = Ok ct ->
     read_entrypoint_address (pefile.dump_dict pe') = Ok None ->
     read_file_info (pefile.dump_dict pe') = Ok fi ->
     (x <- py_getitem (pefile.dump_dict pe') "PE Sections" ;; py_iter x)%result
       = Ok (s :: rest) ->
     nth_error (pefile.sections pe') 0 = Some b ->
     PESectionObject.__init__ s b n = (n1, Ok sec) ->
     generate_attributes base' data' pe' n
       = (n1, Raise (AttributeError "entrypoint_address"))).
Proof.
  intros Hv Ht. split.
  - intros n n' r. unfold generate_attributes, bind, lift, ret.
    destruct (read_compilation_timestamp _) as [ct|e]; [|discriminate].
    destruct (read_entrypoint_address _) as [[ea|]|e]; [| |discriminate];
      destruct (read_file_info _) as [fi|e]; try discriminate.
    + destruct (read_sections _ _ _ n) as [n1 [st|e]]; [|discriminate].
      intros [= _ <-]. simpl. eauto.
    + unfold read_sections, bind, lift. rewrite Hv, Ht.
      destruct (x <- py_getitem (pefile.dump_dict pe') "PE Sections" ;; py_iter x)%result
        as [ss|e] eqn:Hss; [|discriminate].
      assert (exists s rest, ss = s :: rest) as (s & rest & ->).
      { destruct (py_getitem (pefile.dump_dict pe') "PE Sections") as [x|] eqn:Hx;
          [|discriminate]. simpl in Hss.
        apply truthy_iter with (v := x); [|assumption].
        destruct (pefile.dump_dict pe'); simpl in Hv, Hx; try discriminate.
        unfold dict_get in Hv. destruct (dict_find d "PE Sections");
          [|discriminate].
        injection Hv as <-. injection Hx as <-. assumption. }
      cbn [section_loop]. unfold bind.
      destruct (section_step pe' None _ 0 s n) as [n1 r1] eqn:Hstep.
      apply section_step_unset in Hstep as (e & ->). discriminate.
  - intros n n1 ct fi s rest b sec Hct Hea Hfi Hss Hb Hsec.
    unfold generate_attributes, bind, lift, ret.
    rewrite Hct, Hea, Hfi.
    unfold read_sections, bind, lift. rewrite Hv, Ht, Hss.
    cbn [section_loop]. unfold bind.
    now rewrite (section_step_unset_raises _ _ _ _ _ _ _ _ Hb Hsec).
Qed.

End Sections.

(** ** Construction, links and make_objects *)

Section Construction.
Context {env : Environment}.

Lemma generator_init (path : string) (n n' : nat)
  (r : result MISPObjectGenerator.t) :
  MISPObjectGenerator.__init__ path n = (n', r) ->
  match r with
  | Ok g =>
      n' = S n /\
      MISPObjectGenerator.uuid g = uuid_uuid4 n /\
      MISPObjectGenerator.links g = [] /\
      json_load_definition path = Ok (MISPObjectGenerator.definition g)
  | Raise e => n' = n /\ json_load_definition path = Raise e
  end.
Proof.
  unfold MISPObjectGenerator.__init__, bind, lift.
  destruct (json_load_definition path) as [d|e]; intros [= <- <-]; auto.
Qed.

Lemma section_links_app (secs more : list PESectionObject.t) :
  forall pos,
  section_links pos (secs ++ more)
  = section_links pos secs ++ section_links (pos + List.length secs) more.
Proof.
  induction secs as [|sec secs IH]; intros pos; simpl.
  - now rewrite Nat.add_0_r.
  - rewrite IH. now rewrite Nat.add_succ_r.
Qed.

Lemma section_links_nth (secs : list PESectionObject.t) :
  forall pos i sec,
  nth_error secs i = Some sec ->
  nth_error (section_links pos secs) i
  = Some (MISPObjectGenerator.uuid (PESectionObject.base sec),
          Some ("Section " ++ str_of_nat (pos + i) ++ " of PE")%string).
Proof.
  induction secs as [|s0 secs IH]; intros pos [|i] sec; simpl; try discriminate.
  - intros [= <-]. now rewrite Nat.add_0_r.
  - intros Hi. rewrite (IH (S pos) i sec Hi). now rewrite Nat.add_succ_r.
Qed.

Lemma section_links_length (secs : list PESectionObject.t) (pos : nat) :
  List.length (section_links pos secs) = List.length secs.
Proof. revert pos. induction secs; intros; simpl; auto. Qed.

(** One round of the loop adds one section and its link. *)
Lemma section_step_ok (pe' : pefile.PE) (ea : option pyval)
  (st st' : PEObject.loop_state) (pos : nat) (s : pyval) (n n' : nat) :
  PEObject.section_step pe' ea st pos s n = (n', Ok st') ->
  exists sec,
    PEObject.ls_sections st' = PEObject.ls_sections st ++ [sec] /\
    PEObject.ls_base st' =
      MISPObjectGenerator.add_link (PEObject.ls_base st)
        (MISPObjectGenerator.uuid (PESectionObject.base sec))
        (Some ("Section " ++ str_of_nat pos ++ " of PE")%string).
Proof.
  unfold PEObject.section_step, bind, lift, ret.
  destruct (nth_error (pefile.sections pe') pos) as [b|]; [|discriminate].
  destruct (PESectionObject.__init__ s b n) as [n1 [sec|e]]; [|discriminate].
  destruct (PEObject.entrypoint_in_section ea s) as [[|]|e]; try discriminate.
  - destruct (n0 <- py_getitem s "Name" ;; py_getitem n0 "Value")%result;
      [|discriminate].
    intros [= _ <-]. simpl. eauto.
  - intros [= _ <-]. simpl. eauto.
Qed.

Lemma section_loop_ok (pe' : pefile.PE) (ea : option pyval) (ss : list pyval) :
  forall st st' pos n n',
  PEObject.section_loop pe' ea st pos ss n = (n', Ok st') ->
  exists new,
    PEObject.ls_sections st' = PEObject.ls_sections st ++ new /\
    MISPObjectGenerator.links (PEObject.ls_base st')
      = MISPObjectGenerator.links (PEObject.ls_base st) ++ section_links pos new /\
    MISPObjectGenerator.uuid (PEObject.ls_base st')
      = MISPObjectGenerator.uuid (PEObject.ls_base st) /\
    List.length new = List.length ss.
Proof.
  induction ss as [|s rest IH]; intros st st' pos n n'; cbn [PEObject.section_loop].
  - unfold ret. intros [= _ <-]. exists []. now rewrite !app_nil_r.
  - unfold bind at 1.
    destruct (PEObject.section_step pe' ea st pos s n) as [n1 [st1|e]] eqn:Hstep;
      [|discriminate].
    intros Hrest.
    apply section_step_ok in Hstep as (sec & Hsecs & Hbase).
    apply IH in Hrest as (new & Hnew & Hlinks & Huuid & Hlen).
    exists (sec :: new).
    rewrite Hnew, Hsecs, Hlinks, Huuid, Hbase. simpl.
    rewrite <- !app_assoc. simpl. now rewrite Hlen.
Qed.

(** A [PEObject] that was built holds one link per section, in the order
    of the sections, and counts them. *)
Lemma PEObject_init_links (data' : list Byte.byte) (n n' : nat) (misp_pe : PEObject.t) :
  PEObject.__init__ data' n = (n', Ok misp_pe) ->
  MISPObjectGenerator.links (PEObject.base misp_pe)
    = section_links 0 (PEObject.sections misp_pe) /\
  PEObject.nb_sections misp_pe = List.length (PEObject.sections misp_pe).
Proof.
  unfold PEObject.__init__. unfold bind at 1.
  destruct (MISPObjectGenerator.__init__ "pe/definition.json" n)
    as [n1 [base'|e]] eqn:Hinit; [|discriminate].
  apply generator_init in Hinit as (_ & _ & Hfresh & _).
  unfold bind at 1, lift.
  destruct (pefile_PE data') as [pe'|e]; [|discriminate].
  unfold PEObject.generate_attributes, bind, lift, ret.
  destruct (PEObject.read_compilation_timestamp _); [|discriminate].
  destruct (PEObject.read_entrypoint_address _) as [ea|]; [|discriminate].
  destruct (PEObject.read_file_info _); [|discriminate].
  destruct (PEObject.read_sections base' pe' ea n1) as [n2 [st|e]] eqn:Hsec;
    [|discriminate].
  intros [= _ <-]. simpl. split; [|reflexivity].
  revert Hsec. unfold PEObject.read_sections, bind, lift, ret.
  destruct (py_get (pefile.dump_dict pe') "PE Sections") as [v|]; [|discriminate].
  destruct (truthy v).
  - destruct (x <- py_getitem (pefile.dump_dict pe') "PE Sections" ;; py_iter x)%result
      as [ss|]; [|discriminate].
    intros Hloop. apply section_loop_ok in Hloop as (new & Hnew & Hlinks & _).
    simpl in Hnew, Hlinks. rewrite Hfresh in Hlinks. simpl in Hlinks.
    now rewrite Hnew, Hlinks.
  - intros [= _ <-]. simpl. assumption.
Qed.

(** What [fill_fresh] returns comes out of a strict [_fill_object]. *)
Lemma fill_fresh_ok (self : MISPObjectGenerator.t)
  (entries : list (string * pydict)) (r : MISPObject.t) :
  MISPObjectGenerator.fill_fresh self entries = Ok r ->
  MISPObject.uuid r = MISPObjectGenerator.uuid self /\
  MISPObject.ObjectReference r =
    match MISPObjectGenerator.links self with
    | [] => None
    | _ :: _ =>
        Some (map MISPObjectGenerator.reference_of_link
                (MISPObjectGenerator.links self))
    end.
Proof.
  unfold MISPObjectGenerator.fill_fresh.
  destruct (MISPObjectGenerator.alloc_values entries 0) as [h values].
  destruct (MISPObjectGenerator._fill_object self values true h) as [h' r'] eqn:Hrun.
  simpl. intros ->.
  apply _fill_object_ok in Hrun as (attrs & _ & ->).
  unfold MISPObjectGenerator.set_links.
  destruct (MISPObjectGenerator.links self); auto.
Qed.

Lemma fill_fresh_raises (self : MISPObjectGenerator.t)
  (entries : list (string * pydict)) (e : exn) :
  MISPObjectGenerator.fill_fresh self entries = Raise e -> ~ is_PEFormatError e.
Proof.
  unfold MISPObjectGenerator.fill_fresh.
  destruct (MISPObjectGenerator.alloc_values entries 0) as [h values].
  rewrite _fill_object_strict.
  destruct (MISPObjectGenerator._validate self values) as [b|e0] eqn:Hv.
  - destruct (MISPObjectGenerator._fill_object self values false h) as [h' r'] eqn:Hrun.
    simpl. intros ->. apply _fill_object_lenient_raises in Hrun.
    destruct e; simpl in *; auto.
  - simpl. intros [= ->].
    apply _validate_raises in Hv as (msg & ->). simpl. auto.
Qed.

Lemma getattr_raises {A} (nm : string) (f : option A) (e : exn) :
  getattr nm f = Raise e -> ~ is_PEFormatError e.
Proof. destruct f; simpl; [discriminate|]. intros [= <-]. simpl. auto. Qed.

End Construction.

Section MakeObjects.
Context {env : Environment}.

Lemma FileObject_dump_raises (self : FileObject.t) (e : exn) :
  FileObject.dump self = Raise e -> ~ is_PEFormatError e.
Proof.
  unfold FileObject.dump.
  destruct (FileObject.dump_values self) as [vs|e0] eqn:E; simpl.
  - apply fill_fresh_raises.
  - intros [= ->]. revert E. unfold FileObject.dump_values.
    destruct (0 <? FileObject.size self)%Z; [|discriminate].
    destruct (FileObject.entropy self), (FileObject.ssdeep self),
      (FileObject.sha512 self), (FileObject.md5 self), (FileObject.sha1 self),
      (FileObject.sha256 self); simpl; try discriminate;
      intros [= <-]; simpl; auto.
Qed.

Lemma PESectionObject_dump_raises (self : PESectionObject.t) (e : exn) :
  PESectionObject.dump self = Raise e -> ~ is_PEFormatError e.
Proof.
  unfold PESectionObject.dump.
  destruct (PESectionObject.dump_values self) as [vs|e0] eqn:E; simpl.
  - apply fill_fresh_raises.
  - intros [= ->]. revert E. unfold PESectionObject.dump_values, py_gt0.
    destruct (py_int (PESectionObject.size self)) as [z|e1] eqn:Ez; simpl.
    + destruct (0 <? z)%Z; [|discriminate].
      destruct (PESectionObject.entropy self), (PESectionObject.md5 self),
        (PESectionObject.sha1 self), (PESectionObject.sha256 self),
        (PESectionObject.sha512 self), (PESectionObject.ssdeep self);
        simpl; try discriminate; intros [= <-]; simpl; auto.
    + intros [= <-]. unfold py_int in Ez.
      destruct (PESectionObject.size self); try discriminate;
        injection Ez as <-; simpl; auto.
Qed.

Lemma PEObject_dump_raises (self : PEObject.t) (e : exn) :
  PEObject.dump self = Raise e -> ~ is_PEFormatError e.
Proof. apply fill_fresh_raises. Qed.

Lemma rmapM_raises {A B} (f : A -> result B) (P : exn -> Prop) (l : list A) :
  (forall a e, f a = Raise e -> P e) ->
  forall e, rmapM f l = Raise e -> P e.
Proof.
  intros Hf. induction l as [|a l IH]; simpl; [discriminate|].
  destruct (f a) as [b|e0] eqn:Ea; simpl.
  - destruct (rmapM f l) as [bs|e1]; simpl; [discriminate|].
    intros e [= <-]. now apply IH.
  - intros e [= <-]. eapply Hf; eauto.
Qed.

Lemma rmapM_nth {A B} (f : A -> result B) (l : list A) :
  forall bs, rmapM f l = Ok bs ->
  List.length bs = List.length l /\
  forall i a, nth_error l i = Some a ->
    exists b, nth_error bs i = Some b /\ f a = Ok b.
Proof.
  induction l as [|a l IH]; simpl.
  - intros bs [= <-]. split; auto. intros [|i] a; discriminate.
  - destruct (f a) as [b|] eqn:Ea; simpl; [|discriminate].
    destruct (rmapM f l) as [bs'|]; simpl; [|discriminate].
    intros bs [= <-]. destruct (IH bs' eq_refl) as (Hlen & Hnth).
    split; [simpl; now rewrite Hlen|].
    intros [|i] a'; simpl.
    + intros [= <-]. eauto.
    + apply Hnth.
Qed.

Lemma dump_all_raises (misp_file : FileObject.t) (misp_pe : PEObject.t) (e : exn) :
  dump_all misp_file misp_pe = Raise e -> ~ is_PEFormatError e.
Proof.
  unfold dump_all.
  destruct (FileObject.dump misp_file) as [fo|e0] eqn:Ef; simpl.
  2:{ intros [= <-]. eapply FileObject_dump_raises; eauto. }
  destruct (PEObject.dump misp_pe) as [po|e0] eqn:Ep; simpl.
  2:{ intros [= <-]. eapply PEObject_dump_raises; eauto. }
  destruct (rmapM PESectionObject.dump (PEObject.sections misp_pe))
    as [ss|e0] eqn:Es; simpl; [discriminate|].
  intros [= <-].
  eapply (rmapM_raises _ (fun e => ~ is_PEFormatError e));
    [apply PESectionObject_dump_raises | exact Es].
Qed.

(** [make_objects], case by case on the two constructors. *)
Lemma make_objects_unfold (filepath : string) (n : nat) :
  make_objects filepath n =
  match FileObject.__init__ filepath n with
  | (n1, Raise e) => (n1, Raise e)
  | (n1, Ok misp_file) =>
      match PEObject.__init__ (FileObject.data misp_file) n1 with
      | (n2, Ok misp_pe) =>
          (n2, dump_all
                 (FileObject.add_link misp_file
                    (MISPObjectGenerator.uuid (PEObject.base misp_pe))
                    (Some "PE indicators"%string))
                 misp_pe)
      | (n2, Raise (PEFormatError msg)) =>
          (n2, rmap (fun file_object => (file_object, None, None))
                 (FileObject.dump misp_file))
      | (n2, Raise e) => (n2, Raise e)
      end
  end.
Proof.
  unfold make_objects. unfold bind at 1.
  destruct (FileObject.__init__ filepath n) as [n1 [misp_file|e]]; [|reflexivity].
  unfold bind at 1, try_body.
  destruct (PEObject.__init__ (FileObject.data misp_file) n1)
    as [n2 [misp_pe|e]].
  - destruct (dump_all _ misp_pe) as [r|e] eqn:Hd; [reflexivity|].
    apply dump_all_raises in Hd.
    destruct e; simpl in Hd; try reflexivity. contradiction.
  - destruct e; try reflexivity.
    unfold bind, lift, ret, rmap.
    destruct (FileObject.dump misp_file); reflexivity.
Qed.

Lemma FileObject_init_links (filepath : string) (n n1 : nat) (misp_file : FileObject.t) :
  FileObject.__init__ filepath n = (n1, Ok misp_file) ->
  MISPObjectGenerator.links (FileObject.base misp_file) = [].
Proof.
  unfold FileObject.__init__. unfold bind at 1.
  destruct (MISPObjectGenerator.__init__ "file/definition.json" n)
    as [n0 [base'|e]] eqn:Hinit; [|discriminate].
  apply generator_init in Hinit as (_ & _ & Hfresh & _).
  unfold bind, lift.
  destruct (read_file filepath) as [data'|]; [|discriminate].
  unfold FileObject.generate_attributes.
  destruct (os_path_getsize filepath) as [size'|]; simpl; [|discriminate].
  destruct (0 <? size')%Z; intros [= _ <-]; assumption.
Qed.

(** C4.  [make_objects] passes on what the [FileObject] constructor
    raises.  When the [PEObject] constructor raises [PEFormatError] it
    returns the dump of the file alone, with [None] twice, or raises what
    that dump raises.  Any other exception of the [PEObject] constructor is
    raised unchanged.  When both constructors succeed the result is that of
    the three dumps: all three records, or the first exception.  So a
    returned triple either has both an executable record and a section
    list, or has neither, and it has neither only after a [PEFormatError]
    of the constructor. *)
Theorem make_objects_catches_only_PEFormatError (filepath : string) (n : nat) :
  (forall n1 e,
     FileObject.__init__ filepath n = (n1, Raise e) ->
     make_objects filepath n = (n1, Raise e)) /\
  (forall n1 misp_file,
     FileObject.__init__ filepath n = (n1, Ok misp_file) ->
     (forall n2 msg,
        PEObject.__init__ (FileObject.data misp_file) n1
          = (n2, Raise (PEFormatError msg)) ->
        make_objects filepath n
          = (n2, rmap (fun file_object => (file_object, None, None))
                   (FileObject.dump misp_file))) /\
     (forall n2 e,
        PEObject.__init__ (FileObject.data misp_file) n1 = (n2, Raise e) ->
        ~ is_PEFormatError e ->
        make_objects filepath n = (n2, Raise e)) /\
     (forall n2 misp_pe,
        PEObject.__init__ (FileObject.data misp_file) n1 = (n2, Ok misp_pe) ->
        make_objects filepath n
          = (n2, dump_all
                   (FileObject.add_link misp_file
                      (MISPObjectGenerator.uuid (PEObject.base misp_pe))
                      (Some "PE indicators"%string))
                   misp_pe))) /\
  (forall n' file_object pe_object pe_sections,
     make_objects filepath n = (n', Ok (file_object, pe_object, pe_sections)) ->
     (exists p s, pe_object = Some p /\ pe_sections = Some s) \/
     (pe_object = None /\ pe_sections = None /\
      exists n1 misp_file msg,
        FileObject.__init__ filepath n = (n1, Ok misp_file) /\
        PEObject.__init__ (FileObject.data misp_file) n1
          = (n', Raise (PEFormatError msg)) /\
        FileObject.dump misp_file = Ok file_object)).
Proof.
  rewrite make_objects_unfold. split; [|split].
  - intros n1 e ->. reflexivity.
  - intros n1 misp_file ->. split; [|split].
    + intros n2 msg ->. reflexivity.
    + intros n2 e -> He. destruct e; simpl in He; try reflexivity.
      now destruct He.
    + intros n2 misp_pe ->. reflexivity.
  - intros n' fo po ss.
    destruct (FileObject.__init__ filepath n) as [n1 [misp_file|e]];
      [|discriminate].
    destruct (PEObject.__init__ (FileObject.data misp_file) n1)
      as [n2 [misp_pe|e]] eqn:Hpe.
    + unfold dump_all.
      destruct (FileObject.dump _) as [a|]; simpl; [|discriminate].
      destruct (PEObject.dump _) as [b|]; simpl; [|discriminate].
      destruct (rmapM _ _) as [c|]; simpl; [|discriminate].
      intros [= <- <- <- <-]. left. eauto.
    + destruct e; try discriminate.
      unfold rmap.
      destruct (FileObject.dump misp_file) as [a|] eqn:Hd; simpl; [|discriminate].
      intros [= <- <- <- <-]. right. repeat split; auto.
      exists n1, misp_file, msg. auto.
Qed.

(** C5.  When [make_objects] returns the three tiers, the file record has
    exactly one reference, to the uuid of the [PEObject], with the comment
    'PE indicators'.  The references of the executable record are as many
    as the sections (with no section the record has no ['ObjectReference']
    key, and no reference), and the one at position [i] has the uuid of the
    [i]-th section generator, which is also the uuid of the [i]-th section
    record, and the comment 'Section i of PE'. *)
Theorem make_objects_links (filepath : string) (n n' : nat)
  (file_object pe_object : MISPObject.t) (pe_sections : list MISPObject.t) :
  make_objects filepath n
    = (n', Ok (file_object, Some pe_object, Some pe_sections)) ->
  exists n1 misp_file misp_pe,
    FileObject.__init__ filepath n = (n1, Ok misp_file) /\
    PEObject.__init__ (FileObject.data misp_file) n1 = (n', Ok misp_pe) /\
    MISPObject.ObjectReference file_object =
      Some [{| referenced_object_uuid :=
                 MISPObjectGenerator.uuid (PEObject.base misp_pe);
               comment := Some "PE indicators"%string |}] /\
    MISPObject.uuid pe_object = MISPObjectGenerator.uuid (PEObject.base misp_pe) /\
    List.length (MISPObject.references pe_object) = PEObject.nb_sections misp_pe /\
    (PEObject.nb_sections misp_pe = 0 <-> MISPObject.ObjectReference pe_object = None) /\
    List.length (PEObject.sections misp_pe) = PEObject.nb_sections misp_pe /\
    List.length pe_sections = PEObject.nb_sections misp_pe /\
    forall i section,
      nth_error (PEObject.sections misp_pe) i = Some section ->
      nth_error (MISPObject.references pe_object) i =
        Some {| referenced_object_uuid :=
                  MISPObjectGenerator.uuid (PESectionObject.base section);
                comment := Some ("Section " ++ str_of_nat i ++ " of PE")%string |} /\
      exists record,
        nth_error pe_sections i = Some record /\
        MISPObject.uuid record
          = MISPObjectGenerator.uuid (PESectionObject.base section).
Proof.
  rewrite make_objects_unfold.
  destruct (FileObject.__init__ filepath n) as [n1 [misp_file|e]] eqn:Hfile;
    [|discriminate].
  destruct (PEObject.__init__ (FileObject.data misp_file) n1)
    as [n2 [misp_pe|e]] eqn:Hpe.
  2:{ destruct e; try discriminate. unfold rmap.
      destruct (FileObject.dump misp_file); simpl; discriminate. }
  unfold dump_all.
  destruct (FileObject.dump _) as [fo|] eqn:Hfo; simpl; [|discriminate].
  destruct (PEObject.dump _) as [po|] eqn:Hpo; simpl; [|discriminate].
  destruct (rmapM _ _) as [ss|] eqn:Hss; simpl; [|discriminate].
  intros [= <- <- <- <-].
  exists n1, misp_file, misp_pe. split; [reflexivity|]. split; [exact Hpe|].
  apply FileObject_init_links in Hfile.
  destruct (PEObject_init_links _ _ _ _ Hpe) as (Hlinks & Hnb).
  unfold FileObject.dump in Hfo.
  destruct (FileObject.dump_values _); simpl in Hfo; [|discriminate].
  apply fill_fresh_ok in Hfo as (_ & Hfo).
  simpl in Hfo. rewrite Hfile in Hfo. simpl in Hfo.
  apply fill_fresh_ok in Hpo as (Hpu & Hpo).
  assert (MISPObject.references po
          = map MISPObjectGenerator.reference_of_link
              (section_links 0 (PEObject.sections misp_pe))) as Hrefs.
  { unfold MISPObject.references. rewrite Hpo, Hlinks.
    destruct (section_links 0 (PEObject.sections misp_pe)); reflexivity. }
  destruct (rmapM_nth _ _ _ Hss) as (Hlen & Hnth).
  split; [assumption|]. split; [assumption|].
  split; [now rewrite Hrefs, length_map, section_links_length|].
  split.
  { rewrite Hpo, Hlinks, Hnb.
    destruct (PEObject.sections misp_pe); simpl; split; auto; discriminate. }
  split; [now rewrite Hnb|]. split; [now rewrite Hlen|].
  intros i section Hi. split.
  - rewrite Hrefs, nth_error_map, (section_links_nth _ 0 i section Hi).
    reflexivity.
  - destruct (Hnth i section Hi) as (record & Hrec & Hdump).
    exists record. split; [assumption|].
    unfold PESectionObject.dump in Hdump.
    destruct (PESectionObject.dump_values section); simpl in Hdump;
      [|discriminate].
    now apply fill_fresh_ok in Hdump as (Hu & _).
Qed.

Lemma _fill_object_uuid (self : MISPObjectGenerator.t) (values : values_map)
  (strict : bool) (h h' : heap) (r : MISPObject.t) :
  MISPObjectGenerator._fill_object self values strict h = (h', Ok r) ->
  MISPObject.uuid r = MISPObjectGenerator.uuid self.
Proof.
  intros Hrun. apply _fill_object_ok in Hrun as (attrs & _ & ->).
  unfold MISPObjectGenerator.set_links.
  destruct (MISPObjectGenerator.links self); reflexivity.
Qed.

(** Calls on an instance: its uuid stays, and every record carries it. *)
Lemma run_uuid (calls : list MISPObjectGenerator.call) :
  forall self h,
  MISPObjectGenerator.uuid (fst (fst (MISPObjectGenerator.run self h calls)))
    = MISPObjectGenerator.uuid self /\
  Forall (fun out => forall r, out = Ok r ->
            MISPObject.uuid r = MISPObjectGenerator.uuid self)
    (snd (MISPObjectGenerator.run self h calls)).
Proof.
  induction calls as [|[u c|values strict] calls IH]; intros self h;
    cbn [MISPObjectGenerator.run].
  - simpl. auto.
  - destruct (IH (MISPObjectGenerator.add_link self u c) h) as (Hu & Hall).
    simpl in Hu, Hall. auto.
  - destruct (MISPObjectGenerator._fill_object self values strict h)
      as [h1 out] eqn:Hrun.
    destruct (IH self h1) as (Hu & Hall).
    destruct (MISPObjectGenerator.run self h1 calls) as [[self' h2] outs].
    simpl in *. split; [assumption|].
    constructor; [|assumption].
    intros r ->. eapply _fill_object_uuid; eauto.
Qed.

(** C6.  The constructor draws one uuid, the next of the run, and stores
    it.  No later call on the instance changes it: after any sequence of
    [add_link] and [_fill_object] calls the instance has the uuid it was
    built with, and every record assembled on the way carries it.  The
    three [dump] methods return records with the uuid of their instance,
    also after [add_link]. *)
Theorem uuid_generated_once :
  (forall path n n' self,
     MISPObjectGenerator.__init__ path n = (n', Ok self) ->
     n' = S n /\ MISPObjectGenerator.uuid self = uuid_uuid4 n) /\
  (forall self h calls,
     MISPObjectGenerator.uuid (fst (fst (MISPObjectGenerator.run self h calls)))
       = MISPObjectGenerator.uuid self /\
     Forall (fun out => forall r, out = Ok r ->
               MISPObject.uuid r = MISPObjectGenerator.uuid self)
       (snd (MISPObjectGenerator.run self h calls))) /\
  (forall self u c r,
     FileObject.dump self = Ok r \/ FileObject.dump (FileObject.add_link self u c) = Ok r ->
     MISPObject.uuid r = MISPObjectGenerator.uuid (FileObject.base self)) /\
  (forall self r,
     PEObject.dump self = Ok r ->
     MISPObject.uuid r = MISPObjectGenerator.uuid (PEObject.base self)) /\
  (forall self r,
     PESectionObject.dump self = Ok r ->
     MISPObject.uuid r = MISPObjectGenerator.uuid (PESectionObject.base self)).
Proof.
  split; [|split; [|split; [|split]]].
  - intros path n n' self Hinit.
    apply generator_init in Hinit as (? & ? & _). auto.
  - intros self h calls. apply run_uuid.
  - intros self u c r [Hd|Hd]; unfold FileObject.dump in Hd;
      destruct (FileObject.dump_values _); simpl in Hd; try discriminate;
      now apply fill_fresh_ok in Hd as (Hu & _).
  - intros self r Hd. now apply fill_fresh_ok in Hd as (Hu & _).
  - intros self r Hd. unfold PESectionObject.dump in Hd.
    destruct (PESectionObject.dump_values _); simpl in Hd; try discriminate.
    now apply fill_fresh_ok in Hd as (Hu & _).
Qed.

End MakeObjects.

(** * The statements on the sample data *)

Import MISPObjectGenerator.

(** The strict and the non-strict call agree on values that pass the
    validation, and the strict call raises on values that do not. *)
Lemma fill_object_strict_iff_validate_witness :
  (_validate Sample.generator Sample.values = Ok true /\
   _fill_object (env := Sample.env) Sample.generator Sample.values true Sample.store
   = _fill_object (env := Sample.env) Sample.generator Sample.values false Sample.store) /\
  (_validate Sample.generator [("ssdeep", 0)]
   = Raise (InvalidMISPObject
       "At least one of the following attributes is required: filename, size-in-bytes, md5, sha1, sha256") /\
   exists msg,
     snd (_fill_object (env := Sample.env) Sample.generator [("ssdeep", 0)] true Sample.store)
     = Raise (InvalidMISPObject msg)).
Proof.
  split.
  - split; [reflexivity|].
    destruct (fill_object_strict_iff_validate (env := Sample.env)
                Sample.generator Sample.values Sample.store) as (_ & _ & Hsame).
    apply (Hsame true). reflexivity.
  - split; [reflexivity|].
    destruct (fill_object_strict_iff_validate (env := Sample.env)
                Sample.generator [("ssdeep", 0)] Sample.store) as (Hiff & _).
    apply Hiff. eexists. reflexivity.
Defined.

Lemma sample_run :
  _fill_object (env := Sample.env) Sample.generator Sample.values true Sample.store
  = (sample_store', Ok sample_record).
Proof. reflexivity. Defined.

(** Of the two sample keys only ['filename'] has a value, and only it is
    emitted. *)
Lemma fill_object_omits_null_values_witness :
  _fill_object (env := Sample.env) Sample.generator Sample.values true Sample.store
  = (sample_store', Ok sample_record) /\
  map oa_type (MISPObject.ObjectAttribute sample_record) = ["filename"] /\
  Forall (emitted_from (env := Sample.env) Sample.store Sample.values)
    (MISPObject.ObjectAttribute sample_record).
Proof.
  split; [exact sample_run|].
  exact (fill_object_omits_null_values (env := Sample.env) _ _ _ _ _ _ sample_run).
Defined.

(** The dictionary of ['filename'] has been filled in, the one of ['md5']
    has not. *)
Lemma fill_object_mutates_values_witness :
  _fill_object (env := Sample.env) Sample.generator Sample.values true Sample.store
  = (sample_store', Ok sample_record) /\
  Sample.store 1 = [("value", PStr "a.txt")] /\
  dict_find (sample_store' 1) "type" <> None /\
  sample_store' 1 <> Sample.store 1 /\
  sample_store' 0 = Sample.store 0 /\
  filled_in Sample.generator "filename" (Sample.store 1) (sample_store' 1).
Proof.
  split; [exact sample_run|]. split; [reflexivity|].
  destruct (fill_object_mutates_values (env := Sample.env) _ _ _ _ _ _ sample_run)
    as (_ & Hany & Hdistinct).
  assert (NoDup (map snd Sample.values)) as Hnd.
  { simpl. repeat constructor; simpl; intuition discriminate. }
  destruct (Hany "filename" 1) as (Hty & Hchanged);
    [simpl; auto | reflexivity |].
  split; [exact Hty|]. split; [apply Hchanged; reflexivity|].
  split.
  - exact (Hdistinct Hnd "md5" 0 (or_introl eq_refl)).
  - exact (Hdistinct Hnd "filename" 1 (or_intror (or_introl eq_refl))).
Defined.

(** C8 as stated fails: a generator without links yields a record without
    ['ObjectReference'], where the claim asks for the (empty) list of its
    links. *)
Lemma fill_object_no_links_no_references :
  links Sample.generator = [] /\
  rmap MISPObject.ObjectReference
    (snd (_fill_object (env := Sample.env) Sample.generator Sample.values true Sample.store))
  = Ok None /\
  rmap MISPObject.ObjectReference
    (snd (_fill_object (env := Sample.env) Sample.generator Sample.values true Sample.store))
  <> Ok (Some (map reference_of_link (links Sample.generator))).
Proof.
  split; [reflexivity|]. split; [reflexivity|]. discriminate.
Qed.

Lemma fill_object_shell_witness :
  links Sample.generator = [] /\
  _fill_object (env := Sample.env)
    (add_links Sample.generator [("uuid-1", Some "PE indicators"%string)])
    Sample.values true Sample.store = (sample_store', Ok linked_record) /\
  MISPObject.uuid linked_record = "uuid-0"%string /\
  MISPObject.ObjectReference linked_record =
    Some [{| referenced_object_uuid := "uuid-1";
             comment := Some "PE indicators"%string |}].
Proof.
  assert (_fill_object (env := Sample.env)
            (add_links Sample.generator [("uuid-1", Some "PE indicators"%string)])
            Sample.values true Sample.store = (sample_store', Ok linked_record))
    as Hrun by reflexivity.
  split; [reflexivity|]. split; [exact Hrun|].
  destruct (fill_object_shell (env := Sample.env) Sample.generator
              [("uuid-1", Some "PE indicators"%string)]
              Sample.values true Sample.store _ _ eq_refl Hrun)
    as (_ & _ & Hu & _ & _ & _ & Href).
  split; [exact Hu | exact Href].
Defined.

(** C2 as stated fails: the claim wants [InvalidMISPObject] here, since no
    key of the [requiredOneOf] list has a value; [_validate] returns [True]. *)
Lemma validate_accepts_null_value :
  def_requiredOneOf (definition Sample.generator)
    = Some ["filename"; "size-in-bytes"; "md5"; "sha1"; "sha256"] /\
  present_with_value null_store null_values
    ["filename"; "size-in-bytes"; "md5"; "sha1"; "sha256"] = false /\
  _validate Sample.generator null_values = Ok true.
Proof. repeat split. Qed.

(** The three cases of [_validate] on the sample definitions. *)
Lemma validate_two_constraints_witness :
  _validate Sample.generator [("ssdeep", 0)]
  = Raise (InvalidMISPObject
      "At least one of the following attributes is required: filename, size-in-bytes, md5, sha1, sha256") /\
  _validate {| definition := Sample.pe_definition; uuid := "uuid-1"; links := [] |}
    [("imphash", 0)]
  = Raise (InvalidMISPObject "type is required is required") /\
  _validate Sample.generator Sample.values = Ok true.
Proof.
  split; [|split].
  - destruct (validate_two_constraints Sample.generator [("ssdeep", 0)])
      as (Hone & _).
    apply (Hone ["filename"; "size-in-bytes"; "md5"; "sha1"; "sha256"]).
    + reflexivity.
    + discriminate.
    + simpl. intros k Hk [Hs|[]]. subst k.
      repeat (destruct Hk as [Hk|Hk]; [discriminate|]). exact Hk.
  - destruct (validate_two_constraints
                {| definition := Sample.pe_definition; uuid := "uuid-1"; links := [] |}
                [("imphash", 0)]) as (_ & Hreq & _).
    apply (Hreq [] "type" []).
    + exact I.
    + reflexivity.
    + intros p [].
    + simpl. intros [Hs|[]]. discriminate.
  - destruct (validate_two_constraints Sample.generator Sample.values)
      as (_ & _ & Hok).
    apply Hok. split.
    + right. exists "md5". simpl. auto.
    + exact I.
Defined.

(** The image of odd.exe has a section and no optional header; the one of
    sample.exe has both. *)
Lemma generate_attributes_reads_entrypoint_address_witness :
  py_get (pefile.dump_dict Sample.odd) "PE Sections"
    = Ok (PList [Sample.section_info ".text" 4096 512 512]) /\
  PEObject.read_entrypoint_address (pefile.dump_dict Sample.odd) = Ok None /\
  PEObject.generate_attributes (env := Sample.env) pe_generator Sample.odd_bytes
    Sample.odd 2 = (3, Raise (AttributeError "entrypoint_address")) /\
  exists ea,
    PEObject.read_entrypoint_address (pefile.dump_dict Sample.exe) = Ok (Some ea).
Proof.
  split; [reflexivity|]. split; [reflexivity|]. split.
  - destruct (generate_attributes_reads_entrypoint_address (env := Sample.env)
                pe_generator Sample.odd_bytes Sample.odd _ eq_refl eq_refl)
      as (_ & Hraise).
    eapply Hraise; vm_compute; reflexivity.
  - destruct (generate_attributes_reads_entrypoint_address (env := Sample.env)
                pe_generator Sample.exe_bytes Sample.exe _ eq_refl eq_refl)
      as (Hneeds & _).
    edestruct (Hneeds 2) as (ea & Hea & _); [vm_compute; reflexivity|].
    exists ea. exact Hea.
Defined.

(** notes.txt is no executable: the file record alone.  odd.exe makes the
    [PEObject] constructor raise [AttributeError], which is passed on, and
    so is the [OSError] of a file that cannot be read. *)
Lemma make_objects_catches_only_PEFormatError_witness :
  (exists file_object,
     make_objects (env := Sample.env) "notes.txt" 0
     = (2, Ok (file_object, None, None))) /\
  make_objects (env := Sample.env) "odd.exe" 0
    = (3, Raise (AttributeError "entrypoint_address")) /\
  make_objects (env := Sample.env) "missing" 0 = (1, Raise (OSError "missing")).
Proof.
  split; [|split].
  - destruct (make_objects_catches_only_PEFormatError (env := Sample.env) "notes.txt" 0)
      as (_ & Hfile & _).
    edestruct Hfile as (Hfallback & _ & _); [vm_compute; reflexivity|].
    erewrite Hfallback; [|vm_compute; reflexivity].
    eexists. vm_compute. reflexivity.
  - destruct (make_objects_catches_only_PEFormatError (env := Sample.env) "odd.exe" 0)
      as (_ & Hfile & _).
    edestruct Hfile as (_ & Hother & _); [vm_compute; reflexivity|].
    eapply Hother; [vm_compute; reflexivity|].
    simpl. auto.
  - destruct (make_objects_catches_only_PEFormatError (env := Sample.env) "missing" 0)
      as (Hfile & _).
    apply Hfile. vm_compute. reflexivity.
Defined.

(** File, executable and two sections: the links between their uuids. *)
Lemma make_objects_links_witness :
  make_objects (env := Sample.env) "sample.exe" 0
    = (4, Ok (sample_file_object, Some sample_pe_object, Some sample_pe_sections)) /\
  MISPObject.uuid sample_pe_object = "uuid-1"%string /\
  MISPObject.ObjectReference sample_file_object
    = Some [{| referenced_object_uuid := "uuid-1";
               comment := Some "PE indicators"%string |}] /\
  MISPObject.references sample_pe_object
    = [{| referenced_object_uuid := "uuid-2";
          comment := Some "Section 0 of PE"%string |};
       {| referenced_object_uuid := "uuid-3";
          comment := Some "Section 1 of PE"%string |}] /\
  map MISPObject.uuid sample_pe_sections = ["uuid-2"; "uuid-3"]%string /\
  List.length (MISPObject.references sample_pe_object) = 2.
Proof.
  assert (make_objects (env := Sample.env) "sample.exe" 0
          = (4, Ok (sample_file_object, Some sample_pe_object,
                    Some sample_pe_sections))) as Hrun
    by (vm_compute; reflexivity).
  split; [exact Hrun|].
  destruct (make_objects_links (env := Sample.env) _ _ _ _ _ _ Hrun)
    as (n1 & misp_file & misp_pe & Hfile & Hpe & Href & Hu & Hlen & _).
  vm_compute in Hfile. injection Hfile as <- <-.
  vm_compute in Hpe. injection Hpe as <-.
  split; [reflexivity|]. split; [exact Href|].
  split; [reflexivity|]. split; [reflexivity|]. exact Hlen.
Defined.

(** The constructor draws the first uuid of a run, and two records
    assembled around an [add_link] both carry it. *)
Lemma uuid_generated_once_witness :
  MISPObjectGenerator.__init__ (env := Sample.env) "file/definition.json" 0
    = (1, Ok Sample.generator) /\
  uuid Sample.generator = uuid_uuid4 (Environment := Sample.env) 0 /\
  Forall (fun out => forall r, out = Ok r -> MISPObject.uuid r = "uuid-0"%string)
    (snd (run (env := Sample.env) Sample.generator Sample.store
            [FillObject Sample.values true;
             AddLink "uuid-1" (Some "PE indicators"%string);
             FillObject Sample.values false])) /\
  snd (run (env := Sample.env) Sample.generator Sample.store
         [FillObject Sample.values true;
          AddLink "uuid-1" (Some "PE indicators"%string);
          FillObject Sample.values false])
  = [Ok sample_record; Ok linked_record].
Proof.
  destruct (uuid_generated_once (env := Sample.env)) as (Hinit & Hrun & _).
  split; [reflexivity|]. split.
  - now destruct (Hinit "file/definition.json"%string 0 1 Sample.generator eq_refl).
  - split; [|reflexivity].
    exact (proj2 (Hrun Sample.generator Sample.store _)).
Defined.

(** * Further properties of the generators *)

(** ** _validate reads the key set *)

Section ValidateKeys.
Import MISPObjectGenerator.

Lemma mem_ext (names1 names2 : list string) :
  (forall k, In k names1 <-> In k names2) ->
  forall k, mem k names1 = mem k names2.
Proof.
  intros Hsame k.
  destruct (mem k names1) eqn:E1, (mem k names2) eqn:E2; auto.
  - apply mem_In, Hsame, mem_In in E1. congruence.
  - apply mem_In, Hsame, mem_In in E2. congruence.
Qed.

Lemma check_required_ext (required names1 names2 : list string) :
  (forall k, mem k names1 = mem k names2) ->
  check_required required names1 = check_required required names2.
Proof.
  intros Hmem. induction required as [|r rs IH]; simpl; auto.
  rewrite Hmem, IH. reflexivity.
Qed.

Lemma intersects_ext (l names1 names2 : list string) :
  (forall k, mem k names1 = mem k names2) ->
  intersects l names1 = intersects l names2.
Proof.
  intros Hmem. unfold intersects.
  induction l as [|r rs IH]; simpl; auto.
  now rewrite Hmem, IH.
Qed.

(** Two mappings with the same set of keys get the same verdict from
    [_validate], down to the message: neither the order of the keys nor
    their dictionaries matter. *)
Theorem validate_depends_on_key_set (self : t) (dump1 dump2 : values_map) :
  (forall k, In k (map fst dump1) <-> In k (map fst dump2)) ->
  _validate self dump1 = _validate self dump2.
Proof.
  intros Hsame. pose proof (mem_ext _ _ Hsame) as Hmem.
  rewrite !_validate_unfold.
  unfold requiredOneOf_check, required_check.
  destruct (def_requiredOneOf (definition self)) as [[|r rs]|];
    destruct (def_required (definition self)) as [[|q qs]|];
    rewrite ?(intersects_ext _ _ _ Hmem), ?(check_required_ext _ _ _ Hmem);
    reflexivity.
Qed.

(** Values that pass [_validate] still pass with more keys. *)
Theorem validate_more_keys (self : t) (dump1 dump2 : values_map) :
  incl (map fst dump1) (map fst dump2) ->
  _validate self dump1 = Ok true ->
  _validate self dump2 = Ok true.
Proof.
  intros Hincl. rewrite !_validate_unfold.
  destruct (requiredOneOf_check self (map fst dump1)) as [[]|] eqn:E1;
    [|discriminate].
  destruct (required_check self (map fst dump1)) as [[]|] eqn:E2;
    [|discriminate].
  intros _.
  apply requiredOneOf_check_ok in E1. apply required_check_ok in E2.
  assert (requiredOneOf_check self (map fst dump2) = Ok tt) as ->.
  { apply requiredOneOf_check_ok. unfold requiredOneOf_holds in *.
    destruct (def_requiredOneOf (definition self)); auto.
    destruct E1 as [->|(k & Hk & Hin)]; auto.
    right. exists k. auto. }
  assert (required_check self (map fst dump2) = Ok tt) as ->.
  { apply required_check_ok. unfold required_holds in *.
    destruct (def_required (definition self)); auto. }
  reflexivity.
Qed.

End ValidateKeys.

Lemma validate_depends_on_key_set_witness :
  MISPObjectGenerator._validate Sample.generator [("md5", 0); ("ssdeep", 1)]
  = MISPObjectGenerator._validate Sample.generator [("ssdeep", 7); ("md5", 3)].
Proof.
  apply validate_depends_on_key_set. simpl. intros k. tauto.
Defined.

Lemma validate_more_keys_witness :
  MISPObjectGenerator._validate Sample.generator [("md5", 0)] = Ok true /\
  MISPObjectGenerator._validate Sample.generator [("ssdeep", 1); ("md5", 0)] = Ok true.
Proof.
  split; [reflexivity|].
  apply (validate_more_keys Sample.generator [("md5", 0)]); [|reflexivity].
  intros k [<-|[]]. simpl. auto.
Defined.

(** ** _fill_object over a mapping in two parts *)

Section FillCompose.
Context {env : Environment}.
Import MISPObjectGenerator.

(** The attributes already in the list are only ever appended to. *)
Lemma fill_attributes_acc (self : t) (values : values_map) :
  forall acc h,
  fill_attributes self values acc h =
  match fill_attributes self values [] h with
  | (h', Ok attrs) => (h', Ok (acc ++ attrs))
  | (h', Raise e) => (h', Raise e)
  end.
Proof.
  induction values as [|item rest IH]; intros acc h; cbn [fill_attributes].
  - unfold ret. now rewrite app_nil_r.
  - unfold bind.
    destruct (fill_attribute self item h) as [h1 [[a|]|e]]; auto.
    rewrite (IH (acc ++ [a])), (IH ([] ++ [a])).
    destruct (fill_attributes self rest [] h1) as [h2 [attrs|e]]; auto.
    now rewrite <- app_assoc.
Qed.

Lemma fill_attributes_app (self : t) (a b : values_map) :
  forall acc h,
  fill_attributes self (a ++ b) acc h =
  match fill_attributes self a acc h with
  | (h1, Ok acc1) => fill_attributes self b acc1 h1
  | (h1, Raise e) => (h1, Raise e)
  end.
Proof.
  induction a as [|item rest IH]; intros acc h; cbn [fill_attributes app].
  - reflexivity.
  - unfold bind.
    destruct (fill_attribute self item h) as [h1 [o|e]]; auto.
Qed.

(** Non-strict assembly of [a ++ b] is assembly of [a], then of [b] on the
    store that [a] left: the record has the attributes of both, in this
    order, and an exception of either part is the exception of the whole,
    with the store as that part left it. *)
Theorem fill_object_app (self : t) (a b : values_map) (h : heap) :
  _fill_object self (a ++ b) false h =
  match _fill_object self a false h with
  | (h1, Ok ra) =>
      match _fill_object self b false h1 with
      | (h2, Ok rb) =>
          (h2, Ok (MISPObject.set_ObjectAttribute ra
                     (MISPObject.ObjectAttribute ra ++ MISPObject.ObjectAttribute rb)))
      | (h2, Raise e) => (h2, Raise e)
      end
  | (h1, Raise e) => (h1, Raise e)
  end.
Proof.
  rewrite !_fill_object_lenient, fill_attributes_app.
  destruct (fill_attributes self a [] h) as [h1 [attrs1|e]]; auto.
  rewrite _fill_object_lenient, fill_attributes_acc.
  destruct (fill_attributes self b [] h1) as [h2 [attrs2|e]]; auto.
Qed.

(** A key with a value that the definition's ['attributes'] does not
    declare makes the loop raise [KeyError] with that key.  What the keys
    before it wrote into their dictionaries stays written. *)
Theorem fill_object_unknown_key (self : t) (pre post : values_map)
  (k : string) (l : loc) (ad : pydict) (h h1 : heap) (r : MISPObject.t) :
  def_attributes (definition self) = PDict ad ->
  dict_find ad k = None ->
  is_None (dict_get (h l) "value") = false ->
  _fill_object self pre false h = (h1, Ok r) ->
  _fill_object self (pre ++ (k, l) :: post) false h
  = (h1, Raise (KeyError (PStr k))).
Proof.
  intros Had Hk Hv Hpre.
  apply _fill_object_ok in Hpre as (attrs & Hloop & _).
  rewrite _fill_object_lenient, fill_attributes_app, Hloop.
  cbn [fill_attributes]. unfold bind at 1.
  assert (is_None (dict_get (h1 l) "value") = false) as Hv1.
  { destruct (fill_attributes_spec _ _ _ _ _ _ Hloop) as (Hval & _).
    now rewrite Hval. }
  unfold fill_attribute, bind, value_get, lift, attribute_definition.
  rewrite Hv1, Had. simpl. now rewrite Hk.
Qed.

Lemma fill_object_attribute_keys (self : t) (values : values_map) (strict : bool)
  (h h' : heap) (r : MISPObject.t) (k : string) :
  _fill_object self values strict h = (h', Ok r) ->
  In k (map oa_type (MISPObject.ObjectAttribute r)) <->
  exists l, In (k, l) values /\ is_None (dict_get (h l) "value") = false.
Proof.
  intros Hrun. apply _fill_object_ok in Hrun as (attrs & Hloop & ->).
  destruct (fill_attributes_spec _ _ _ _ _ _ Hloop) as (_ & _ & em & -> & Hk & _).
  simpl. rewrite Hk, in_map_iff. split.
  - intros ([k0 l] & <- & Hin). apply filter_In in Hin as (Hin & Hv).
    exists l. split; [assumption|].
    unfold has_value in Hv. simpl in Hv. now apply negb_true_iff in Hv.
  - intros (l & Hin & Hv). exists (k, l). split; [reflexivity|].
    apply filter_In. split; [assumption|].
    unfold has_value. simpl. now rewrite Hv.
Qed.

(** A record assembled in strict mode comes from values whose keys meet
    both constraints of the definition.  That is a statement about keys: a
    key of the [required] list is a key of the values, and it is among the
    attributes of the record exactly when its value is not [None]. *)
Theorem fill_object_strict_validated (self : t) (values : values_map)
  (h h' : heap) (r : MISPObject.t) :
  _fill_object self values true h = (h', Ok r) ->
  requiredOneOf_holds self (map fst values) /\
  required_holds self (map fst values) /\
  forall required k,
    def_required (definition self) = Some required ->
    In k required ->
    In k (map fst values) /\
    (In k (map oa_type (MISPObject.ObjectAttribute r)) <->
     exists l, In (k, l) values /\ is_None (dict_get (h l) "value") = false).
Proof.
  intros Hrun.
  pose proof (fun k => fill_object_attribute_keys _ _ _ _ _ _ k Hrun) as Hkeys.
  revert Hrun. rewrite _fill_object_strict, _validate_unfold.
  destruct (requiredOneOf_check self (map fst values)) as [[]|] eqn:E1;
    [|discriminate].
  destruct (required_check self (map fst values)) as [[]|] eqn:E2;
    [|discriminate].
  intros _.
  apply requiredOneOf_check_ok in E1. apply required_check_ok in E2.
  split; [assumption|]. split; [assumption|].
  intros required k Hreq Hk. split; [|apply Hkeys].
  unfold required_holds in E2. rewrite Hreq in E2. auto.
Qed.

End FillCompose.

Lemma fill_object_unknown_key_witness :
  MISPObjectGenerator._fill_object (env := Sample.env) Sample.generator
    [("filename", 1)] false unknown_store = (unknown_store', Ok sample_record) /\
  MISPObjectGenerator._fill_object (env := Sample.env) Sample.generator
    [("filename", 1); ("bogus", 2); ("md5", 0)] false unknown_store
  = (unknown_store', Raise (KeyError (PStr "bogus"))) /\
  dict_find (unknown_store' 1) "type" = Some (PStr "filename").
Proof.
  assert (MISPObjectGenerator._fill_object (env := Sample.env) Sample.generator
            [("filename", 1)] false unknown_store = (unknown_store', Ok sample_record))
    as Hpre by reflexivity.
  split; [exact Hpre|]. split; [|reflexivity].
  apply (fill_object_unknown_key (env := Sample.env) Sample.generator
           [("filename", 1)] [("md5", 0)] "bogus" 2 _ unknown_store
           unknown_store' sample_record eq_refl); [reflexivity|reflexivity|exact Hpre].
Defined.

Lemma fill_object_strict_validated_witness :
  MISPObjectGenerator._fill_object (env := Sample.env) md5_generator
    Sample.values true Sample.store = (sample_store', Ok sample_record) /\
  In "md5"%string (map fst Sample.values) /\
  ~ In "md5"%string (map oa_type (MISPObject.ObjectAttribute sample_record)).
Proof.
  assert (MISPObjectGenerator._fill_object (env := Sample.env) md5_generator
            Sample.values true Sample.store = (sample_store', Ok sample_record))
    as Hrun by reflexivity.
  split; [exact Hrun|].
  destruct (fill_object_strict_validated (env := Sample.env) _ _ _ _ _ Hrun)
    as (_ & _ & Hreq).
  destruct (Hreq ["md5"%string] "md5"%string eq_refl (or_introl eq_refl))
    as (Hkey & Hattr).
  split; [exact Hkey|].
  intros Hin. apply Hattr in Hin as (l & [[= <-]|[[=]|[]]] & Hv).
  discriminate.
Defined.

(** ** The dump methods on instances that the constructors built *)

Section Dumps.
Context {env : Environment}.

Lemma alloc_values_ge (entries : list (string * pydict)) :
  forall next h vs,
  MISPObjectGenerator.alloc_values entries next = (h, vs) ->
  Forall (fun kl => next <= snd kl) vs.
Proof.
  induction entries as [|[k d] rest IH]; intros next h vs; simpl.
  - intros [= _ <-]. constructor.
  - destruct (MISPObjectGenerator.alloc_values rest (S next)) as [h' vs'] eqn:E.
    intros [= _ <-]. constructor; [simpl; lia|].
    eapply Forall_impl; [|eapply IH; eauto]. simpl. intros kl Hkl. lia.
Qed.

(** The fresh store holds each entry's dictionary at the entry's address. *)
Lemma alloc_values_entries (entries : list (string * pydict)) :
  forall next h vs,
  MISPObjectGenerator.alloc_values entries next = (h, vs) ->
  map (fun kl => (fst kl, h (snd kl))) vs = entries.
Proof.
  induction entries as [|[k d] rest IH]; intros next h vs; simpl.
  - now intros [= _ <-].
  - destruct (MISPObjectGenerator.alloc_values rest (S next)) as [h' vs'] eqn:E.
    intros [= <- <-]. simpl. rewrite upd_eq. f_equal.
    rewrite <- (IH _ _ _ E).
    apply map_ext_in. intros [k0 l0] Hin. simpl.
    pose proof (alloc_values_ge _ _ _ _ E) as Hge.
    rewrite Forall_forall in Hge. specialize (Hge _ Hin). simpl in Hge.
    rewrite upd_ne by lia. reflexivity.
Qed.

Lemma filter_has_value_entries (h : heap) (vs : values_map) :
  map fst (filter (has_value h) vs)
  = map fst (filter entry_has_value (map (fun kl => (fst kl, h (snd kl))) vs)).
Proof.
  induction vs as [|[k l] vs IH]; simpl; auto.
  unfold has_value at 1, entry_has_value at 1. simpl.
  destruct (negb (is_None (dict_get (h l) "value"))); simpl; now rewrite IH.
Qed.

(** The attributes of a dumped record are the entries with a value, in
    the order of the entries. *)
Lemma fill_fresh_attribute_keys (self : MISPObjectGenerator.t)
  (entries : list (string * pydict)) (r : MISPObject.t) :
  MISPObjectGenerator.fill_fresh self entries = Ok r ->
  map oa_type (MISPObject.ObjectAttribute r)
  = map fst (filter entry_has_value entries).
Proof.
  unfold MISPObjectGenerator.fill_fresh.
  destruct (MISPObjectGenerator.alloc_values entries 0) as [h vs] eqn:Ealloc.
  destruct (MISPObjectGenerator._fill_object self vs true h) as [h' r'] eqn:Hrun.
  simpl. intros ->.
  apply _fill_object_ok in Hrun as (attrs & Hloop & ->).
  destruct (fill_attributes_spec _ _ _ _ _ _ Hloop) as (_ & _ & em & -> & Hk & _).
  simpl. rewrite Hk, filter_has_value_entries.
  now rewrite (alloc_values_entries _ _ _ _ Ealloc).
Qed.

Lemma filter_all {A} (p : A -> bool) (l : list A) :
  Forall (fun a => p a = true) l -> filter p l = l.
Proof.
  induction 1 as [|a l Ha _ IH]; simpl; auto. now rewrite Ha, IH.
Qed.

(** What [FileObject.__init__] leaves behind. *)
Lemma FileObject_init_fields (filepath : string) (n n1 : nat) (self : FileObject.t) :
  FileObject.__init__ filepath n = (n1, Ok self) ->
  n1 = S n /\
  MISPObjectGenerator.uuid (FileObject.base self) = uuid_uuid4 n /\
  MISPObjectGenerator.links (FileObject.base self) = [] /\
  FileObject.filename self = os_path_basename filepath /\
  os_path_getsize filepath = Ok (FileObject.size self) /\
  read_file filepath = Ok (FileObject.data self) /\
  FileObject.pseudo_file self = FileObject.data self /\
  if (0 <? FileObject.size self)%Z then
    FileObject.entropy self = Some (FileObject.__entropy_H (FileObject.data self)) /\
    FileObject.ssdeep self = Some (pydeep_hash_buf (FileObject.data self)) /\
    FileObject.sha512 self = Some (hashlib_sha512 (FileObject.data self)) /\
    FileObject.md5 self = Some (hashlib_md5 (FileObject.data self)) /\
    FileObject.sha1 self = Some (hashlib_sha1 (FileObject.data self)) /\
    FileObject.sha256 self = Some (hashlib_sha256 (FileObject.data self))
  else
    FileObject.entropy self = None /\ FileObject.ssdeep self = None /\
    FileObject.sha512 self = None /\ FileObject.md5 self = None /\
    FileObject.sha1 self = None /\ FileObject.sha256 self = None.
Proof.
  unfold FileObject.__init__. unfold bind at 1.
  destruct (MISPObjectGenerator.__init__ "file/definition.json" n)
    as [n0 [base'|e]] eqn:Hinit; [|discriminate].
  apply generator_init in Hinit as (-> & Hu & Hfresh & _).
  unfold bind, lift.
  destruct (read_file filepath) as [data'|]; [|discriminate].
  unfold FileObject.generate_attributes.
  destruct (os_path_getsize filepath) as [size'|]; cbn [rbind]; [|discriminate].
  destruct (0 <? size')%Z eqn:Hsize; intros [= <- <-];
    cbn [FileObject.base FileObject.filename FileObject.size FileObject.data
         FileObject.pseudo_file FileObject.entropy FileObject.ssdeep
         FileObject.sha512 FileObject.md5 FileObject.sha1 FileObject.sha256];
    rewrite Hsize; repeat split; auto.
Qed.

(** For a [FileObject] that the constructor built, [dump] never misses an
    attribute of the instance.  The record of a file of size 0 has the
    attributes ['filename'] and ['size-in-bytes'] and no other; the record of
    a larger file has these nine, in this order.  It has no reference. *)
Theorem FileObject_dump_built (filepath : string) (n n1 : nat) (self : FileObject.t) :
  FileObject.__init__ filepath n = (n1, Ok self) ->
  (exists vs, FileObject.dump_values self = Ok vs /\
     In ("filename"%string, value_only (PStr (os_path_basename filepath))) vs /\
     In ("size-in-bytes"%string, value_only (PInt (FileObject.size self))) vs) /\
  forall r, FileObject.dump self = Ok r ->
    MISPObject.ObjectReference r = None /\
    map oa_type (MISPObject.ObjectAttribute r) =
    if (0 <? FileObject.size self)%Z then
      ["filename"; "size-in-bytes"; "entropy"; "ssdeep"; "sha512"; "md5";
       "sha1"; "sha256"; "malware-sample"]%string
    else ["filename"; "size-in-bytes"]%string.
Proof.
  intros Hinit.
  apply FileObject_init_fields in Hinit
    as (_ & _ & Hlinks & Hname & _ & _ & _ & Hfields).
  unfold FileObject.dump, FileObject.dump_values.
  destruct (0 <? FileObject.size self)%Z.
  - destruct Hfields as (-> & -> & -> & -> & -> & ->). simpl. split.
    + eexists. split; [reflexivity|]. rewrite Hname. simpl. auto.
    + intros r Hr. split.
      * apply fill_fresh_ok in Hr as (_ & ->). now rewrite Hlinks.
      * now rewrite (fill_fresh_attribute_keys _ _ _ Hr).
  - simpl. split.
    + eexists. split; [reflexivity|]. rewrite Hname. simpl. auto.
    + intros r Hr. split.
      * apply fill_fresh_ok in Hr as (_ & ->). now rewrite Hlinks.
      * now rewrite (fill_fresh_attribute_keys _ _ _ Hr).
Qed.

Lemma in_filter_keys (k : string) (d : pydict) (vs : list (string * pydict)) :
  In (k, d) vs -> entry_has_value (k, d) = true ->
  In k (map fst (filter entry_has_value vs)).
Proof.
  intros Hin Hv. apply in_map_iff. exists (k, d). split; [reflexivity|].
  apply filter_In. auto.
Qed.

(** What [PESectionObject.__init__] leaves behind. *)
Lemma PESectionObject_init_fields (s : pyval) (data' : list Byte.byte)
  (n n1 : nat) (self : PESectionObject.t) :
  PESectionObject.__init__ s data' n = (n1, Ok self) ->
  n1 = S n /\
  MISPObjectGenerator.uuid (PESectionObject.base self) = uuid_uuid4 n /\
  MISPObjectGenerator.links (PESectionObject.base self) = [] /\
  (x <- py_getitem s "Name" ;; py_getitem x "Value")%result
    = Ok (PESectionObject.name self) /\
  (x <- py_getitem s "SizeOfRawData" ;; py_getitem x "Value")%result
    = Ok (PESectionObject.size self) /\
  exists z,
    py_int (PESectionObject.size self) = Ok z /\
    if (0 <? z)%Z then
      exists en m s1 s2 s5,
        py_getitem s "Entropy" = Ok en /\
        py_getitem s "MD5" = Ok m /\
        py_getitem s "SHA1" = Ok s1 /\
        py_getitem s "SHA256" = Ok s2 /\
        py_getitem s "SHA512" = Ok s5 /\
        PESectionObject.entropy self = Some en /\
        PESectionObject.md5 self = Some m /\
        PESectionObject.sha1 self = Some s1 /\
        PESectionObject.sha256 self = Some s2 /\
        PESectionObject.sha512 self = Some s5 /\
        PESectionObject.ssdeep self = Some (pydeep_hash_buf data')
    else
      PESectionObject.entropy self = None /\ PESectionObject.md5 self = None /\
      PESectionObject.sha1 self = None /\ PESectionObject.sha256 self = None /\
      PESectionObject.sha512 self = None /\ PESectionObject.ssdeep self = None.
Proof.
  unfold PESectionObject.__init__. unfold bind at 1.
  destruct (MISPObjectGenerator.__init__ "pe-section/definition.json" n)
    as [n0 [base'|e]] eqn:Hinit; [|discriminate].
  apply generator_init in Hinit as (-> & Hu & Hfresh & _).
  unfold lift, PESectionObject.generate_attributes.
  destruct (x <- py_getitem s "Name" ;; py_getitem x "Value")%result
    as [name'|]; cbn [rbind]; [|discriminate].
  destruct (x <- py_getitem s "SizeOfRawData" ;; py_getitem x "Value")%result
    as [size'|]; cbn [rbind]; [|discriminate].
  unfold py_gt0.
  destruct (py_int size') as [z|] eqn:Hz; cbn [rbind]; [|discriminate].
  destruct (0 <? z)%Z eqn:Hpos.
  - destruct (py_getitem s "Entropy") as [en|]; cbn [rbind]; [|discriminate].
    destruct (py_getitem s "MD5") as [m|]; cbn [rbind]; [|discriminate].
    destruct (py_getitem s "SHA1") as [s1|]; cbn [rbind]; [|discriminate].
    destruct (py_getitem s "SHA256") as [s2|]; cbn [rbind]; [|discriminate].
    destruct (py_getitem s "SHA512") as [s5|]; cbn [rbind]; [|discriminate].
    intros [= <- <-]. simpl. repeat split; auto.
    exists z. rewrite Hpos. split; [assumption|].
    exists en, m, s1, s2, s5. repeat split; reflexivity.
  - intros [= <- <-]. simpl. repeat split; auto.
    exists z. rewrite Hpos. repeat split; auto.
Qed.

(** For a section generator that the constructor built, [dump] succeeds in
    collecting its values: two keys for a section without raw data, eight
    otherwise.  The record has no reference, and its attributes are the
    keys whose value is not [None]; ['size-in-bytes'] is always one. *)
Theorem PESectionObject_dump_built (s : pyval) (data' : list Byte.byte)
  (n n1 : nat) (self : PESectionObject.t) :
  PESectionObject.__init__ s data' n = (n1, Ok self) ->
  exists z vs,
    py_int (PESectionObject.size self) = Ok z /\
    PESectionObject.dump_values self = Ok vs /\
    map fst vs =
      (if (0 <? z)%Z then
         ["name"; "size-in-bytes"; "entropy"; "md5"; "sha1"; "sha256";
          "sha512"; "ssdeep"]%string
       else ["name"; "size-in-bytes"]%string) /\
    forall r, PESectionObject.dump self = Ok r ->
      MISPObject.ObjectReference r = None /\
      map oa_type (MISPObject.ObjectAttribute r)
        = map fst (filter entry_has_value vs) /\
      In "size-in-bytes"%string (map oa_type (MISPObject.ObjectAttribute r)).
Proof.
  intros Hinit.
  apply PESectionObject_init_fields in Hinit
    as (_ & _ & Hlinks & _ & _ & z & Hz & Hfields).
  assert (is_None (PESectionObject.size self) = false) as Hsize.
  { destruct (PESectionObject.size self); simpl in Hz; try discriminate;
      reflexivity. }
  exists z.
  assert (exists vs,
            PESectionObject.dump_values self = Ok vs /\
            map fst vs =
              (if (0 <? z)%Z then
                 ["name"; "size-in-bytes"; "entropy"; "md5"; "sha1"; "sha256";
                  "sha512"; "ssdeep"]%string
               else ["name"; "size-in-bytes"]%string) /\
            In "size-in-bytes"%string (map fst (filter entry_has_value vs)))
    as (vs & Hvs & Hkeys & Hin).
  { unfold PESectionObject.dump_values, py_gt0. rewrite Hz. cbn [rbind].
    destruct (0 <? z)%Z.
    - destruct Hfields
        as (en & m & s1 & s2 & s5 & _ & _ & _ & _ & _ & -> & -> & -> & -> & -> & ->).
      simpl. eexists. split; [reflexivity|]. split; [reflexivity|].
      apply (in_filter_keys "size-in-bytes" (value_only (PESectionObject.size self)));
        [simpl; auto|].
      change (negb (is_None (PESectionObject.size self)) = true).
      now rewrite Hsize.
    - simpl. eexists. split; [reflexivity|]. split; [reflexivity|].
      apply (in_filter_keys "size-in-bytes" (value_only (PESectionObject.size self)));
        [simpl; auto|].
      change (negb (is_None (PESectionObject.size self)) = true).
      now rewrite Hsize. }
  exists vs. split; [assumption|]. split; [assumption|]. split; [assumption|].
  intros r. unfold PESectionObject.dump. rewrite Hvs. simpl. intros Hr.
  split.
  - apply fill_fresh_ok in Hr as (_ & ->). now rewrite Hlinks.
  - rewrite (fill_fresh_attribute_keys _ _ _ Hr). auto.
Qed.

End Dumps.

(** ** The loop over the sections *)

Section SectionLoop.
Context {env : Environment}.
Import PEObject.

(** The section test is true exactly when the entry-point address [e] lies
    in the half-open interval from the section's virtual address [va] to
    [va + vs], [vs] being its virtual size.  When [e] is below [va] the
    test is false without the size being read. *)
Theorem entrypoint_in_section_interval (ea : option pyval) (s : pyval) :
  (entrypoint_in_section ea s = Ok true <->
   exists ep a v e va vs,
     ea = Some ep /\ py_int ep = Ok e /\
     virtual_address s = Ok a /\ py_int a = Ok va /\
     virtual_size s = Ok v /\ py_int v = Ok vs /\
     (va <= e < va + vs)%Z) /\
  (forall ep a e va,
     ea = Some ep -> py_int ep = Ok e ->
     virtual_address s = Ok a -> py_int a = Ok va ->
     (e < va)%Z ->
     entrypoint_in_section ea s = Ok false).
Proof.
  unfold entrypoint_in_section, virtual_address, virtual_size, py_ge, py_lt, py_add.
  split.
  - split.
    + destruct ea as [ep|]; [|discriminate]. cbn [getattr rbind].
      destruct (x <- py_getitem s "VirtualAddress" ;; py_getitem x "Value")%result
        as [a|] eqn:Ha; cbn [rbind]; [|discriminate].
      destruct (py_int ep) as [e|] eqn:He; cbn [rbind]; [|discriminate].
      destruct (py_int a) as [va|] eqn:Hva; cbn [rbind]; [|discriminate].
      destruct (va <=? e)%Z eqn:Hge; [|discriminate].
      destruct (x <- py_getitem s "Misc_VirtualSize" ;; py_getitem x "Value")%result
        as [v|] eqn:Hv; cbn [rbind]; [|discriminate].
      destruct (py_int v) as [vs|] eqn:Hvs; cbn [rbind]; [|discriminate].
      intros [= Hlt]. apply Z.leb_le in Hge. apply Z.ltb_lt in Hlt.
      exists ep, a, v, e, va, vs. repeat split; auto.
    + intros (ep & a & v & e & va & vs & -> & He & Ha & Hva & Hv & Hvs & Hle & Hlt).
      cbn [getattr rbind]. rewrite Ha. cbn [rbind]. rewrite He, Hva. cbn [rbind].
      assert ((va <=? e)%Z = true) as -> by now apply Z.leb_le.
      rewrite Hv. cbn [rbind]. rewrite Hvs. cbn [rbind py_int].
      f_equal. now apply Z.ltb_lt.
  - intros ep a e va -> He Ha Hva Hlt.
    cbn [getattr rbind]. rewrite Ha. cbn [rbind]. rewrite He, Hva. cbn [rbind].
    assert ((va <=? e)%Z = false) as -> by (apply Z.leb_gt; assumption).
    reflexivity.
Qed.

(** A round of the loop that succeeds, in full. *)
Lemma section_step_inv (pe' : pefile.PE) (ea : option pyval)
  (st st' : loop_state) (pos : nat) (s : pyval) (n n' : nat) :
  section_step pe' ea st pos s n = (n', Ok st') ->
  n' = S n /\
  exists b sec inside,
    nth_error (pefile.sections pe') pos = Some b /\
    PESectionObject.__init__ s b n = (S n, Ok sec) /\
    ls_sections st' = ls_sections st ++ [sec] /\
    entrypoint_in_section ea s = Ok inside /\
    if inside : bool then
      exists nm, section_name s = Ok nm /\ ls_entrypoint_section st' = Some (nm, pos)
    else ls_entrypoint_section st' = ls_entrypoint_section st.
Proof.
  unfold section_step, bind, lift, ret, section_name.
  destruct (nth_error (pefile.sections pe') pos) as [b|]; [|discriminate].
  destruct (PESectionObject.__init__ s b n) as [n1 [sec|e]] eqn:Hsec;
    [|discriminate].
  pose proof (PESectionObject_init_fields _ _ _ _ _ Hsec) as (-> & _).
  destruct (entrypoint_in_section ea s) as [[|]|e]; try discriminate.
  - destruct (x <- py_getitem s "Name" ;; py_getitem x "Value")%result as [nm|];
      [|discriminate].
    intros [= <- <-]. split; [reflexivity|].
    exists b, sec, true. simpl. repeat split; eauto.
  - intros [= <- <-]. split; [reflexivity|].
    exists b, sec, false. simpl. repeat split; eauto.
Qed.

Lemma read_sections_entries (base' : MISPObjectGenerator.t) (pe' : pefile.PE)
  (ea : option pyval) (n : nat) :
  read_sections base' pe' ea n =
  match pe_sections_entries (pefile.dump_dict pe') with
  | Ok ss =>
      section_loop pe' ea
        {| ls_base := base'; ls_sections := []; ls_entrypoint_section := None |}
        0 ss n
  | Raise e => (n, Raise e)
  end.
Proof.
  unfold read_sections, pe_sections_entries, bind, lift.
  destruct (py_get (pefile.dump_dict pe') "PE Sections") as [v|]; cbn [rbind];
    [|reflexivity].
  destruct (truthy v); [|reflexivity].
  destruct (x <- py_getitem (pefile.dump_dict pe') "PE Sections" ;; py_iter x)%result;
    reflexivity.
Qed.

(** The loop, when it succeeds: one section generator per entry, built
    from the entry and from the bytes at the same position, each with the
    next uuid; and the entry-point section is the last entry for which the
    test is true. *)
Lemma section_loop_inv (pe' : pefile.PE) (ea : option pyval) (ss : list pyval) :
  forall st st' pos n n',
  section_loop pe' ea st pos ss n = (n', Ok st') ->
  n' = n + List.length ss /\
  exists new,
    ls_sections st' = ls_sections st ++ new /\
    List.length new = List.length ss /\
    (forall i s, nth_error ss i = Some s ->
       exists b sec,
         nth_error new i = Some sec /\
         nth_error (pefile.sections pe') (pos + i) = Some b /\
         PESectionObject.__init__ s b (n + i) = (S (n + i), Ok sec)) /\
    ((ls_entrypoint_section st' = ls_entrypoint_section st /\
      forall i s, nth_error ss i = Some s -> entrypoint_in_section ea s = Ok false)
     \/
     exists i s nm,
       nth_error ss i = Some s /\
       entrypoint_in_section ea s = Ok true /\
       section_name s = Ok nm /\
       ls_entrypoint_section st' = Some (nm, pos + i) /\
       forall j s', i < j -> nth_error ss j = Some s' ->
         entrypoint_in_section ea s' = Ok false).
Proof.
  induction ss as [|s rest IH]; intros st st' pos n n'; cbn [section_loop].
  - unfold ret. intros [= <- <-]. split; [simpl; lia|].
    exists []. rewrite app_nil_r. repeat split; auto.
    + intros [|i] s; discriminate.
    + left. split; auto. intros [|i] s; discriminate.
  - unfold bind at 1.
    destruct (section_step pe' ea st pos s n) as [n1 [st1|e]] eqn:Hstep;
      [|discriminate].
    intros Hrest.
    apply section_step_inv in Hstep
      as (-> & b & sec & inside & Hb & Hsec & Hsecs & Hin & Hes).
    apply IH in Hrest as (-> & new & Hnew & Hlen & Hbuilt & Hentry).
    split; [simpl; lia|].
    exists (sec :: new). rewrite Hnew, Hsecs, <- app_assoc. simpl.
    split; [reflexivity|]. split; [now rewrite Hlen|]. split.
    + intros [|i] s0; simpl.
      * intros [= <-]. exists b, sec. rewrite !Nat.add_0_r. auto.
      * intros Hi. destruct (Hbuilt i s0 Hi) as (b0 & sec0 & H1 & H2 & H3).
        exists b0, sec0. rewrite !Nat.add_succ_r. auto.
    + destruct Hentry as [(Hsame & Hnone)|(i & s0 & nm & Hi & Htrue & Hnm & Hes' & Hlater)].
      * destruct inside.
        -- destruct Hes as (nm & Hnm & Hes). right.
           exists 0, s, nm. rewrite Nat.add_0_r. simpl.
           repeat split; auto; try congruence.
           intros [|j] s' Hj; [lia|]. simpl. apply Hnone.
        -- left. split; [congruence|].
           intros [|i] s0; simpl; [intros [= <-]; assumption|apply Hnone].
      * right. exists (S i), s0, nm. simpl. rewrite Nat.add_succ_r.
        repeat split; auto.
        intros [|j] s' Hj; [lia|]. simpl. apply Hlater. lia.
Qed.

End SectionLoop.

(** ** PEObject instances that the constructor built *)

Section PEBuilt.
Context {env : Environment}.
Import PEObject.

Lemma PEObject_init_inv (data' : list Byte.byte) (n n' : nat) (self : t) :
  __init__ data' n = (n', Ok self) ->
  exists pe' ss base' st fi,
    pefile_PE data' = Ok pe' /\
    pe self = pe' /\
    MISPObjectGenerator.uuid base' = uuid_uuid4 n /\
    MISPObjectGenerator.links base' = [] /\
    pe_type self =
      (if pefile.is_dll pe' then "dll"
       else if pefile.is_driver pe' then "driver"
       else if pefile.is_exe pe' then "exe" else "unknown")%string /\
    imphash self = pefile.get_imphash pe' /\
    read_compilation_timestamp (pefile.dump_dict pe')
      = Ok (compilation_timestamp self) /\
    read_entrypoint_address (pefile.dump_dict pe') = Ok (entrypoint_address self) /\
    read_file_info (pefile.dump_dict pe') = Ok fi /\
    version_attributes self = fi /\
    (fi = None -> no_version_attribute self) /\
    pe_sections_entries (pefile.dump_dict pe') = Ok ss /\
    section_loop pe' (entrypoint_address self)
      {| ls_base := base'; ls_sections := []; ls_entrypoint_section := None |}
      0 ss (S n) = (n', Ok st) /\
    base self = ls_base st /\
    sections self = ls_sections st /\
    entrypoint_section self = ls_entrypoint_section st /\
    nb_sections self = List.length (ls_sections st).
Proof.
  unfold __init__. unfold bind at 1.
  destruct (MISPObjectGenerator.__init__ "pe/definition.json" n)
    as [n1 [base'|e]] eqn:Hinit; [|discriminate].
  apply generator_init in Hinit as (-> & Hu & Hfresh & _).
  unfold bind at 1, lift.
  destruct (pefile_PE data') as [pe'|e]; [|discriminate].
  unfold generate_attributes, bind, lift, ret.
  destruct (read_compilation_timestamp _) as [ct|] eqn:Hct; [|discriminate].
  destruct (read_entrypoint_address _) as [ea|] eqn:Hea; [|discriminate].
  destruct (read_file_info _) as [fi|] eqn:Hfi; [|discriminate].
  rewrite read_sections_entries.
  destruct (pe_sections_entries (pefile.dump_dict pe')) as [ss|] eqn:Hss;
    [|discriminate].
  destruct (section_loop pe' ea _ 0 ss (S n)) as [n2 [st|e]] eqn:Hloop;
    [|discriminate].
  intros [= <- <-].
  exists pe', ss, base', st, fi. cbn.
  repeat split; auto; try (subst fi; reflexivity).
  destruct fi as [[[[[[[[[a b] c] d] e] f] g] h] i]|]; reflexivity.
Qed.

(** A [PEObject] that was built has one section generator per entry of
    ['PE Sections'], in order: the one at position [i] was built from the
    [i]-th entry and from the bytes of the [i]-th section of the parsed
    image, with the uuid drawn [i + 1] draws after the executable's own.
    [nb_sections] counts them, and the image has at least as many sections
    as the dump has entries. *)
Theorem PEObject_sections_by_position (data' : list Byte.byte) (n n' : nat) (self : t) :
  __init__ data' n = (n', Ok self) ->
  exists pe' ss,
    pefile_PE data' = Ok pe' /\
    pe_sections_entries (pefile.dump_dict pe') = Ok ss /\
    nb_sections self = List.length ss /\
    List.length (sections self) = List.length ss /\
    List.length ss <= List.length (pefile.sections pe') /\
    n' = S n + List.length ss /\
    forall i s, nth_error ss i = Some s ->
      exists b section,
        nth_error (sections self) i = Some section /\
        nth_error (pefile.sections pe') i = Some b /\
        PESectionObject.__init__ s b (S n + i) = (S (S n + i), Ok section) /\
        MISPObjectGenerator.uuid (PESectionObject.base section)
          = uuid_uuid4 (S n + i).
Proof.
  intros Hinit.
  apply PEObject_init_inv in Hinit
    as (pe' & ss & base' & st & fi & Hpe & _ & _ & _ & _ & _ & _ & _ & _ & _ & _
        & Hss & Hloop & _ & Hsecs & _ & Hnb).
  apply section_loop_inv in Hloop as (-> & new & Hnew & Hlen & Hbuilt & _).
  simpl in Hnew. rewrite Hnew in Hsecs, Hnb.
  exists pe', ss. rewrite Hnb, Hsecs, Hlen.
  repeat split; auto.
  - destruct ss as [|s0 ss0] eqn:Ess; [simpl; lia|]. rewrite <- Ess in *.
    assert (exists s, nth_error ss (List.length ss - 1) = Some s) as (s & Hs).
    { destruct (nth_error ss (List.length ss - 1)) eqn:E; eauto.
      apply nth_error_None in E. rewrite Ess in E. simpl in E. lia. }
    destruct (Hbuilt _ _ Hs) as (b & sec & _ & Hb & _).
    assert (nth_error (pefile.sections pe') (List.length ss - 1) <> None) as Hlt
      by (simpl in Hb; congruence).
    apply nth_error_Some in Hlt. rewrite Ess in *. simpl in *. lia.
  - intros i s Hs. destruct (Hbuilt i s Hs) as (b & sec & H1 & H2 & H3).
    exists b, sec. simpl in H2. repeat split; auto.
    now apply PESectionObject_init_fields in H3 as (_ & Hu & _).
Qed.

(** The entry-point section of a [PEObject] that was built is the last
    entry of ['PE Sections'] for which the section test is true, with the
    name of that entry and its position; the attribute is missing exactly
    when the test is false for every entry. *)
Theorem PEObject_entrypoint_section_last (data' : list Byte.byte) (n n' : nat) (self : t) :
  __init__ data' n = (n', Ok self) ->
  exists pe' ss,
    pefile_PE data' = Ok pe' /\
    pe_sections_entries (pefile.dump_dict pe') = Ok ss /\
    match entrypoint_section self with
    | Some (nm, pos) =>
        exists s,
          nth_error ss pos = Some s /\
          entrypoint_in_section (entrypoint_address self) s = Ok true /\
          section_name s = Ok nm /\
          forall j s', pos < j -> nth_error ss j = Some s' ->
            entrypoint_in_section (entrypoint_address self) s' = Ok false
    | None =>
        forall i s, nth_error ss i = Some s ->
          entrypoint_in_section (entrypoint_address self) s = Ok false
    end.
Proof.
  intros Hinit.
  apply PEObject_init_inv in Hinit
    as (pe' & ss & base' & st & fi & Hpe & _ & _ & _ & _ & _ & _ & _ & _ & _ & _
        & Hss & Hloop & _ & _ & Hes & _).
  apply section_loop_inv in Hloop as (_ & new & _ & _ & _ & Hentry).
  exists pe', ss. split; [assumption|]. split; [assumption|].
  rewrite Hes.
  destruct Hentry as [(-> & Hnone)|(i & s & nm & Hi & Htrue & Hnm & -> & Hlater)].
  - exact Hnone.
  - exists s. simpl. auto.
Qed.

Lemma file_info_1_get_ok (all_data : pyval) (key : string) (d : pydict)
  (l : list pyval) (f1 : pydict) :
  all_data = PDict d ->
  dict_find d "File Info" = Some (PList l) ->
  nth_error l 1 = Some (PDict f1) ->
  file_info_1_get all_data key = Ok (dict_get f1 key).
Proof.
  intros -> Hd Hl. unfold file_info_1_get, py_getitem. rewrite Hd.
  cbn [rbind py_getindex]. rewrite Hl. reflexivity.
Qed.

(** The version resource.  Without a true ['File Info'] entry there are no
    version fields.  With a list whose second element is a dictionary, the
    nine fields are what [.get] finds there, [None] for a missing key.
    With a list of one element, reading the fields raises [IndexError],
    and so does [generate_attributes] when the reads before it succeed. *)
Theorem read_file_info_cases (all_data : pyval) :
  (forall v, py_get all_data "File Info" = Ok v -> truthy v = false ->
     read_file_info all_data = Ok None) /\
  (forall d l f1,
     all_data = PDict d ->
     dict_find d "File Info" = Some (PList l) ->
     nth_error l 1 = Some (PDict f1) ->
     read_file_info all_data =
     Ok (Some (dict_get f1 "OriginalFilename", dict_get f1 "InternalName",
               dict_get f1 "FileDescription", dict_get f1 "FileVersion",
               dict_get f1 "LangID", dict_get f1 "ProductName",
               dict_get f1 "ProductVersion", dict_get f1 "CompanyName",
               dict_get f1 "LegalCopyright"))) /\
  (forall d x,
     all_data = PDict d ->
     dict_find d "File Info" = Some (PList [x]) ->
     read_file_info all_data = Raise IndexError /\
     forall base' data' pe' n ct ea,
       pefile.dump_dict pe' = all_data ->
       read_compilation_timestamp all_data = Ok ct ->
       read_entrypoint_address all_data = Ok ea ->
       generate_attributes base' data' pe' n = (n, Raise IndexError)).
Proof.
  split; [|split].
  - intros v Hv Ht. unfold read_file_info. rewrite Hv. cbn [rbind].
    now rewrite Ht.
  - intros d l f1 Hall Hd Hl. unfold read_file_info.
    rewrite !(file_info_1_get_ok _ _ _ _ _ Hall Hd Hl).
    subst all_data. simpl. unfold dict_get at 1. rewrite Hd.
    destruct l; [discriminate|]. reflexivity.
  - intros d x -> Hd.
    assert (read_file_info (PDict d) = Raise IndexError) as Hraise.
    { unfold read_file_info, file_info_1_get. simpl.
      unfold dict_get. rewrite Hd. simpl. reflexivity. }
    split; [assumption|].
    intros base' data' pe' n ct ea Hdump Hct Hea.
    unfold generate_attributes, bind, lift. rewrite Hdump, Hct, Hea, Hraise.
    reflexivity.
Qed.

End PEBuilt.

(** ** The records of one make_objects call *)

Section Records.
Context {env : Environment}.

Lemma section_links_In (secs : list PESectionObject.t) :
  forall pos link, In link (section_links pos secs) ->
  exists sec, In sec secs /\
    fst link = MISPObjectGenerator.uuid (PESectionObject.base sec).
Proof.
  induction secs as [|sec secs IH]; intros pos link; simpl; [intros []|].
  intros [<-|Hin].
  - exists sec. auto.
  - destruct (IH _ _ Hin) as (sec' & Hsec & Hu). eauto.
Qed.

Lemma rmapM_In {A B} (f : A -> result B) (l : list A) (bs : list B) :
  rmapM f l = Ok bs ->
  (forall a, In a l -> exists b, In b bs /\ f a = Ok b) /\
  (forall b, In b bs -> exists a, In a l /\ f a = Ok b).
Proof.
  revert bs. induction l as [|a l IH]; simpl.
  - intros bs [= <-]. split; intros ? [].
  - destruct (f a) as [b|] eqn:Ea; simpl; [|discriminate].
    destruct (rmapM f l) as [bs'|]; simpl; [|discriminate].
    intros bs [= <-]. destruct (IH bs' eq_refl) as (Hfw & Hbw). split.
    + intros a' [<-|Hin]; [exists b; simpl; auto|].
      destruct (Hfw _ Hin) as (b' & Hb' & Hf). exists b'. simpl. auto.
    + intros b' [<-|Hin]; [exists a; simpl; auto|].
      destruct (Hbw _ Hin) as (a' & Ha' & Hf). exists a'. simpl. auto.
Qed.

Lemma PESectionObject_dump_ok (section : PESectionObject.t) (r : MISPObject.t) :
  PESectionObject.dump section = Ok r ->
  MISPObject.uuid r = MISPObjectGenerator.uuid (PESectionObject.base section) /\
  (MISPObjectGenerator.links (PESectionObject.base section) = [] ->
   MISPObject.ObjectReference r = None).
Proof.
  unfold PESectionObject.dump.
  destruct (PESectionObject.dump_values section); simpl; [|discriminate].
  intros Hr. apply fill_fresh_ok in Hr as (Hu & Href).
  split; [assumption|]. intros Hl. now rewrite Hl in Href.
Qed.

(** The parts of a successful [make_objects] call. *)
Lemma make_objects_inv (filepath : string) (n n' : nat) (o : objects) :
  make_objects filepath n = (n', Ok o) ->
  exists misp_file,
    FileObject.__init__ filepath n = (S n, Ok misp_file) /\
    ((exists misp_pe file_object pe_object pe_sections,
        PEObject.__init__ (FileObject.data misp_file) (S n) = (n', Ok misp_pe) /\
        o = (file_object, Some pe_object, Some pe_sections) /\
        FileObject.dump
          (FileObject.add_link misp_file
             (MISPObjectGenerator.uuid (PEObject.base misp_pe))
             (Some "PE indicators"%string)) = Ok file_object /\
        PEObject.dump misp_pe = Ok pe_object /\
        rmapM PESectionObject.dump (PEObject.sections misp_pe) = Ok pe_sections)
     \/
     (exists msg file_object,
        PEObject.__init__ (FileObject.data misp_file) (S n)
          = (n', Raise (PEFormatError msg)) /\
        o = (file_object, None, None) /\
        FileObject.dump misp_file = Ok file_object)).
Proof.
  rewrite make_objects_unfold.
  destruct (FileObject.__init__ filepath n) as [n1 [misp_file|e]] eqn:Hfile;
    [|discriminate].
  pose proof (FileObject_init_fields _ _ _ _ Hfile) as (-> & _).
  destruct (PEObject.__init__ (FileObject.data misp_file) (S n))
    as [n2 [misp_pe|e]] eqn:Hpe.
  - unfold dump_all.
    destruct (FileObject.dump _) as [fo|] eqn:Hfo; simpl; [|discriminate].
    destruct (PEObject.dump _) as [po|] eqn:Hpo; simpl; [|discriminate].
    destruct (rmapM _ _) as [ss|] eqn:Hss; simpl; [|discriminate].
    intros [= <- <-]. exists misp_file. split; [reflexivity|]. left.
    exists misp_pe, fo, po, ss. auto.
  - destruct e; try discriminate. unfold rmap.
    destruct (FileObject.dump misp_file) as [fo|] eqn:Hfo; simpl; [|discriminate].
    intros [= <- <-]. exists misp_file. split; [reflexivity|]. right.
    exists msg, fo. auto.
Qed.

Lemma PEObject_init_sections (data' : list Byte.byte) (m n' : nat)
  (misp_pe : PEObject.t) :
  PEObject.__init__ data' m = (n', Ok misp_pe) ->
  MISPObjectGenerator.uuid (PEObject.base misp_pe) = uuid_uuid4 m /\
  n' = S m + List.length (PEObject.sections misp_pe) /\
  forall i section,
    nth_error (PEObject.sections misp_pe) i = Some section ->
    MISPObjectGenerator.uuid (PESectionObject.base section) = uuid_uuid4 (S m + i) /\
    MISPObjectGenerator.links (PESectionObject.base section) = [].
Proof.
  intros Hinit.
  apply PEObject_init_inv in Hinit
    as (pe' & ss & base' & st & fi & _ & _ & Hu & _ & _ & _ & _ & _ & _ & _ & _
        & _ & Hloop & Hbase & Hsecs & _ & _).
  pose proof (section_loop_ok _ _ _ _ _ _ _ _ Hloop) as (_ & _ & _ & Huuid & _).
  apply section_loop_inv in Hloop as (-> & new & Hnew & Hlen & Hbuilt & _).
  simpl in Hnew, Huuid. rewrite Hnew in Hsecs. rewrite Hbase, Huuid, Hsecs, Hlen.
  split; [assumption|]. split; [reflexivity|].
  intros i section Hi.
  assert (i < List.length ss) as Hlt.
  { rewrite <- Hlen. apply nth_error_Some. congruence. }
  destruct (nth_error ss i) as [s|] eqn:Hs;
    [|apply nth_error_None in Hs; lia].
  destruct (Hbuilt i s Hs) as (b & sec & Hsec & _ & Hcons).
  assert (sec = section) as -> by congruence.
  now apply PESectionObject_init_fields in Hcons as (_ & H1 & H2 & _).
Qed.

Lemma NoDup_map_injective {A B} (f : A -> B) (l : list A) :
  (forall a b, f a = f b -> a = b) -> NoDup l -> NoDup (map f l).
Proof.
  intros Hinj. induction 1 as [|a l Ha _ IH]; simpl; constructor; auto.
  intros Hin. apply in_map_iff in Hin as (b & Hb & Hin).
  apply Hinj in Hb. now subst.
Qed.

(** The records of a call carry consecutive draws of the uuid generator,
    beginning with the first draw of the call: the file, then the
    executable, then the sections in order.  With an executable the call
    makes exactly one draw per record.  If the generator never repeats a
    draw, no two records of a call share a uuid. *)
Theorem make_objects_uuids (filepath : string) (n n' : nat) (o : objects) :
  make_objects filepath n = (n', Ok o) ->
  map MISPObject.uuid (records_of o)
    = map uuid_uuid4 (seq n (List.length (records_of o))) /\
  (forall file_object pe_object pe_sections,
     o = (file_object, Some pe_object, Some pe_sections) ->
     n' = n + List.length (records_of o)) /\
  ((forall i j, uuid_uuid4 i = uuid_uuid4 j -> i = j) ->
   NoDup (map MISPObject.uuid (records_of o))).
Proof.
  intros Hrun.
  assert (map MISPObject.uuid (records_of o)
          = map uuid_uuid4 (seq n (List.length (records_of o))) /\
          (forall file_object pe_object pe_sections,
             o = (file_object, Some pe_object, Some pe_sections) ->
             n' = n + List.length (records_of o))) as (Hmap & Hcount).
  { apply make_objects_inv in Hrun as (misp_file & Hfile & Hcases).
    apply FileObject_init_fields in Hfile as (_ & Hfu & _).
    destruct Hcases
      as [(misp_pe & fo & po & ss & Hpe & -> & Hfo & Hpo & Hss)
         |(msg & fo & Hpe & -> & Hfo)].
    - apply PEObject_init_sections in Hpe as (Hpu & -> & Hsecs).
      destruct (rmapM_nth _ _ _ Hss) as (Hlen & Hnth).
      unfold FileObject.dump in Hfo.
      destruct (FileObject.dump_values _); simpl in Hfo; [|discriminate].
      apply fill_fresh_ok in Hfo as (Hfo & _). simpl in Hfo.
      apply fill_fresh_ok in Hpo as (Hpo & _).
      split.
      + cbn [records_of app List.length map seq].
        rewrite Hfo, Hfu, Hpo, Hpu. do 2 f_equal.
        apply nth_error_ext. intros i.
        rewrite !nth_error_map, nth_error_seq.
        destruct (nth_error ss i) as [rec|] eqn:Hrec.
        * assert (i < List.length ss) as Hlt
            by (apply nth_error_Some; congruence).
          apply Nat.ltb_lt in Hlt as Hltb. rewrite Hltb. simpl.
          destruct (nth_error (PEObject.sections misp_pe) i) as [sec|] eqn:Hsec;
            [|apply nth_error_None in Hsec; lia].
          destruct (Hnth i sec Hsec) as (rec' & Hrec' & Hdump).
          assert (rec' = rec) as -> by congruence.
          apply PESectionObject_dump_ok in Hdump as (-> & _).
          now destruct (Hsecs i sec Hsec) as (-> & _).
        * apply nth_error_None in Hrec.
          assert (Nat.ltb i (List.length ss) = false) as ->
            by (apply Nat.ltb_ge; lia).
          reflexivity.
      + intros fo' po' ss' [= <- <- <-]. cbn [records_of app List.length]. lia.
    - split; [|intros ? ? ? [=]].
      unfold FileObject.dump in Hfo.
      destruct (FileObject.dump_values _); simpl in Hfo; [|discriminate].
      apply fill_fresh_ok in Hfo as (Hfo & _).
      simpl. now rewrite Hfo, Hfu. }
  split; [assumption|]. split; [assumption|].
  intros Hinj. rewrite Hmap.
  apply NoDup_map_injective; [assumption|apply seq_NoDup].
Qed.

(** No record of a call refers to a record the call did not return.  The
    file record returned alone has no reference, and a section record never
    has one. *)
Theorem make_objects_references_resolve (filepath : string) (n n' : nat) (o : objects) :
  make_objects filepath n = (n', Ok o) ->
  (forall record reference,
     In record (records_of o) ->
     In reference (MISPObject.references record) ->
     In (referenced_object_uuid reference) (map MISPObject.uuid (records_of o))) /\
  (forall file_object,
     o = (file_object, None, None) ->
     MISPObject.ObjectReference file_object = None) /\
  (forall file_object pe_object pe_sections record,
     o = (file_object, Some pe_object, Some pe_sections) ->
     In record pe_sections ->
     MISPObject.ObjectReference record = None).
Proof.
  intros Hrun.
  apply make_objects_inv in Hrun as (misp_file & Hfile & Hcases).
  apply FileObject_init_fields in Hfile as (_ & _ & Hflinks & _).
  destruct Hcases
    as [(misp_pe & fo & po & ss & Hpe & -> & Hfo & Hpo & Hss)
       |(msg & fo & Hpe & -> & Hfo)].
  - pose proof (PEObject_init_links _ _ _ _ Hpe) as (Hlinks & _).
    apply PEObject_init_sections in Hpe as (_ & _ & Hsecs).
    destruct (rmapM_In _ _ _ Hss) as (Hfw & Hbw).
    unfold FileObject.dump in Hfo.
    destruct (FileObject.dump_values _); simpl in Hfo; [|discriminate].
    apply fill_fresh_ok in Hfo as (_ & Hfo). simpl in Hfo.
    rewrite Hflinks in Hfo. simpl in Hfo.
    apply fill_fresh_ok in Hpo as (Hpu & Hpo).
    assert (forall record, In record ss -> MISPObject.ObjectReference record = None)
      as Hnone.
    { intros record Hin. destruct (Hbw _ Hin) as (sec & Hsec & Hdump).
      apply PESectionObject_dump_ok in Hdump as (_ & Hdump). apply Hdump.
      apply In_nth_error in Hsec as (i & Hi). now destruct (Hsecs i sec Hi). }
    split; [|split].
    + cbn [records_of app map]. intros record reference [<-|[<-|Hin]] Href.
      * unfold MISPObject.references in Href. rewrite Hfo in Href.
        destruct Href as [<-|[]]. simpl. rewrite Hpu. auto.
      * unfold MISPObject.references in Href. rewrite Hpo, Hlinks in Href.
        assert (In reference (map MISPObjectGenerator.reference_of_link
                   (section_links 0 (PEObject.sections misp_pe)))) as Href'.
        { destruct (section_links 0 (PEObject.sections misp_pe));
            [destruct Href|exact Href]. }
        apply in_map_iff in Href' as ([u c] & <- & Hlink).
        apply section_links_In in Hlink as (sec & Hsec & Hu). simpl in Hu.
        destruct (Hfw _ Hsec) as (rec & Hrec & Hdump).
        apply PESectionObject_dump_ok in Hdump as (Hru & _).
        simpl. right. right. apply in_map_iff. exists rec.
        split; [congruence|assumption].
      * unfold MISPObject.references in Href. rewrite (Hnone _ Hin) in Href.
        destruct Href.
    + intros ? [=].
    + intros fo' po' ss' record [= <- <- <-]. apply Hnone.
  - unfold FileObject.dump in Hfo.
    destruct (FileObject.dump_values _); simpl in Hfo; [|discriminate].
    apply fill_fresh_ok in Hfo as (_ & Hfo). rewrite Hflinks in Hfo.
    split; [|split].
    + cbn [records_of app map]. intros record reference [<-|[]] Href.
      unfold MISPObject.references in Href. rewrite Hfo in Href. destruct Href.
    + intros fo' [= <-]. assumption.
    + intros ? ? ? ? [=].
Qed.

End Records.

(** ** The byte counts behind the entropy *)

Section ByteCounts.
Import FileObject.

Lemma byte_eqb_spec (a b : Byte.byte) : Byte.eqb a b = true <-> a = b.
Proof.
  split; [apply Strings.Byte.byte_dec_bl | apply Strings.Byte.byte_dec_lb].
Qed.

Lemma byte_eqb_refl (a : Byte.byte) : Byte.eqb a a = true.
Proof. now apply byte_eqb_spec. Qed.

Lemma byte_eqb_sym (a b : Byte.byte) : Byte.eqb a b = Byte.eqb b a.
Proof.
  destruct (Byte.eqb a b) eqn:E1, (Byte.eqb b a) eqn:E2; auto.
  - apply byte_eqb_spec in E1. subst. now rewrite byte_eqb_refl in E2.
  - apply byte_eqb_spec in E2. subst. now rewrite byte_eqb_refl in E1.
Qed.

Lemma count_in_incr (c : list (Byte.byte * nat)) (b b' : Byte.byte) :
  count_in (counter_incr c b) b'
  = count_in c b' + (if Byte.eqb b b' then 1 else 0).
Proof.
  induction c as [|[b0 n0] c IH]; simpl.
  - rewrite (byte_eqb_sym b' b). destruct (Byte.eqb b b'); reflexivity.
  - destruct (Byte.eqb b b0) eqn:E0; simpl.
    + apply byte_eqb_spec in E0. subst b0.
      rewrite (byte_eqb_sym b' b).
      destruct (Byte.eqb b b'); lia.
    + destruct (Byte.eqb b' b0) eqn:E1; [|apply IH].
      apply byte_eqb_spec in E1. subst b0. rewrite E0. lia.
Qed.

Lemma keys_incr (c : list (Byte.byte * nat)) (b b' : Byte.byte) :
  In b' (map fst (counter_incr c b)) <-> b' = b \/ In b' (map fst c).
Proof.
  induction c as [|[b0 n0] c IH]; simpl.
  - intuition auto.
  - destruct (Byte.eqb b b0) eqn:E0; simpl.
    + apply byte_eqb_spec in E0. subst b0. intuition auto.
    + rewrite IH. intuition auto.
Qed.

Lemma NoDup_incr (c : list (Byte.byte * nat)) (b : Byte.byte) :
  NoDup (map fst c) -> NoDup (map fst (counter_incr c b)).
Proof.
  induction c as [|[b0 n0] c IH]; simpl; intros Hnd.
  - repeat constructor. intros [].
  - apply NoDup_cons_iff in Hnd as (Hb0 & Hnd).
    destruct (Byte.eqb b b0) eqn:E0; simpl.
    + constructor; assumption.
    + constructor; [|auto].
      rewrite keys_incr. intros [->|Hin]; [|contradiction].
      now rewrite byte_eqb_refl in E0.
Qed.

Lemma sum_incr (c : list (Byte.byte * nat)) (b : Byte.byte) :
  list_sum (map snd (counter_incr c b)) = S (list_sum (map snd c)).
Proof.
  induction c as [|[b0 n0] c IH]; simpl; auto.
  destruct (Byte.eqb b b0); simpl; [lia|]. rewrite IH. lia.
Qed.

Lemma positive_incr (c : list (Byte.byte * nat)) (b : Byte.byte) :
  Forall (fun e => 0 < snd e) c -> Forall (fun e => 0 < snd e) (counter_incr c b).
Proof.
  induction 1 as [|[b0 n0] c H0 Hc IH]; simpl.
  - repeat constructor.
  - destruct (Byte.eqb b b0); constructor; simpl in *; auto; lia.
Qed.

Lemma count_in_lookup (c : list (Byte.byte * nat)) (b : Byte.byte) (n : nat) :
  NoDup (map fst c) -> In (b, n) c -> count_in c b = n.
Proof.
  induction c as [|[b0 n0] c IH]; simpl; [intros _ []|].
  intros Hnd. apply NoDup_cons_iff in Hnd as (Hb0 & Hnd).
  intros [[= -> ->]|Hin].
  - now rewrite byte_eqb_refl.
  - destruct (Byte.eqb b b0) eqn:E; [|auto].
    apply byte_eqb_spec in E. subst b0. elim Hb0.
    apply in_map_iff. exists (b, n). auto.
Qed.

Lemma fold_counter (data : list Byte.byte) :
  forall c,
  NoDup (map fst c) -> Forall (fun e => 0 < snd e) c ->
  let c' := fold_left counter_incr data c in
  NoDup (map fst c') /\
  Forall (fun e => 0 < snd e) c' /\
  list_sum (map snd c') = list_sum (map snd c) + List.length data /\
  forall b, count_in c' b = count_in c b + count_occ Byte.byte_eq_dec data b.
Proof.
  induction data as [|x data IH]; intros c Hnd Hpos; simpl.
  - repeat split; auto.
  - destruct (IH (counter_incr c x) (NoDup_incr _ _ Hnd) (positive_incr _ _ Hpos))
      as (H1 & H2 & H3 & H4).
    split; [assumption|]. split; [assumption|]. split.
    + rewrite H3, sum_incr. lia.
    + intros b. rewrite H4, count_in_incr.
      destruct (Byte.byte_eq_dec x b) as [->|Hne].
      * rewrite byte_eqb_refl. lia.
      * destruct (Byte.eqb x b) eqn:E; [apply byte_eqb_spec in E; contradiction|].
        lia.
Qed.

Lemma byte_keys_bound (l : list Byte.byte) : NoDup l -> List.length l <= 256.
Proof.
  intros Hnd.
  assert (NoDup (map Byte.to_nat l)) as Hnd'.
  { apply NoDup_map_injective; [|assumption].
    intros a b Hab.
    pose proof (Strings.Byte.of_to_nat a) as Ha.
    pose proof (Strings.Byte.of_to_nat b) as Hb.
    rewrite Hab in Ha. congruence. }
  rewrite <- (length_map Byte.to_nat).
  replace 256 with (List.length (seq 0 256)) by apply length_seq.
  apply NoDup_incl_length; [assumption|].
  intros k Hk. apply in_map_iff in Hk as (b & <- & _).
  apply in_seq. pose proof (Strings.Byte.to_nat_bounded b). lia.
Qed.

(** What [__entropy_H] iterates over.  [Counter] has one entry per byte
    value that occurs in the buffer, at most 256 of them; the count of an
    entry is the number of occurrences of its value, which is at least 1;
    and the counts add up to the length of the buffer. *)
Theorem Counter_counts (data : list Byte.byte) :
  NoDup (map fst (Counter data)) /\
  List.length (Counter data) <= 256 /\
  list_sum (map snd (Counter data)) = List.length data /\
  (forall b n, In (b, n) (Counter data) <->
     n = count_occ Byte.byte_eq_dec data b /\ 0 < n).
Proof.
  unfold Counter.
  destruct (fold_counter data [] (NoDup_nil _) (Forall_nil _))
    as (Hnd & Hpos & Hsum & Hcount).
  split; [assumption|]. split.
  - rewrite <- (length_map fst). now apply byte_keys_bound.
  - split; [assumption|].
    intros b n. split.
    + intros Hin. split.
      * rewrite <- (count_in_lookup _ _ _ Hnd Hin), Hcount. reflexivity.
      * rewrite Forall_forall in Hpos. exact (Hpos _ Hin).
    + intros (-> & Hn).
      specialize (Hcount b). simpl in Hcount.
      revert Hcount Hn. generalize (count_occ Byte.byte_eq_dec data b).
      generalize (fold_left counter_incr data []).
      intros c m. induction c as [|[b0 n0] c IH]; simpl.
      * intros <-. lia.
      * destruct (Byte.eqb b b0) eqn:E.
        -- apply byte_eqb_spec in E. subst b0. intros -> _. now left.
        -- intros Hc Hm. right. auto.
Qed.

End ByteCounts.

(** ** One round of the loop as a function of the dictionary *)

Section FillPure.
Context {env : Environment}.
Import MISPObjectGenerator.

Lemma lookup_attribute_eq (self : t) (k : string) :
  (a <- attribute_definition self k ;; py_getitem a "misp-attribute")%result
  = rmap snd (lookup_attribute self k).
Proof.
  unfold lookup_attribute.
  destruct (attribute_definition self k) as [[ | | | | | | |ad]|]; try reflexivity.
  simpl. destruct (dict_find ad "misp-attribute"); reflexivity.
Qed.

(** A round reads and writes the dictionary of its key, and nothing
    else of the store. *)
Lemma fill_attribute_pure (self : t) (k : string) (l : loc) (h : heap) :
  snd (fill_attribute self (k, l) h) = round_result self k (h l) /\
  fst (fill_attribute self (k, l) h) l = round_dict self k (h l) /\
  forall l', l' <> l -> fst (fill_attribute self (k, l) h) l' = h l'.
Proof.
  unfold round_result, round_dict.
  destruct (is_None (dict_get (h l) "value")) eqn:E.
  - rewrite fill_attribute_skip by assumption. auto.
  - unfold fill_attribute, bind, value_get. rewrite E.
    unfold lift at 1. rewrite lookup_attribute_eq.
    unfold lookup_attribute.
    destruct (attribute_definition self k) as [[ | | | | | | |ad]|] eqn:Ea;
      simpl; auto.
    destruct (dict_find ad "misp-attribute") as [ty|] eqn:Ety; simpl; auto.
    unfold value_setitem, ret, value_read, lift, filled, with_default.
    cbn beta iota. rewrite !upd_eq.
    destruct (is_None (dict_get (dict_set (h l) "type" ty) "disable_correlation"));
      cbn beta iota; rewrite ?upd_eq;
      match goal with
      | |- context [is_None (dict_get ?d "to_ids")] =>
          destruct (is_None (dict_get d "to_ids"))
      end;
      cbn beta iota; rewrite ?upd_eq;
      match goal with
      | |- context [set_all_values_json ?d] =>
          destruct (set_all_values_json d)
      end;
      simpl; rewrite ?upd_eq;
      (repeat split; auto; intros l' Hl'; now rewrite ?upd_ne by assumption).
Qed.

Lemma fill_attribute_ext (self : t) (item : string * loc) (ha hb : heap) :
  (forall l, ha l = hb l) ->
  snd (fill_attribute self item ha) = snd (fill_attribute self item hb) /\
  forall l, fst (fill_attribute self item ha) l = fst (fill_attribute self item hb) l.
Proof.
  intros Hext. destruct item as [k l0].
  destruct (fill_attribute_pure self k l0 ha) as (Hra & Hda & Hfa).
  destruct (fill_attribute_pure self k l0 hb) as (Hrb & Hdb & Hfb).
  split.
  - now rewrite Hra, Hrb, Hext.
  - intros l. destruct (Nat.eq_dec l l0) as [->|Hne].
    + now rewrite Hda, Hdb, Hext.
    + now rewrite Hfa, Hfb by assumption.
Qed.

(** Stores that agree give the same outcome, and agree afterwards. *)
Lemma fill_attributes_ext (self : t) (values : values_map) :
  forall acc ha hb,
  (forall l, ha l = hb l) ->
  snd (fill_attributes self values acc ha) = snd (fill_attributes self values acc hb) /\
  forall l, fst (fill_attributes self values acc ha) l
            = fst (fill_attributes self values acc hb) l.
Proof.
  induction values as [|item rest IH]; intros acc ha hb Hext;
    cbn [fill_attributes].
  - simpl. auto.
  - unfold bind.
    destruct (fill_attribute_ext self item ha hb Hext) as (Hr & Hh).
    destruct (fill_attribute self item ha) as [ha1 ra].
    destruct (fill_attribute self item hb) as [hb1 rb].
    simpl in Hr, Hh. subst rb.
    destruct ra as [o|e]; [|simpl; auto].
    apply IH. assumption.
Qed.

Lemma dict_set_same (d : pydict) (k : string) (v : pyval) :
  dict_find d k = Some v -> dict_set d k v = d.
Proof.
  induction d as [|[k' v'] d IH]; simpl; [discriminate|].
  destruct (String.eqb k k') eqn:E.
  - intros [= ->]. reflexivity.
  - intros Hf. now rewrite IH.
Qed.

Lemma with_default_settled (ad d : pydict) (key : string) :
  settled ad d key -> with_default ad d key = d.
Proof.
  unfold with_default. intros [Hv|Hf].
  - now rewrite Hv.
  - destruct (is_None (dict_get d key)); [|reflexivity].
    now apply dict_set_same.
Qed.

Lemma settled_with_default (ad d : pydict) (key : string) :
  settled ad (with_default ad d key) key.
Proof.
  unfold with_default.
  destruct (is_None (dict_get d key)) eqn:E.
  - right. apply dict_find_set_eq.
  - left. assumption.
Qed.

Lemma with_default_other (ad d : pydict) (key key' : string) :
  key <> key' ->
  dict_find (with_default ad d key) key' = dict_find d key'.
Proof.
  intros Hne. unfold with_default.
  destruct (is_None (dict_get d key)); [|reflexivity].
  now apply dict_find_set_ne.
Qed.

Lemma settled_other (ad d d' : pydict) (key : string) :
  dict_find d' key = dict_find d key -> settled ad d key -> settled ad d' key.
Proof.
  unfold settled, dict_get. intros ->. auto.
Qed.

Lemma filled_idempotent (ad : pydict) (ty : pyval) (d : pydict) :
  filled ad ty (filled ad ty d) = filled ad ty d.
Proof.
  set (d3 := filled ad ty d).
  assert (dict_find d3 "type" = Some ty) as Hty.
  { unfold d3, filled.
    rewrite !with_default_other by discriminate. apply dict_find_set_eq. }
  assert (settled ad d3 "disable_correlation") as Hdc.
  { unfold d3, filled.
    eapply settled_other; [|apply settled_with_default].
    apply with_default_other. discriminate. }
  assert (settled ad d3 "to_ids") as Hti
    by (unfold d3, filled; apply settled_with_default).
  unfold filled at 1.
  rewrite (dict_set_same _ _ _ Hty).
  rewrite (with_default_settled _ _ _ Hdc).
  now rewrite (with_default_settled _ _ _ Hti).
Qed.

Lemma filled_value (ad : pydict) (ty : pyval) (d : pydict) :
  dict_get (filled ad ty d) "value" = dict_get d "value".
Proof.
  unfold dict_get, filled.
  rewrite !with_default_other by discriminate.
  now rewrite dict_find_set_ne by discriminate.
Qed.

(** A second round on the dictionary that a successful round left changes
    nothing and returns the same attribute. *)
Lemma round_idempotent (self : t) (k : string) (d : pydict)
  (o : option object_attribute) :
  round_result self k d = Ok o ->
  round_dict self k (round_dict self k d) = round_dict self k d /\
  round_result self k (round_dict self k d) = Ok o.
Proof.
  unfold round_result, round_dict.
  destruct (is_None (dict_get d "value")) eqn:E.
  - rewrite E. auto.
  - destruct (lookup_attribute self k) as [[ad ty]|]; [|discriminate].
    rewrite filled_value, E, filled_idempotent. auto.
Qed.

(** With one dictionary per key, a second run of the loop on the store
    that a successful run left returns the same attributes and leaves the
    store as it is. *)
Lemma fill_attributes_idempotent (self : t) (values : values_map) :
  forall acc h h' attrs,
  NoDup (map snd values) ->
  fill_attributes self values acc h = (h', Ok attrs) ->
  snd (fill_attributes self values acc h') = Ok attrs /\
  forall l, fst (fill_attributes self values acc h') l = h' l.
Proof.
  induction values as [|[k l0] rest IH]; intros acc h h' attrs Hnd;
    cbn [fill_attributes].
  - unfold ret. intros [= <- <-]. simpl. auto.
  - cbn [map snd] in Hnd. apply NoDup_cons_iff in Hnd as (Hl0 & Hnd).
    unfold bind at 1.
    destruct (fill_attribute_pure self k l0 h) as (Hr1 & Hd1 & Hf1).
    destruct (fill_attribute self (k, l0) h) as [h1 r1] eqn:Hstep.
    simpl in Hr1, Hd1, Hf1.
    destruct r1 as [o|e]; [|discriminate].
    intros Hrest.
    destruct (fill_attributes_spec _ _ _ _ _ _ Hrest) as (_ & Hframe & _).
    destruct (round_idempotent self k (h l0) o (eq_sym Hr1)) as (Hdd & Hrr).
    unfold bind.
    destruct (fill_attribute_pure self k l0 h') as (Hr2 & Hd2 & Hf2).
    destruct (fill_attribute self (k, l0) h') as [h2 r2] eqn:Hstep2.
    simpl in Hr2, Hd2, Hf2.
    assert (h' l0 = round_dict self k (h l0)) as Hl by
      (now rewrite (Hframe l0 Hl0), Hd1).
    rewrite Hl, Hrr in Hr2. rewrite Hl, Hdd in Hd2. subst r2.
    assert (forall l, h2 l = h' l) as Hsame.
    { intros l. destruct (Nat.eq_dec l l0) as [->|Hne].
      - now rewrite Hd2, Hl.
      - now apply Hf2. }
    destruct (IH _ _ _ _ Hnd Hrest) as (Hres & Hheap).
    destruct (fill_attributes_ext self rest
                match o with Some a => acc ++ [a] | None => acc end
                h2 h' Hsame) as (Hres' & Hheap').
    split.
    + now rewrite Hres', Hres.
    + intros l. now rewrite Hheap', Hheap.
Qed.

(** Assembling a record a second time from the same values, on the store
    that the first call left, returns the same record and changes no
    dictionary, provided the keys do not share dictionaries. *)
Theorem fill_object_idempotent (self : t) (values : values_map) (strict : bool)
  (h h' : heap) (r : MISPObject.t) :
  NoDup (map snd values) ->
  _fill_object self values strict h = (h', Ok r) ->
  snd (_fill_object self values strict h') = Ok r /\
  forall l, fst (_fill_object self values strict h') l = h' l.
Proof.
  intros Hnd Hrun.
  assert (_fill_object self values strict h' = _fill_object self values false h')
    as ->.
  { destruct strict; [|reflexivity].
    rewrite _fill_object_strict in Hrun |- *.
    destruct (_validate self values); [reflexivity|discriminate]. }
  apply _fill_object_ok in Hrun as (attrs & Hloop & ->).
  destruct (fill_attributes_idempotent _ _ _ _ _ _ Hnd Hloop) as (Hres & Hheap).
  rewrite _fill_object_lenient.
  destruct (fill_attributes self values [] h') as [h2 r2].
  simpl in Hres, Hheap. subst r2. simpl. auto.
Qed.

End FillPure.

(** ** PEObject.dump on instances that the constructor built *)

Section PEDump.
Context {env : Environment}.
Import PEObject.

Lemma In_when_set (k key : string) (d : pydict) (o : option pyval) :
  In (k, d) (when_set key o) -> k = key /\ o <> None.
Proof.
  destruct o; simpl; [|intros []].
  intros [[= <- _]|[]]. split; [reflexivity|discriminate].
Qed.

Lemma In_keys_when_set (k key : string) (o : option pyval) :
  In k (map fst (when_set key o)) -> k = key /\ o <> None.
Proof.
  destruct o; simpl; [|intros []].
  intros [<-|[]]. split; [reflexivity|discriminate].
Qed.

Lemma dump_values_entrypoint_key (self : t) :
  In "entrypoint-section|position"%string (map fst (dump_values self)) ->
  entrypoint_section self <> None.
Proof.
  unfold dump_values. rewrite !map_app. intros H.
  repeat (apply in_app_or in H; destruct H as [H|H]);
    try (apply In_keys_when_set in H as (Hk & Ho); try discriminate Hk);
    try (simpl in H; destruct H as [H|[]]; discriminate H).
  destruct (entrypoint_section self); [discriminate|]. now elim Ho.
Qed.

(** For a [PEObject] that the constructor built: the type is one of four
    words; [dump] always has the keys ['type'] and ['number-sections'], the
    latter with the number of section generators; it has the eight keys of
    the version resource all together or not at all; and the record has the
    attribute ['entrypoint-section|position'] exactly when an entry-point
    section was found. *)
Theorem PEObject_dump_built (data' : list Byte.byte) (n n' : nat) (self : t) :
  __init__ data' n = (n', Ok self) ->
  (pe_type self = "dll" \/ pe_type self = "driver" \/
   pe_type self = "exe" \/ pe_type self = "unknown")%string /\
  In ("type"%string, value_only (PStr (pe_type self))) (dump_values self) /\
  In ("number-sections"%string,
      value_only (PInt (Z.of_nat (List.length (sections self)))))
    (dump_values self) /\
  ((forall k, In k version_keys -> In k (map fst (dump_values self))) \/
   (forall k, In k version_keys -> ~ In k (map fst (dump_values self)))) /\
  forall r, dump self = Ok r ->
    In "type"%string (map oa_type (MISPObject.ObjectAttribute r)) /\
    In "number-sections"%string (map oa_type (MISPObject.ObjectAttribute r)) /\
    (In "entrypoint-section|position"%string
       (map oa_type (MISPObject.ObjectAttribute r))
     <-> entrypoint_section self <> None).
Proof.
  intros Hinit.
  apply PEObject_init_inv in Hinit
    as (pe' & ss & base' & st & fi & _ & _ & _ & _ & Hty & _ & _ & _ & _ & Hver
        & Hnone & _ & _ & _ & Hsecs & _ & Hnb).
  assert (In ("type"%string, value_only (PStr (pe_type self))) (dump_values self))
    as Htype by (unfold dump_values; simpl; auto).
  assert (In ("number-sections"%string,
              value_only (PInt (Z.of_nat (List.length (sections self)))))
            (dump_values self)) as Hnum.
  { unfold dump_values. rewrite Hnb, Hsecs.
    repeat (apply in_or_app; right). simpl. auto. }
  split.
  { rewrite Hty. destruct (pefile.is_dll pe'), (pefile.is_driver pe'),
      (pefile.is_exe pe'); auto. }
  split; [assumption|]. split; [assumption|]. split.
  - destruct fi as [[[[[[[[[a b] c] d] e] f] g] h] i]|].
    + left. unfold version_attributes in Hver.
      destruct (original_filename self) eqn:E1; [|discriminate].
      destruct (internal_filename self) eqn:E2; [|discriminate].
      destruct (file_description self) eqn:E3; [|discriminate].
      destruct (file_version self) eqn:E4; [|discriminate].
      destruct (lang_id self) eqn:E5; [|discriminate].
      destruct (product_name self) eqn:E6; [|discriminate].
      destruct (product_version self) eqn:E7; [|discriminate].
      destruct (company_name self) eqn:E8; [|discriminate].
      intros k Hk. unfold dump_values.
      rewrite E1, E2, E3, E4, E5, E6, E7, E8.
      destruct (compilation_timestamp self), (entrypoint_section self),
        (entrypoint_address self); simpl in *; intuition auto.
    + right. destruct (Hnone eq_refl)
        as (E1 & E2 & E3 & E4 & E5 & E6 & E7 & E8 & _).
      intros k Hk. unfold dump_values.
      rewrite E1, E2, E3, E4, E5, E6, E7, E8.
      destruct (compilation_timestamp self), (entrypoint_section self),
        (entrypoint_address self); simpl in *;
        intuition (subst; discriminate).
  - intros r Hr. unfold dump in Hr.
    rewrite (fill_fresh_attribute_keys _ _ _ Hr).
    split; [|split].
    + eapply in_filter_keys; [exact Htype|reflexivity].
    + eapply in_filter_keys; [exact Hnum|reflexivity].
    + split.
      * intros Hin. apply in_map_iff in Hin as ([k d] & Hk & Hin).
        simpl in Hk. subst k. apply filter_In in Hin as (Hin & _).
        apply (in_map fst) in Hin.
        now apply dump_values_entrypoint_key.
      * intros Hes. destruct (entrypoint_section self) as [[nm pos]|] eqn:E;
          [|congruence].
        eapply (in_filter_keys _
                  (value_only (PStr (str_format nm ++ "|" ++ str_of_nat pos)))).
        -- unfold dump_values. rewrite E.
           do 5 (apply in_or_app; right).
           apply in_or_app. left. simpl. auto.
        -- reflexivity.
Qed.

End PEDump.

(** * The further statements on the sample data *)

Lemma fill_object_idempotent_witness :
  NoDup (map snd Sample.values) /\
  MISPObjectGenerator._fill_object (env := Sample.env) Sample.generator
    Sample.values true Sample.store = (sample_store', Ok sample_record) /\
  snd (MISPObjectGenerator._fill_object (env := Sample.env) Sample.generator
         Sample.values true sample_store') = Ok sample_record /\
  forall l,
    fst (MISPObjectGenerator._fill_object (env := Sample.env) Sample.generator
           Sample.values true sample_store') l = sample_store' l.
Proof.
  assert (NoDup (map snd Sample.values)) as Hnd.
  { simpl. repeat constructor; simpl; intuition discriminate. }
  split; [exact Hnd|]. split; [exact sample_run|].
  exact (fill_object_idempotent (env := Sample.env) _ _ _ _ _ _ Hnd sample_run).
Defined.

(** The record of the empty file has two attributes, the one of notes.txt
    nine. *)
Lemma FileObject_dump_built_witness :
  (exists n1 self r,
     FileObject.__init__ (env := env_with_empty) "empty.bin" 0 = (n1, Ok self) /\
     FileObject.dump (env := env_with_empty) self = Ok r /\
     map oa_type (MISPObject.ObjectAttribute r) = ["filename"; "size-in-bytes"]%string) /\
  (exists n1 self r,
     FileObject.__init__ (env := Sample.env) "notes.txt" 0 = (n1, Ok self) /\
     FileObject.dump (env := Sample.env) self = Ok r /\
     List.length (MISPObject.ObjectAttribute r) = 9).
Proof.
  split.
  - destruct (FileObject.__init__ (env := env_with_empty) "empty.bin" 0)
      as [n1 [self|e]] eqn:Hinit; [|vm_compute in Hinit; discriminate].
    destruct (FileObject_dump_built (env := env_with_empty) _ _ _ _ Hinit)
      as (_ & Hdump).
    vm_compute in Hinit. injection Hinit as <- <-.
    match goal with
    | H : forall r, FileObject.dump ?s = Ok r -> _ |- _ =>
        destruct (FileObject.dump (env := env_with_empty) s) as [r|e] eqn:Hr;
          [|vm_compute in Hr; discriminate];
        exists 1, s, r; split; [reflexivity|]; split; [exact Hr|];
        exact (proj2 (H r eq_refl))
    end.
  - destruct (FileObject.__init__ (env := Sample.env) "notes.txt" 0)
      as [n1 [self|e]] eqn:Hinit; [|vm_compute in Hinit; discriminate].
    destruct (FileObject_dump_built (env := Sample.env) _ _ _ _ Hinit)
      as (_ & Hdump).
    vm_compute in Hinit. injection Hinit as <- <-.
    match goal with
    | H : forall r, FileObject.dump ?s = Ok r -> _ |- _ =>
        destruct (FileObject.dump (env := Sample.env) s) as [r|e] eqn:Hr;
          [|vm_compute in Hr; discriminate];
        exists 1, s, r; split; [reflexivity|]; split; [exact Hr|];
        rewrite <- (length_map oa_type), (proj2 (H r eq_refl)); reflexivity
    end.
Defined.

(** The second section of sample.exe has no raw data. *)
Lemma PESectionObject_dump_built_witness :
  exists n1 self vs,
    PESectionObject.__init__ (env := Sample.env)
      (Sample.section_info ".data" 8192 256 0) [] 3 = (n1, Ok self) /\
    PESectionObject.dump_values self = Ok vs /\
    map fst vs = ["name"; "size-in-bytes"]%string.
Proof.
  destruct (PESectionObject.__init__ (env := Sample.env)
              (Sample.section_info ".data" 8192 256 0) [] 3)
    as [n1 [self|e]] eqn:Hinit; [|vm_compute in Hinit; discriminate].
  destruct (PESectionObject_dump_built (env := Sample.env) _ _ _ _ _ Hinit)
    as (z & vs & Hz & Hvs & Hkeys & _).
  exists n1, self, vs. split; [reflexivity|]. split; [exact Hvs|].
  vm_compute in Hinit. injection Hinit as <- <-.
  vm_compute in Hz. injection Hz as <-. exact Hkeys.
Defined.

(** The entry point 4200 lies in the section from 4096 to 4608, and 100
    lies below it. *)
Lemma entrypoint_in_section_interval_witness :
  PEObject.entrypoint_in_section (Some (PInt 4200))
    (Sample.section_info ".text" 4096 512 512) = Ok true /\
  PEObject.entrypoint_in_section (Some (PInt 100))
    (Sample.section_info ".text" 4096 512 512) = Ok false.
Proof.
  split.
  - apply (entrypoint_in_section_interval (Some (PInt 4200))
             (Sample.section_info ".text" 4096 512 512)).
    exists (PInt 4200), (PInt 4096), (PInt 512), 4200%Z, 4096%Z, 512%Z.
    repeat split; lia.
  - apply (proj2 (entrypoint_in_section_interval (Some (PInt 100))
                    (Sample.section_info ".text" 4096 512 512))
             (PInt 100) (PInt 4096) 100%Z 4096%Z); try reflexivity.
Defined.

(** sample.exe: two sections, the entry point in the first. *)
Lemma PEObject_sections_by_position_witness :
  exists n' self,
    PEObject.__init__ (env := Sample.env) Sample.exe_bytes 1 = (n', Ok self) /\
    PEObject.nb_sections self = 2 /\
    n' = 4.
Proof.
  destruct (PEObject.__init__ (env := Sample.env) Sample.exe_bytes 1)
    as [n' [self|e]] eqn:Hinit; [|vm_compute in Hinit; discriminate].
  destruct (PEObject_sections_by_position (env := Sample.env) _ _ _ _ Hinit)
    as (pe' & ss & Hpe & Hss & Hnb & _ & _ & Hn & _).
  exists n', self. split; [reflexivity|].
  vm_compute in Hpe. injection Hpe as <-.
  vm_compute in Hss. injection Hss as <-.
  split; [exact Hnb | exact Hn].
Defined.

Lemma PEObject_entrypoint_section_last_witness :
  exists n' self,
    PEObject.__init__ (env := Sample.env) Sample.exe_bytes 1 = (n', Ok self) /\
    PEObject.entrypoint_section self = Some (PStr ".text", 0) /\
    PEObject.entrypoint_in_section (PEObject.entrypoint_address self)
      (Sample.section_info ".text" 4096 512 512) = Ok true.
Proof.
  destruct (PEObject.__init__ (env := Sample.env) Sample.exe_bytes 1)
    as [n' [self|e]] eqn:Hinit; [|vm_compute in Hinit; discriminate].
  destruct (PEObject_entrypoint_section_last (env := Sample.env) _ _ _ _ Hinit)
    as (pe' & ss & Hpe & Hss & Hlast).
  exists n', self. split; [reflexivity|].
  vm_compute in Hpe. injection Hpe as <-.
  vm_compute in Hss. injection Hss as <-.
  assert (PEObject.entrypoint_section self = Some (PStr ".text", 0)) as Hes
    by (vm_compute in Hinit; injection Hinit as <- <-; reflexivity).
  split; [exact Hes|].
  rewrite Hes in Hlast. destruct Hlast as (s & Hs & Htrue & _).
  injection Hs as <-. exact Htrue.
Defined.

Lemma PEObject_dump_built_witness :
  exists n' self,
    PEObject.__init__ (env := Sample.env) Sample.exe_bytes 1 = (n', Ok self) /\
    PEObject.pe_type self = "exe"%string /\
    In ("number-sections"%string, value_only (PInt 2))
      (PEObject.dump_values (env := Sample.env) self) /\
    ~ In "file-version"%string
        (map fst (PEObject.dump_values (env := Sample.env) self)).
Proof.
  destruct (PEObject.__init__ (env := Sample.env) Sample.exe_bytes 1)
    as [n' [self|e]] eqn:Hinit; [|vm_compute in Hinit; discriminate].
  destruct (PEObject_dump_built (env := Sample.env) _ _ _ _ Hinit)
    as (_ & _ & Hnum & Hver & _).
  exists n', self. split; [reflexivity|].
  split; [vm_compute in Hinit; injection Hinit as <- <-; reflexivity|].
  split; [vm_compute in Hinit; injection Hinit as <- <-; exact Hnum|].
  destruct Hver as [Hall|Hnone].
  - intros _.
    pose proof (Hall "file-version"%string
                  ltac:(unfold version_keys; simpl; auto 10)) as H.
    vm_compute in Hinit. injection Hinit as <- <-.
    vm_compute in H. intuition discriminate.
  - apply Hnone. unfold version_keys. simpl. auto 10.
Defined.

(** No version resource, one with two entries, one with a single entry. *)
Lemma read_file_info_cases_witness :
  PEObject.read_file_info (PDict []) = Ok None /\
  PEObject.read_file_info
    (PDict [("File Info",
             PList [PDict []; PDict [("OriginalFilename", PStr "a.exe")]])])
  = Ok (Some (PStr "a.exe", PNone, PNone, PNone, PNone, PNone, PNone, PNone, PNone)) /\
  PEObject.read_file_info (PDict [("File Info", PList [PDict []])])
  = Raise IndexError.
Proof.
  split; [|split].
  - apply (read_file_info_cases (env := Sample.env) (PDict [])) with (v := PNone);
      reflexivity.
  - apply (proj1 (proj2 (read_file_info_cases (env := Sample.env) _))
             [("File Info",
               PList [PDict []; PDict [("OriginalFilename", PStr "a.exe")]])]
             [PDict []; PDict [("OriginalFilename", PStr "a.exe")]]
             [("OriginalFilename", PStr "a.exe")]); reflexivity.
  - apply (proj2 (proj2 (read_file_info_cases (env := Sample.env) _))
             [("File Info", PList [PDict []])] (PDict [])); reflexivity.
Defined.

(** The identifiers of the sample environment are pairwise distinct. *)
Lemma to_uint_not_Nil (n : nat) : Nat.to_uint n <> Decimal.Nil.
Proof.
  rewrite <- (DecimalNat.Unsigned.of_to n), DecimalNat.Unsigned.to_of.
  unfold Decimal.unorm.
  destruct (Decimal.nzhead (Nat.to_uint n)); discriminate.
Qed.

Lemma str_of_nat_inj (i j : nat) : str_of_nat i = str_of_nat j -> i = j.
Proof.
  unfold str_of_nat. intros H.
  apply (f_equal NilZero.uint_of_string) in H.
  rewrite !NilZero.usu in H by apply to_uint_not_Nil.
  injection H as H. now apply DecimalNat.Unsigned.to_uint_inj.
Qed.

Lemma sample_uuid4_inj (i j : nat) :
  uuid_uuid4 (Environment := Sample.env) i
    = uuid_uuid4 (Environment := Sample.env) j -> i = j.
Proof.
  cbn [uuid_uuid4 Sample.env]. intros H.
  apply str_of_nat_inj.
  cbn [String.append] in H. now injection H.
Qed.

(** sample.exe: four records, numbered 0 to 3. *)
Lemma make_objects_uuids_witness :
  exists n' o,
    make_objects (env := Sample.env) "sample.exe" 0 = (n', Ok o) /\
    map MISPObject.uuid (records_of o)
      = ["uuid-0"; "uuid-1"; "uuid-2"; "uuid-3"]%string /\
    n' = 4 /\
    NoDup (map MISPObject.uuid (records_of o)).
Proof.
  destruct (make_objects (env := Sample.env) "sample.exe" 0)
    as [n' [o|e]] eqn:Hm; [|vm_compute in Hm; discriminate].
  destruct (make_objects_uuids (env := Sample.env) _ _ _ _ Hm)
    as (Hu & Hn & Hd).
  exists n', o. split; [reflexivity|].
  split; [|split].
  - rewrite Hu. vm_compute in Hm. injection Hm as <- <-. reflexivity.
  - vm_compute in Hm. injection Hm as <- <-.
    exact (Hn _ _ _ eq_refl).
  - exact (Hd sample_uuid4_inj).
Defined.

(** sample.exe: every reference names one of the four records. *)
Lemma make_objects_references_resolve_witness :
  exists n' o,
    make_objects (env := Sample.env) "sample.exe" 0 = (n', Ok o) /\
    (forall record reference,
       In record (records_of o) ->
       In reference (MISPObject.references record) ->
       In (referenced_object_uuid reference)
         ["uuid-0"; "uuid-1"; "uuid-2"; "uuid-3"]%string) /\
    (forall record, In record sample_pe_sections ->
       MISPObject.ObjectReference record = None).
Proof.
  destruct (make_objects (env := Sample.env) "sample.exe" 0)
    as [n' [o|e]] eqn:Hm; [|vm_compute in Hm; discriminate].
  destruct (make_objects_references_resolve (env := Sample.env) _ _ _ _ Hm)
    as (Hr & _ & Hs).
  exists n', o. split; [reflexivity|].
  vm_compute in Hm. injection Hm as <- <-.
  split.
  - exact Hr.
  - intros record Hin. exact (Hs _ _ _ record eq_refl Hin).
Defined.
